(** * Teacher Assistant text-analysis tools: a Rocq model of
      [teacher_assistant/tools/custom_tool.py]

    The two tools of the module, [NotesAnalysisTool] and [GradeLevelAnalyzer],
    are embedded as executable Rocq functions and the statements of the
    specification are proved (or refuted) about them.

    - A Python [str] is a sequence of Unicode code points; a code point is a
      natural number ([N]).
    - What Python takes from the Unicode character database ([str.lower],
      [str.isspace], [str.isupper], [str.isdigit] and the regex classes
      [\s], [\d]) is a parameter [U] of the model, so that the general
      theorems hold whatever the database says.  The instance [basic_latin]
      is the database restricted to the Basic Latin block; it is used to
      evaluate the functions on ASCII texts.
    - Operations that can raise ([line[0]], [parts[1]], [/], [max]) return in
      the error monad [result].
    - Floats are IEEE binary64 values ([spec_float] at precision 53). *)

From Stdlib Require Import Strings.String Strings.Ascii.
From Stdlib Require Import List NArith ZArith Bool Lia PeanoNat.
From Stdlib Require Import Floats.SpecFloat.
From Stdlib Require Import Numbers.DecimalString.
Import ListNotations.

Set Implicit Arguments.

(* ------------------------------------------------------------------ *)
(** * Python strings *)

Definition str := list N.

(** An ASCII literal as a Python string. *)
Definition py (x : String.string) : str :=
  map Ascii.N_of_ascii (String.list_ascii_of_string x).
Arguments py x%_string.

Definition NL : N := 10.        (* '\n' *)
Definition colon : N := 58.     (* ':' *)
Definition period : N := 46.    (* '.' *)
Definition bullet : N := 8226.  (* U+2022 *)

(** The part of the Unicode character database the module consults. *)
Record unicode := {
  lower : str -> str;       (* str.lower() *)
  isspace : N -> bool;      (* str.isspace(), regex \s, split(), strip() *)
  isupper : N -> bool;      (* c.isupper() on a one-character string *)
  isdigit : N -> bool;      (* c.isdigit() *)
  isdecimal : N -> bool     (* regex \d *)
}.

Definition str_eqb (a b : str) : bool :=
  if list_eq_dec N.eq_dec a b then true else false.

(** [s.startswith(p)] *)
Fixpoint startswith (p s : str) : bool :=
  match p, s with
  | [], _ => true
  | _ :: _, [] => false
  | a :: p', b :: s' => N.eqb a b && startswith p' s'
  end.

(** [needle in hay] *)
Fixpoint contains (needle hay : str) : bool :=
  startswith needle hay ||
  match hay with
  | [] => false
  | _ :: t => contains needle t
  end.

(** [c in s] for a one-character string [c] *)
Definition has_char (c : N) (s : str) : bool := existsb (N.eqb c) s.

(** [s.split(sep)] for a one-character separator *)
Fixpoint split_chr (sep : N) (s : str) : list str :=
  match s with
  | [] => [[]]
  | c :: t =>
      if N.eqb c sep then [] :: split_chr sep t
      else match split_chr sep t with
           | h :: r => (c :: h) :: r
           | [] => [[c]]
           end
  end.

(** [s.split(sep, 1)] for a one-character separator *)
Fixpoint split_chr1 (sep : N) (s : str) : list str :=
  match s with
  | [] => [[]]
  | c :: t =>
      if N.eqb c sep then [[]; t]
      else match split_chr1 sep t with
           | h :: r => (c :: h) :: r
           | [] => [[c]]
           end
  end.

(** [any(m in s for m in markers)] *)
Definition any_in (markers : list str) (s : str) : bool :=
  existsb (fun m => contains m s) markers.

(** [s.startswith((c1, ..., cn))] for one-character strings *)
Definition startswith_any (cs : list N) (s : str) : bool :=
  match s with
  | [] => false
  | c :: _ => existsb (N.eqb c) cs
  end.

Section UnicodeStrings.
Variable U : unicode.

Fixpoint lstrip (s : str) : str :=
  match s with
  | [] => []
  | c :: t => if isspace U c then lstrip t else s
  end.

Definition rstrip (s : str) : str := rev (lstrip (rev s)).

(** [s.strip()] *)
Definition strip (s : str) : str := rstrip (lstrip s).

(** [s.split()]: the maximal runs of non-whitespace; [cur] is the token
    being read, reversed. *)
Fixpoint split_ws_from (cur : str) (s : str) : list str :=
  match s with
  | [] => match cur with [] => [] | _ => [rev cur] end
  | c :: t =>
      if isspace U c
      then match cur with
           | [] => split_ws_from [] t
           | _ => rev cur :: split_ws_from [] t
           end
      else split_ws_from (c :: cur) t
  end.

Definition split_ws (s : str) : list str := split_ws_from [] s.
End UnicodeStrings.

(** Truth value of a string: non-empty. *)
Definition truthy (s : str) : bool :=
  match s with [] => false | _ => true end.

(* ------------------------------------------------------------------ *)
(** * Exceptions *)

Inductive exn := IndexError | ZeroDivisionError | ValueError.

Inductive result (A : Type) :=
| Ok (a : A)
| Raise (e : exn).
Arguments Ok {A} a.
Arguments Raise {A} e.

Definition bind {A B} (m : result A) (k : A -> result B) : result B :=
  match m with
  | Ok a => k a
  | Raise e => Raise e
  end.

Notation "x <- m ;; k" := (bind m (fun x => k))
  (at level 61, m at next level, right associativity).
Notation "' pat <- m ;; k" := (bind m (fun x => match x with pat => k end))
  (at level 61, pat pattern, m at next level, right associativity).

(** [s[i]] *)
Definition index {A} (s : list A) (i : nat) : result A :=
  match nth_error s i with
  | Some x => Ok x
  | None => Raise IndexError
  end.

(** A [for] loop threading a state through a body that may raise. *)
Fixpoint for_each {S A} (body : S -> A -> result S) (st : S) (xs : list A)
  : result S :=
  match xs with
  | [] => Ok st
  | x :: t => st' <- body st x ;; for_each body st' t
  end.

(* ------------------------------------------------------------------ *)
(** * Regular expressions

    The fragment of [re] the module uses, with the matching discipline of
    the library: leftmost match, alternatives tried in order, greedy
    repetition with backtracking, one capturing group. *)

Inductive regex :=
| Eps                        (* the empty pattern *)
| Bol                        (* ^ *)
| Chr (c : N)                (* a literal character *)
| Cls (p : N -> bool)        (* a character class *)
| Cat (r1 r2 : regex)
| Alt (r1 r2 : regex)
| Many (p : N -> bool)       (* [class]*, greedy *)
| Grp (r : regex).           (* ( ... ), group 1 *)

(** [class]+ *)
Definition Many1 (p : N -> bool) : regex := Cat (Cls p) (Many p).

(** a literal string *)
Fixpoint Lit (s : str) : regex :=
  match s with
  | [] => Eps
  | c :: t => Cat (Chr c) (Lit t)
  end.

Section Matcher.
Variable R : Type.

(** Greedy repetition: take one more character when possible, fall back
    to stopping here when the rest of the pattern fails. *)
Fixpoint many (p : N -> bool) (pos : nat) (s : str)
         (k : nat -> str -> option R) : option R :=
  match s with
  | c :: t =>
      if p c
      then match many p (S pos) t k with
           | Some x => Some x
           | None => k pos s
           end
      else k pos s
  | [] => k pos s
  end.

(** [rmatch r pos s cap k]: match [r] at offset [pos], where [s] is the
    text from [pos] on, [cap] the text of group 1 so far and [k] the rest
    of the pattern. *)
Fixpoint rmatch (r : regex) (pos : nat) (s : str) (cap : option str)
         (k : nat -> str -> option str -> option R) : option R :=
  match r with
  | Eps => k pos s cap
  | Bol => if Nat.eqb pos 0 then k pos s cap else None
  | Chr c =>
      match s with
      | x :: t => if N.eqb x c then k (S pos) t cap else None
      | [] => None
      end
  | Cls p =>
      match s with
      | x :: t => if p x then k (S pos) t cap else None
      | [] => None
      end
  | Cat r1 r2 =>
      rmatch r1 pos s cap (fun pos' s' cap' => rmatch r2 pos' s' cap' k)
  | Alt r1 r2 =>
      match rmatch r1 pos s cap k with
      | Some x => Some x
      | None => rmatch r2 pos s cap k
      end
  | Many p => many p pos s (fun pos' s' => k pos' s' cap)
  | Grp r1 =>
      rmatch r1 pos s cap
             (fun pos' s' _ => k pos' s' (Some (firstn (pos' - pos) s)))
  end.
End Matcher.

(** A match object: where the match ends and the text of group 1. *)
Record match_obj := { m_start : nat; m_end : nat; group1 : option str }.

Definition match_at (r : regex) (pos : nat) (s : str) : option match_obj :=
  rmatch r pos s None
         (fun e _ cap => Some {| m_start := pos; m_end := e; group1 := cap |}).

(** [re.search(r, s)]: the match at the leftmost offset that has one. *)
Fixpoint search_from (r : regex) (pos : nat) (s : str) : option match_obj :=
  match match_at r pos s with
  | Some m => Some m
  | None =>
      match s with
      | [] => None
      | _ :: t => search_from r (S pos) t
      end
  end.

Definition re_search (r : regex) (s : str) : option match_obj :=
  search_from r 0 s.

(** [re.sub(r, repl, s)].  [skip] counts the characters of the current
    match still to be dropped. *)
Fixpoint sub_from (r : regex) (repl : str) (pos skip : nat) (s : str) : str :=
  match s with
  | [] =>
      match match_at r pos s with
      | Some _ => repl
      | None => []
      end
  | c :: t =>
      match skip with
      | S n => sub_from r repl (S pos) n t
      | O =>
          match match_at r pos s with
          | Some m =>
              match m_end m - pos with
              | O => repl ++ c :: sub_from r repl (S pos) 0 t
              | S n => repl ++ sub_from r repl (S pos) n t
              end
          | None => c :: sub_from r repl (S pos) 0 t
          end
      end
  end.

Definition re_sub (r : regex) (repl s : str) : str := sub_from r repl 0 0 s.

(** [re.split(r, s)] for a pattern without groups that matches no empty
    string (the only one the module splits on is [[,;]]); [cur] is the piece
    being read, reversed. *)
Fixpoint split_from (r : regex) (pos skip : nat) (cur : str) (s : str)
  : list str :=
  match s with
  | [] => [rev cur]
  | c :: t =>
      match skip with
      | S n => split_from r (S pos) n cur t
      | O =>
          match match_at r pos s with
          | Some m =>
              match m_end m - pos with
              | O => split_from r (S pos) 0 (c :: cur) t
              | S n => rev cur :: split_from r (S pos) n [] t
              end
          | None => split_from r (S pos) 0 (c :: cur) t
          end
      end
  end.

Definition re_split (r : regex) (s : str) : list str := split_from r 0 0 [] s.

(* ------------------------------------------------------------------ *)
(** * Numbers *)

(** [str(n)] for a non-negative integer *)
Definition str_of_nat (n : nat) : str :=
  py (NilZero.string_of_uint (Nat.to_uint n)).

Definition str_of_N (n : N) : str :=
  py (NilZero.string_of_uint (N.to_uint n)).

(** [str(b)] *)
Definition str_of_bool (b : bool) : str :=
  if b then py "True" else py "False".

(** [sum(...)] over integers *)
Definition sum (xs : list nat) : nat := fold_left Nat.add xs 0.

(** binary64 *)
Definition prec : Z := 53.
Definition emax : Z := 1024.

(** A dyadic constant [m * 2^e] as a float. *)
Definition float_lit (m e : Z) : spec_float := binary_normalize prec emax m e false.

(** [float(n)] *)
Definition float_of_nat (n : nat) : spec_float := float_lit (Z.of_nat n) 0.

(** A Python number: the averages of the complexity analyzer are the
    [int] 0 or a [float]. *)
Inductive pynum :=
| PyInt (z : Z)
| PyFloat (f : spec_float).

Definition to_float (x : pynum) : spec_float :=
  match x with
  | PyInt z => float_lit z 0
  | PyFloat f => f
  end.

(** [x < y]; the integers compared in this module (0, 10, 15) are exact as
    floats. *)
Definition num_lt (x y : pynum) : bool := SFltb (to_float x) (to_float y).

(** [a / b] on integers: the quotient rounded to the nearest float; both
    operands are exact as floats below 2^53. *)
Definition truediv (a b : nat) : result pynum :=
  match b with
  | O => Raise ZeroDivisionError
  | _ => Ok (PyFloat (SFdiv prec emax (float_of_nat a) (float_of_nat b)))
  end.

(** The value [m * 2^e] in tenths, rounded half to even. *)
Definition tenths (m : positive) (e : Z) : N :=
  let n := (10 * Npos m)%N in
  match e with
  | Z0 => n
  | Zpos p => (n * 2 ^ Npos p)%N
  | Zneg p =>
      let d := (2 ^ Npos p)%N in
      let q := (n / d)%N in
      let r := (n mod d)%N in
      match (2 * r ?= d)%N with
      | Lt => q
      | Gt => (q + 1)%N
      | Eq => if N.even q then q else (q + 1)%N
      end
  end.

Definition sign_str (s : bool) : str := if s then py "-" else [].

(** [f"{x:.1f}"] *)
Definition format_1f (x : pynum) : str :=
  match x with
  | PyInt z =>
      sign_str (Z.ltb z 0) ++ str_of_N (Z.abs_N z) ++ py ".0"
  | PyFloat f =>
      match f with
      | S754_zero s => sign_str s ++ py "0.0"
      | S754_infinity s => sign_str s ++ py "inf"
      | S754_nan => py "nan"
      | S754_finite s m e =>
          let t := tenths m e in
          sign_str s ++ str_of_N (t / 10) ++ py "." ++ str_of_N (t mod 10)
      end
  end.

(* ------------------------------------------------------------------ *)
(** * Dictionaries

    A [dict] keeps its keys in insertion order, which [max] over it
    observes. *)

Definition dict (V : Type) := list (str * V).

(** [d[k] = v] *)
Fixpoint dict_set {V} (d : dict V) (k : str) (v : V) : dict V :=
  match d with
  | [] => [(k, v)]
  | (k', v') :: t =>
      if str_eqb k' k then (k', v) :: t else (k', v') :: dict_set t k v
  end.

(** The scan of [max]: a later key replaces the best one only when its value
    is strictly greater. *)
Fixpoint max_from (best : str) (best_v : nat) (d : dict nat) : str :=
  match d with
  | [] => best
  | (k, v) :: t =>
      if Nat.ltb best_v v then max_from k v t else max_from best best_v t
  end.

(** [max(d, key=d.get)]: the keys are visited in insertion order and
    compared by their values; an empty dictionary raises [ValueError]. *)
Definition max_by_value (d : dict nat) : result str :=
  match d with
  | [] => Raise ValueError
  | (k, v) :: t => Ok (max_from k v t)
  end.

(** [sep.join(xs)] *)
Fixpoint join (sep : str) (xs : list str) : str :=
  match xs with
  | [] => []
  | [x] => x
  | x :: t => x ++ sep ++ join sep t
  end.

(* ------------------------------------------------------------------ *)
(** * class NotesAnalysisTool *)

Module NotesAnalysisTool.

(** The [subject_keywords] table of [_identify_subject], in the order of the
    dictionary literal. *)
Definition subject_keywords : list (str * list str) :=
  [ (py "Mathematics",
     [py "equation"; py "solve"; py "calculate"; py "algebra"; py "geometry";
      py "theorem"; py "formula"; py "graph"; py "function"; py "variable";
      py "quadratic"; py "polynomial"; py "trigonometry"; py "calculus"]);
    (py "Science",
     [py "experiment"; py "hypothesis"; py "cell"; py "atom"; py "chemistry";
      py "biology"; py "physics"; py "photosynthesis"; py "molecule";
      py "energy"; py "reaction"; py "organism"; py "ecosystem"; py "matter"]);
    (py "English/Language Arts",
     [py "grammar"; py "writing"; py "literature"; py "essay"; py "poem";
      py "reading"; py "paragraph"; py "sentence"; py "comprehension";
      py "vocabulary"; py "author"; py "theme"]);
    (py "Social Studies/History",
     [py "war"; py "revolution"; py "civilization"; py "government";
      py "geography"; py "culture"; py "society"; py "empire";
      py "constitution"; py "democracy"; py "economy"]);
    (py "Music",
     [py "rhythm"; py "melody"; py "notation"; py "tempo"; py "scale";
      py "chord"; py "instrument"; py "beat"; py "harmony"; py "composition"]);
    (py "Art",
     [py "painting"; py "drawing"; py "sculpture"; py "color theory";
      py "perspective"; py "composition"; py "medium"; py "texture";
      py "artist"]);
    (py "Physical Education",
     [py "exercise"; py "fitness"; py "sport"; py "movement"; py "health";
      py "coordination"; py "athletics"; py "wellness"]);
    (py "Computer Science",
     [py "code"; py "programming"; py "algorithm"; py "software";
      py "computer"; py "variable"; py "function"; py "loop"; py "debug"]) ].

(** [sum(1 for keyword in keywords if keyword in notes_lower)] *)
Definition score (notes_lower : str) (keywords : list str) : nat :=
  sum (map (fun _ => 1) (filter (fun keyword => contains keyword notes_lower)
                                keywords)).

(** The loop filling [subject_scores]. *)
Fixpoint fill_scores (notes_lower : str) (items : list (str * list str))
         (subject_scores : dict nat) : dict nat :=
  match items with
  | [] => subject_scores
  | (subject, keywords) :: rest =>
      let score := score notes_lower keywords in
      fill_scores notes_lower rest
        (if Nat.ltb 0 score then dict_set subject_scores subject score
         else subject_scores)
  end.

(** The leading bullets and blanks a line may start with:
    [(' ', '\t', '-', chr(0x2022), '*')]. *)
Definition bullets : list N := [32; 9; 45; bullet; 42]%N.

Record ContentStats := {
  total_words : nat;
  total_lines : nat;
  has_objectives : bool;
  has_vocabulary : bool;
  has_standards : bool
}.

(** The [analysis] dictionary of [run]. *)
Record Analysis := {
  subject : str;
  grade_level : str;
  key_concepts : list str;
  learning_objectives : list str;
  vocabulary : list str;
  topics : list str;
  prior_knowledge : list str;
  real_world_connections : list str;
  content_stats : ContentStats
}.

Section WithUnicode.
Variable U : unicode.

Definition _identify_subject (notes : str) : result str :=
  let notes_lower := lower U notes in
  let subject_scores := fill_scores notes_lower subject_keywords [] in
  match subject_scores with
  | _ :: _ => max_by_value subject_scores
  | [] => Ok (py "General/Multi-Subject")
  end.

(** [\s] and [\d] *)
Definition ws : N -> bool := isspace U.
Definition digit : N -> bool := isdecimal U.

(** [grade\s*(\d+)], [(\d+)(?:st|nd|rd|th)\s+grade], [level[:\s]+(\d+)] *)
Definition grade_patterns : list regex :=
  [ Cat (Lit (py "grade")) (Cat (Many ws) (Grp (Many1 digit)));
    Cat (Grp (Many1 digit))
        (Cat (Alt (Lit (py "st"))
                  (Alt (Lit (py "nd")) (Alt (Lit (py "rd")) (Lit (py "th")))))
             (Cat (Many1 ws) (Lit (py "grade"))));
    Cat (Lit (py "level"))
        (Cat (Many1 (fun c => N.eqb c colon || ws c)) (Grp (Many1 digit))) ].

(** [f"{match.group(1)}"] *)
Definition show_group (g : option str) : str :=
  match g with
  | Some s => s
  | None => py "None"
  end.

(** The loop over [grade_patterns]: the first pattern that is found
    anywhere in the text decides. *)
Fixpoint explicit_grade (patterns : list regex) (notes_lower : str)
  : option str :=
  match patterns with
  | [] => None
  | pattern :: rest =>
      match re_search pattern notes_lower with
      | Some m => Some (py "Grade " ++ show_group (group1 m))
      | None => explicit_grade rest notes_lower
      end
  end.

Definition _extract_grade_level (notes : str) : str :=
  let notes_lower := lower U notes in
  match explicit_grade grade_patterns notes_lower with
  | Some g => g
  | None =>
      if any_in [py "elementary"; py "primary"; py "kindergarten"] notes_lower
      then py "K-5 (Elementary)"
      else if any_in [py "middle school"; py "junior high"] notes_lower
      then py "6-8 (Middle School)"
      else if any_in [py "high school"; py "secondary"] notes_lower
      then py "9-12 (High School)"
      else if any_in [py "college"; py "university"; py "undergraduate"]
                     notes_lower
      then py "College/University"
      else if any_in [py "basic"; py "introduction"; py "simple";
                      py "beginner"] notes_lower
      then py "Elementary to Middle School (Est.)"
      else if any_in [py "advanced"; py "complex"; py "in-depth"] notes_lower
      then py "High School to College (Est.)"
      else py "Not Specified (Grades 6-12 adaptable)"
  end.

(** [^[\s\-•*]+] *)
Definition leading_bullets : regex :=
  Cat Bol (Many1 (fun c => ws c || N.eqb c 45 || N.eqb c bullet
                           || N.eqb c 42)).

(** [re.sub(r'^[\s\-•*]+', '', line).strip()] *)
Definition clean (line : str) : str :=
  strip U (re_sub leading_bullets [] line).

(** [if item and len(item) > n: items.append(item)] *)
Definition append_if_longer (n : nat) (items : list str) (item : str)
  : list str :=
  if truthy item && Nat.ltb n (length item) then items ++ [item] else items.

(** The line starts an unrelated block: it is not blank and does not start
    with a blank or a bullet. *)
Definition unindented (line : str) : bool :=
  truthy (strip U line) && negb (startswith_any bullets line).

Definition concept_markers : list str :=
  [py "key concept"; py "main concept"; py "concepts:"].

(** One iteration of the loop of [_extract_key_concepts]; the state is
    [(in_concepts_section, concepts)]. *)
Definition concepts_body (st : bool * list str) (line : str)
  : result (bool * list str) :=
  let '(in_concepts_section, concepts) := st in
  let line_lower := strip U (lower U line) in
  if any_in concept_markers line_lower
  then Ok (true, concepts)
  else
    in_concepts_section <-
      (if in_concepts_section && unindented line
       then
         leaving <- (if has_char colon line then Ok true
                     else c <- index line 0 ;; Ok (isupper U c)) ;;
         Ok (if leaving : bool then false else in_concepts_section)
       else Ok in_concepts_section) ;;
    Ok (in_concepts_section,
        if in_concepts_section && truthy (strip U line)
        then append_if_longer 5 concepts (clean line)
        else concepts).

Definition _extract_key_concepts (notes : str) : result (list str) :=
  let lines := split_chr NL notes in
  '(_, concepts) <- for_each concepts_body (false, []) lines ;;
  Ok (firstn 10 concepts).

Definition objective_markers : list str :=
  [py "learning objective"; py "objective"; py "students will"; py "goal"].

(** One iteration of the loop of [_extract_objectives]. *)
Definition objectives_body (st : bool * list str) (line : str)
  : result (bool * list str) :=
  let '(in_objectives_section, objectives) := st in
  let line_lower := strip U (lower U line) in
  let is_marker := any_in objective_markers line_lower in
  if is_marker && has_char colon line
  then Ok (true, objectives)
  else
    let in_objectives_section :=
      if is_marker then true else in_objectives_section in
    in_objectives_section <-
      (if in_objectives_section && unindented line
       then
         leaving <- (if has_char colon line then Ok true
                     else c <- index line 0 ;;
                          Ok (isupper U c
                              && negb (contains (py "objective") line_lower))) ;;
         Ok (if leaving : bool then false else in_objectives_section)
       else Ok in_objectives_section) ;;
    Ok (in_objectives_section,
        if in_objectives_section && truthy (strip U line)
        then append_if_longer 10 objectives (clean line)
        else objectives).

Definition _extract_objectives (notes : str) : result (list str) :=
  let lines := split_chr NL notes in
  '(_, objectives) <- for_each objectives_body (false, []) lines ;;
  Ok (firstn 8 objectives).

(** [[,;]] *)
Definition comma_or_semicolon : regex :=
  Cls (fun c => N.eqb c 44 || N.eqb c 59).

(** One iteration of the loop of [_extract_vocabulary]. *)
Definition vocabulary_body (vocab : list str) (line : str)
  : result (list str) :=
  let line_lower := lower U line in
  if contains (py "vocabulary") line_lower
     || contains (py "vocab") line_lower
     || contains (py "terms") line_lower
  then
    if has_char colon line
    then
      terms_text <- index (split_chr1 colon line) 1 ;;
      let terms := re_split comma_or_semicolon terms_text in
      Ok (vocab ++ map (strip U)
                       (filter (fun term => truthy (strip U term)) terms))
    else Ok vocab
  else Ok vocab.

Definition _extract_vocabulary (notes : str) : result (list str) :=
  let lines := split_chr NL notes in
  vocab <- for_each vocabulary_body [] lines ;;
  Ok (firstn 15 vocab).

(** [^[\d\.\)\-•*\s]+] *)
Definition leading_numbering : regex :=
  Cat Bol (Many1 (fun c => digit c || N.eqb c period || N.eqb c 41
                           || N.eqb c 45 || N.eqb c bullet || N.eqb c 42
                           || ws c)).

(** One iteration of the loop of [_extract_topics]. *)
Definition topics_body (topics : list str) (line : str)
  : result (list str) :=
  let line_stripped := strip U line in
  selected <-
    (if truthy line_stripped
     then c <- index line_stripped 0 ;;
          Ok (isdigit U c
              || startswith_any [45; bullet; 42]%N line_stripped)
     else Ok false) ;;
  if selected : bool
  then
    let topic := re_sub leading_numbering [] line_stripped in
    Ok (if truthy topic && Nat.ltb 5 (length topic)
           && Nat.ltb (length topic) 100
        then topics ++ [topic] else topics)
  else Ok topics.

Definition _extract_topics (notes : str) : result (list str) :=
  let lines := split_chr NL notes in
  topics <- for_each topics_body [] lines ;;
  Ok (firstn 10 topics).

(** The loop body shared, up to the markers, by [_extract_prior_knowledge]
    and [_extract_real_world]. *)
Definition section_body (is_marker : str -> bool)
           (st : bool * list str) (line : str) : result (bool * list str) :=
  let '(in_section, items) := st in
  let line_lower := lower U line in
  if is_marker line_lower
  then Ok (true, items)
  else
    if in_section
    then
      if unindented line
      then Ok (if has_char colon line then false else in_section, items)
      else
        Ok (in_section,
            if truthy (strip U line)
            then append_if_longer 5 items (clean line)
            else items)
    else Ok (in_section, items).

Definition prior_body : bool * list str -> str -> result (bool * list str) :=
  section_body (fun line_lower =>
                  contains (py "prior knowledge") line_lower
                  || contains (py "prerequisite") line_lower).

Definition _extract_prior_knowledge (notes : str) : result (list str) :=
  let lines := split_chr NL notes in
  '(_, prior_knowledge) <- for_each prior_body (false, []) lines ;;
  Ok (firstn 8 prior_knowledge).

Definition real_world_markers : list str :=
  [py "real-world"; py "real world"; py "application"; py "connection"].

Definition real_world_body
  : bool * list str -> str -> result (bool * list str) :=
  section_body (any_in real_world_markers).

Definition _extract_real_world (notes : str) : result (list str) :=
  let lines := split_chr NL notes in
  '(_, connections) <- for_each real_world_body (false, []) lines ;;
  Ok (firstn 8 connections).

(** The dictionary built at the start of [run]; its entries are evaluated
    in the order they are written. *)
Definition analysis (notes : str) : result Analysis :=
  subject <- _identify_subject notes ;;
  let grade_level := _extract_grade_level notes in
  key_concepts <- _extract_key_concepts notes ;;
  learning_objectives <- _extract_objectives notes ;;
  vocabulary <- _extract_vocabulary notes ;;
  topics <- _extract_topics notes ;;
  prior_knowledge <- _extract_prior_knowledge notes ;;
  real_world_connections <- _extract_real_world notes ;;
  Ok {| subject := subject;
        grade_level := grade_level;
        key_concepts := key_concepts;
        learning_objectives := learning_objectives;
        vocabulary := vocabulary;
        topics := topics;
        prior_knowledge := prior_knowledge;
        real_world_connections := real_world_connections;
        content_stats :=
          {| total_words := length (split_ws U notes);
             total_lines := length (split_chr NL notes);
             has_objectives := contains (py "objective") (lower U notes);
             has_vocabulary := contains (py "vocabulary") (lower U notes)
                               || contains (py "vocab") (lower U notes);
             has_standards := contains (py "standard") (lower U notes) |} |}.
End WithUnicode.

(** [for x in items: result += f"  \u2022 {x}\n"] *)
Definition bullet_lines (items : list str) : str :=
  concat (map (fun x => py "  " ++ [bullet] ++ py " " ++ x ++ [NL]) items).

(** A titled list, left out when the list is empty. *)
Definition bullet_section (title : str) (items : list str) : str :=
  match items with
  | [] => []
  | _ => title ++ [NL] ++ bullet_lines items ++ [NL]
  end.

(** The formatting half of [run]. *)
Definition render (a : Analysis) : str :=
  py "=== TEACHING NOTES ANALYSIS ===" ++ [NL; NL]
  ++ py "Subject Area: " ++ subject a ++ [NL]
  ++ py "Grade Level: " ++ grade_level a ++ [NL; NL]
  ++ bullet_section (py "Key Concepts:") (key_concepts a)
  ++ bullet_section (py "Learning Objectives Found:") (learning_objectives a)
  ++ match vocabulary a with
     | [] => []
     | _ => py "Vocabulary Terms: " ++ join (py ", ") (vocabulary a) ++ [NL; NL]
     end
  ++ bullet_section (py "Prior Knowledge Required:") (prior_knowledge a)
  ++ bullet_section (py "Real-World Connections:") (real_world_connections a)
  ++ py "Content Statistics:" ++ [NL]
  ++ py "  " ++ [bullet] ++ py " Total Words: "
  ++ str_of_nat (total_words (content_stats a)) ++ [NL]
  ++ py "  " ++ [bullet] ++ py " Has Objectives: "
  ++ str_of_bool (has_objectives (content_stats a)) ++ [NL]
  ++ py "  " ++ [bullet] ++ py " Has Vocabulary: "
  ++ str_of_bool (has_vocabulary (content_stats a)) ++ [NL].

Definition run (U : unicode) (notes : str) : result str :=
  a <- analysis U notes ;;
  Ok (render a).

End NotesAnalysisTool.

(* ------------------------------------------------------------------ *)
(** * class GradeLevelAnalyzer *)

Module GradeLevelAnalyzer.

Inductive GradeRange := Elementary | MiddleSchool | HighSchoolPlus.
Inductive Complexity := Low | Medium | High.

(** The local variables of [run] the report is written from. *)
Record ComplexityReport := {
  grade_range : GradeRange;
  complexity : Complexity;
  avg_word_length : pynum;
  avg_sentence_length : pynum
}.

Definition grade_range_str (g : GradeRange) : str :=
  match g with
  | Elementary => py "Elementary (K-5)"
  | MiddleSchool => py "Middle School (6-8)"
  | HighSchoolPlus => py "High School+ (9-12+)"
  end.

Definition complexity_str (c : Complexity) : str :=
  match c with
  | Low => py "Low"
  | Medium => py "Medium"
  | High => py "High"
  end.

(** The simple complexity scoring of [run]. *)
Definition classify (avg_word_length avg_sentence_length : pynum)
  : GradeRange * Complexity :=
  if num_lt avg_word_length (PyFloat (float_lit 9 (-1)))          (* 4.5 *)
     && num_lt avg_sentence_length (PyInt 10)
  then (Elementary, Low)
  else if num_lt avg_word_length (PyFloat (float_lit 11 (-1)))    (* 5.5 *)
          && num_lt avg_sentence_length (PyInt 15)
  then (MiddleSchool, Medium)
  else (HighSchoolPlus, High).

(** The computing half of [run]. *)
Definition analyze (U : unicode) (notes : str) : result ComplexityReport :=
  let words := split_ws U notes in
  let sentences := split_chr period notes in
  avg_word_length <-
    (match words with
     | _ :: _ => truediv (sum (map (@length N) words)) (length words)
     | [] => Ok (PyInt 0)
     end) ;;
  avg_sentence_length <-
    (match sentences with
     | _ :: _ => truediv (length words) (length sentences)
     | [] => Ok (PyInt 0)
     end) ;;
  let '(grade_range, complexity) :=
    classify avg_word_length avg_sentence_length in
  Ok {| grade_range := grade_range;
        complexity := complexity;
        avg_word_length := avg_word_length;
        avg_sentence_length := avg_sentence_length |}.

(** The formatting half of [run]. *)
Definition render (r : ComplexityReport) : str :=
  py "Content Complexity Analysis:" ++ [NL]
  ++ py "  " ++ [bullet] ++ py " Suggested Grade Range: "
  ++ grade_range_str (grade_range r) ++ [NL]
  ++ py "  " ++ [bullet] ++ py " Complexity Level: "
  ++ complexity_str (complexity r) ++ [NL]
  ++ py "  " ++ [bullet] ++ py " Average Word Length: "
  ++ format_1f (avg_word_length r) ++ py " characters" ++ [NL]
  ++ py "  " ++ [bullet] ++ py " Average Sentence Length: "
  ++ format_1f (avg_sentence_length r) ++ py " words" ++ [NL].

Definition run (U : unicode) (notes : str) : result str :=
  r <- analyze U notes ;;
  Ok (render r).

End GradeLevelAnalyzer.

(* ------------------------------------------------------------------ *)
(** * The Basic Latin block of the character database

    On code points below 128 Python's case mapping and character classes
    are the ones below; [basic_latin] leaves every other code point alone
    and is used to run the tools on ASCII texts. *)

Definition ascii_lower (c : N) : N :=
  if (N.leb 65 c && N.leb c 90)%N then (c + 32)%N else c.

Definition basic_latin : unicode :=
  {| lower := map ascii_lower;
     isspace := fun c => (N.leb 9 c && N.leb c 13)
                         || (N.leb 28 c && N.leb c 32);
     isupper := fun c => N.leb 65 c && N.leb c 90;
     isdigit := fun c => N.leb 48 c && N.leb c 57;
     isdecimal := fun c => N.leb 48 c && N.leb c 57 |}%N.

(** [basic_latin] with the superscript digits U+00B2, U+00B3 and U+00B9:
    [str.isdigit] holds of them, but they are not decimal digits, so
    [str.isdecimal] does not and [\d] does not match them. *)
Definition with_superscripts : unicode :=
  {| lower := lower basic_latin;
     isspace := isspace basic_latin;
     isupper := isupper basic_latin;
     isdigit := fun c => isdigit basic_latin c
                         || N.eqb c 178 || N.eqb c 179 || N.eqb c 185;
     isdecimal := isdecimal basic_latin |}%N.

(* ------------------------------------------------------------------ *)
(** * main.py: input of the notes and the command modes

    Standard input is the list of what the successive calls of [input()]
    do, return a line or raise an exception other than [EOFError]; at the
    end of the list [input()] raises [EOFError].  Standard output is the
    list of the texts printed, one per [print]; [print] itself is taken to
    succeed.  What the crew framework, [open] and [int] do is a parameter
    of the functions that call them. *)

Module Main.

(** How a function ends: it returns, [sys.exit(code)] is called, an
    exception raised by the function's own indexing or [int] escapes, or an
    exception raised by [input()], [open] or the crew, given by the name
    of its class, passes through the function. *)
Inductive outcome (A : Type) :=
| Return (a : A)
| SystemExit (code : Z)
| Uncaught (e : exn)
| Escaped (exception : str).
Arguments Return {A} a.
Arguments SystemExit {A} code.
Arguments Uncaught {A} e.
Arguments Escaped {A} exception.

(** [c * 80] *)
Definition rule (c : N) : str := repeat c 80.

Definition cross : N := 10060.   (* U+274C *)
Definition tick : N := 10003.    (* U+2713 *)

(** [str(n)] for an integer *)
Definition str_of_Z (z : Z) : str :=
  sign_str (Z.ltb z 0) ++ str_of_N (Z.abs_N z).

(** What [open(file_path).read()] gives: the content, a
    [FileNotFoundError], another [Exception] with its text, or an
    exception that is not an [Exception], such as [KeyboardInterrupt]. *)
Inductive file_read :=
| FileContent (content : str)
| FileNotFound
| ReadError (message : str)
| ReadInterrupted (exception : str).

(** What one call of [input()] does: it returns a line, or raises an
    exception other than [EOFError], such as [KeyboardInterrupt] or
    [UnicodeDecodeError]. *)
Inductive input_event :=
| Line (line : str)
| Fails (exception : str).

Record session (A : Type) := {
  printed : list str;
  stdin_left : list input_event;
  ended : outcome A
}.

(** What a call into the crew does: it returns, raises an [Exception] with
    the given text, or raises something that is not an [Exception], such
    as [KeyboardInterrupt], given by the name of its class. *)
Inductive crew_call :=
| Returns
| Raises (message : str)
| Aborts (exception : str).

Section WithUnicode.
Variable U : unicode.

Definition read_notes_from_file (opened : file_read) (file_path : str)
  : list str * outcome str :=
  match opened with
  | FileContent content =>
      if truthy (strip U content)
      then ([], Return content)
      else ([[cross] ++ py " ERROR: File '" ++ file_path ++ py "' is empty!"],
            SystemExit 1)
  | FileNotFound =>
      ([[cross] ++ py " ERROR: File '" ++ file_path ++ py "' not found!";
        py "Please create the file or check the file path."],
       SystemExit 1)
  | ReadError message =>
      ([[cross] ++ py " ERROR: Could not read file: " ++ message],
       SystemExit 1)
  | ReadInterrupted exception => ([], Escaped exception)
  end.

(** The [try] statement around the [while True] loop of [get_user_input]:
    the lines kept so far, the count of blank lines in a row, the input
    that is left when the loop ends (at the second blank line in a row, or
    at the end of the input, where [input()] raises the [EOFError] that is
    caught), and the exception that left the loop uncaught, if any. *)
Fixpoint read_lines (stdin : list input_event) (lines : list str)
         (empty_line_count : nat)
  : list str * list input_event * option str :=
  match stdin with
  | [] => (lines, [], None)
  | Fails exception :: rest => (lines, rest, Some exception)
  | Line line :: rest =>
      if truthy (strip U line)
      then read_lines rest (lines ++ [line]) 0
      else
        let empty_line_count := empty_line_count + 1 in
        if Nat.leb 2 empty_line_count
        then (lines, rest, None)
        else read_lines rest (lines ++ [line]) empty_line_count
  end.

Definition input_banner : list str :=
  [ [NL] ++ rule 61;
    [128221%N] ++ py " ENTER YOUR TEACHING NOTES";
    rule 61;
    [NL] ++ py "Please enter your teaching notes below.";
    py "Include: topic, grade level, key concepts, objectives, etc.";
    [NL] ++ py "Type your notes (press Enter twice when done, "
    ++ py "or Ctrl+D/Ctrl+Z+Enter):";
    rule 45 ].

Definition get_user_input (stdin : list input_event) : session str :=
  match read_lines stdin [] 0 with
  | (_, rest, Some exception) =>
      {| printed := input_banner; stdin_left := rest;
         ended := Escaped exception |}
  | (lines, rest, None) =>
      let notes := strip U (join [NL] lines) in
      if truthy notes
      then {| printed := input_banner; stdin_left := rest;
              ended := Return notes |}
      else {| printed := input_banner
                         ++ [[NL] ++ [cross]
                             ++ py " ERROR: No notes provided!"];
              stdin_left := rest;
              ended := SystemExit 1 |}
  end.
End WithUnicode.

Section Commands.
(** [int(s)], [None] for a [ValueError]. *)
Variable int_of_str : str -> option Z.
(** The calls into the crew. *)
Variable crew_train : Z -> str -> str -> crew_call.
Variable crew_replay : str -> crew_call.
Variable crew_test : Z -> str -> str -> crew_call.

Definition train_notes : str :=
  [NL] ++ py "Topic: Introduction to Fractions" ++ [NL]
  ++ py "Key Concepts: numerator, denominator, parts of a whole" ++ [NL]
  ++ py "Grade: 4th Grade Mathematics" ++ [NL].

Definition test_notes : str :=
  [NL] ++ py "Topic: Basic Fractions" ++ [NL]
  ++ py "Objectives: Understand numerator and denominator, compare fractions"
  ++ [NL] ++ py "Grade: 4th Grade" ++ [NL].

(** [x = sys.argv[i]] and [n = int(sys.argv[i])], then the rest. *)
Definition with_arg {A} (out : list str) (argv : list str) (i : nat)
           (k : str -> list str * outcome A) : list str * outcome A :=
  match index argv i with
  | Ok x => k x
  | Raise e => (out, Uncaught e)
  end.

Definition with_int {A} (out : list str) (argv : list str) (i : nat)
           (k : Z -> list str * outcome A) : list str * outcome A :=
  with_arg out argv i
           (fun x => match int_of_str x with
                     | Some n => k n
                     | None => (out, Uncaught ValueError)
                     end).

Definition train (argv : list str) : list str * outcome unit :=
  let out := [[NL; 127919%N] ++ py " Training Mode"; rule 61] in
  if Nat.ltb (length argv) 3
  then (out ++ [py "Usage: python -m teacher_assistant.main train "
                ++ py "<iterations> <filename>"],
        SystemExit 1)
  else
    with_int out argv 2 (fun n_iterations =>
    with_arg out argv 3 (fun filename =>
      let out :=
        out ++ [py "Training for " ++ str_of_Z n_iterations
                ++ py " iterations...";
                py "Training data will be saved to: " ++ filename] in
      match crew_train n_iterations filename train_notes with
      | Returns =>
          (out ++ [[NL; tick] ++ py " Training completed successfully!"],
           Return tt)
      | Raises e =>
          (out ++ [[NL; cross] ++ py " Training error: " ++ e], SystemExit 1)
      | Aborts exception => (out, Escaped exception)
      end)).

Definition replay (argv : list str) : list str * outcome unit :=
  let out := [[NL; 128260%N] ++ py " Replay Mode"; rule 61] in
  if Nat.ltb (length argv) 3
  then (out ++ [py "Usage: python -m teacher_assistant.main replay <task_id>"],
        SystemExit 1)
  else
    with_arg out argv 2 (fun task_id =>
      let out := out ++ [py "Replaying task: " ++ task_id] in
      match crew_replay task_id with
      | Returns =>
          (out ++ [[NL; tick] ++ py " Replay completed successfully!"],
           Return tt)
      | Raises e =>
          (out ++ [[NL; cross] ++ py " Replay error: " ++ e], SystemExit 1)
      | Aborts exception => (out, Escaped exception)
      end).

Definition test (argv : list str) : list str * outcome unit :=
  let out := [[NL; 129514%N] ++ py " Test Mode"; rule 61] in
  if Nat.ltb (length argv) 4
  then (out ++ [py "Usage: python -m teacher_assistant.main test "
                ++ py "<iterations> <model>"],
        SystemExit 1)
  else
    with_int out argv 2 (fun n_iterations =>
    with_arg out argv 3 (fun model_name =>
      let out :=
        out ++ [py "Testing for " ++ str_of_Z n_iterations
                ++ py " iterations with " ++ model_name ++ py "..."] in
      match crew_test n_iterations model_name test_notes with
      | Returns =>
          (out ++ [[NL; tick] ++ py " Test completed successfully!"],
           Return tt)
      | Raises e =>
          (out ++ [[NL; cross] ++ py " Test error: " ++ e], SystemExit 1)
      | Aborts exception => (out, Escaped exception)
      end)).
End Commands.

End Main.

(* ------------------------------------------------------------------ *)
(** * Notions the statements use *)

(** [Subseq xs ys]: [xs] is [ys] with some elements left out, the others
    in their order. *)
Inductive Subseq {A : Type} : list A -> list A -> Prop :=
| Subseq_nil : Subseq [] []
| Subseq_skip x xs ys : Subseq xs ys -> Subseq xs (x :: ys)
| Subseq_take x xs ys : Subseq xs ys -> Subseq (x :: xs) (x :: ys).

(** The number of places of [text] at which [keyword] occurs. *)
Fixpoint occurrences (keyword text : str) : nat :=
  (if startswith keyword text then 1 else 0)
  + match text with
    | [] => 0
    | _ :: t => occurrences keyword t
    end.

(** The number of newline-terminated lines of a text. *)
Definition count_lines (s : str) : nat := length (filter (N.eqb NL) s).

(** The first character of the line is an uppercase letter. *)
Definition starts_upper (U : unicode) (line : str) : bool :=
  match line with
  | c :: _ => isupper U c
  | [] => false
  end.

(** The three outcomes of one iteration of a section scanner. *)
Definition consumed (r : result (bool * list str)) (inside : bool)
           (items : list str) : Prop :=
  r = Ok (inside, items).

(** What one iteration of a section scanner may do: it does not raise, and
    it leaves the collected items alone or appends the cleaned line. *)
Definition emits (U : unicode)
           (body : bool * list str -> str -> result (bool * list str)) : Prop :=
  forall st line, exists st' e,
      body st line = Ok st'
      /\ snd st' = snd st ++ e
      /\ Subseq e [NotesAnalysisTool.clean U line].

(** The terms a vocabulary line lists after its first colon. *)
Definition vocab_terms (U : unicode) (line : str) : list str :=
  match split_chr1 colon line with
  | [_; terms_text] =>
      map (strip U) (re_split NotesAnalysisTool.comma_or_semicolon terms_text)
  | _ => []
  end.

(** The topic a numbered or bulleted line names. *)
Definition topic_of (U : unicode) (line : str) : str :=
  re_sub (NotesAnalysisTool.leading_numbering U) [] (strip U line).

(** A capped scan: the loop ran to the end without raising and the field
    holds the first [cap] of the items it collected. *)
Definition capped_scan {S : Type} (loop : result S) (items : S -> list str)
           (cap : nat) (field : list str) : Prop :=
  exists st, loop = Ok st /\ field = firstn cap (items st).

(** The classifier as the specification words it: a category scores the
    total number of occurrences of its keywords, the highest total wins,
    the first declared on a tie, and no occurrence at all gives the
    general label. *)
Definition occurrence_score (text : str) (keywords : list str) : nat :=
  list_sum (map (fun keyword => occurrences keyword text) keywords).

Definition subject_by_occurrences (U : unicode) (notes : str) : str :=
  let text := lower U notes in
  let scored :=
    map (fun e => (fst e, occurrence_score text (snd e)))
        NotesAnalysisTool.subject_keywords in
  let best := fold_right Nat.max 0 (map snd scored) in
  if Nat.eqb best 0 then py "General/Multi-Subject"
  else match find (fun e => Nat.eqb (snd e) best) scored with
       | Some e => fst e
       | None => py "General/Multi-Subject"
       end.

(** The entries of the score table with a positive score, as
    [_identify_subject] collects them. *)
Definition positives (text : str) (items : list (str * list str)) : dict nat :=
  filter (fun kv => Nat.ltb 0 (snd kv))
         (map (fun e => (fst e, NotesAnalysisTool.score text (snd e))) items).

(** The pattern has no capturing group. *)
Fixpoint group_free (r : regex) : bool :=
  match r with
  | Grp _ => false
  | Cat r1 r2 | Alt r1 r2 => group_free r1 && group_free r2
  | _ => true
  end.

(** A non-empty run of decimal digits. *)
Definition digits (U : unicode) (g : str) : Prop :=
  g <> [] /\ Forall (fun c => isdecimal U c = true) g.

(** A number printed with one decimal place. *)
Definition one_decimal (s : str) : Prop :=
  exists sign n d,
    (d < 10)%N /\ s = sign_str sign ++ str_of_N n ++ py "." ++ str_of_N d.

(** An integer, or a float that is neither infinite nor a NaN. *)
Definition finite_num (x : pynum) : Prop :=
  match x with
  | PyInt _ => True
  | PyFloat (S754_zero _) => True
  | PyFloat (S754_finite _ _ _) => True
  | PyFloat _ => False
  end.

(** The text has no newline. *)
Definition one_line (s : str) : bool := forallb (fun c => negb (N.eqb c NL)) s.

(** The level names of [_extract_grade_level] with their labels, in the
    order of the [if]/[elif] chain, and likewise the complexity words. *)
Definition level_buckets : list (list str * str) :=
  [ ([py "elementary"; py "primary"; py "kindergarten"],
     py "K-5 (Elementary)");
    ([py "middle school"; py "junior high"], py "6-8 (Middle School)");
    ([py "high school"; py "secondary"], py "9-12 (High School)");
    ([py "college"; py "university"; py "undergraduate"],
     py "College/University") ].

Definition complexity_buckets : list (list str * str) :=
  [ ([py "basic"; py "introduction"; py "simple"; py "beginner"],
     py "Elementary to Middle School (Est.)");
    ([py "advanced"; py "complex"; py "in-depth"],
     py "High School to College (Est.)") ].

(** No word of the buckets is in the text. *)
Definition none_in (buckets : list (list str * str)) (text : str) : Prop :=
  Forall (fun b => any_in (fst b) text = false) buckets.

(** The lines of the complexity report, and a text made of
    newline-terminated lines. *)
Definition report_lines (r : GradeLevelAnalyzer.ComplexityReport) : list str :=
  [ py "Content Complexity Analysis:";
    py "  " ++ [bullet] ++ py " Suggested Grade Range: "
    ++ GradeLevelAnalyzer.grade_range_str (GradeLevelAnalyzer.grade_range r);
    py "  " ++ [bullet] ++ py " Complexity Level: "
    ++ GradeLevelAnalyzer.complexity_str (GradeLevelAnalyzer.complexity r);
    py "  " ++ [bullet] ++ py " Average Word Length: "
    ++ format_1f (GradeLevelAnalyzer.avg_word_length r) ++ py " characters";
    py "  " ++ [bullet] ++ py " Average Sentence Length: "
    ++ format_1f (GradeLevelAnalyzer.avg_sentence_length r) ++ py " words" ].

Definition unlines (ls : list str) : str :=
  concat (map (fun l => l ++ [NL]) ls).

(** The longest prefix of characters of a class, and what follows it. *)
Fixpoint take_while (p : N -> bool) (s : str) : str :=
  match s with
  | [] => []
  | c :: t => if p c then c :: take_while p t else []
  end.

Fixpoint drop_while (p : N -> bool) (s : str) : str :=
  match s with
  | [] => []
  | c :: t => if p c then drop_while p t else s
  end.

(** The classes of [leading_bullets] and [leading_numbering]. *)
Definition bullet_or_blank (U : unicode) (c : N) : bool :=
  isspace U c || N.eqb c 45 || N.eqb c bullet || N.eqb c 42.

Definition numbering_char (U : unicode) (c : N) : bool :=
  isdecimal U c || N.eqb c period || N.eqb c 41 || N.eqb c 45
  || N.eqb c bullet || N.eqb c 42 || isspace U c.

(** The first character, if any, is not of the class. *)
Definition starts_outside (p : N -> bool) (s : str) : Prop :=
  match s with
  | [] => True
  | c :: _ => p c = false
  end.

(** An item of a section scanner: longer than [n] characters, without
    blanks at either end, not starting with a bullet. *)
Definition item_ok (U : unicode) (n : nat) (item : str) : Prop :=
  n < length item
  /\ strip U item = item
  /\ starts_outside (bullet_or_blank U) item
  /\ one_line item = true.

(** A topic: 6 to 99 characters, not starting with numbering, bullets or
    blanks, and without a blank at the end. *)
Definition topic_ok (U : unicode) (topic : str) : Prop :=
  5 < length topic < 100
  /\ starts_outside (numbering_char U) topic
  /\ strip U topic = topic
  /\ one_line topic = true.

(** A vocabulary term: not empty, without blanks at either end, without
    comma, semicolon or newline. *)
Definition term_ok (U : unicode) (term : str) : Prop :=
  term <> []
  /\ strip U term = term
  /\ has_char 44 term = false
  /\ has_char 59 term = false
  /\ one_line term = true.

(** The line can contribute vocabulary: it has one of the three marker
    words and a colon. *)
Definition vocabulary_line (U : unicode) (line : str) : bool :=
  (contains (py "vocabulary") (lower U line)
   || contains (py "vocab") (lower U line)
   || contains (py "terms") (lower U line))
  && has_char colon line.

(** An iteration of a section scanner leaves the items alone or appends
    the cleaned line under the length test. *)
Definition body_shape (U : unicode) (n : nat)
           (body : bool * list str -> str -> result (bool * list str)) : Prop :=
  forall st line st',
    body st line = Ok st' ->
    snd st' = snd st
    \/ snd st' = NotesAnalysisTool.append_if_longer
                   n (snd st) (NotesAnalysisTool.clean U line).

(** The keywords of a category of the score table. *)
Definition keywords_of (name : str) : list str :=
  match find (fun e => str_eqb (fst e) name) NotesAnalysisTool.subject_keywords
  with
  | Some e => snd e
  | None => []
  end.

(** The number of periods of a text. *)
Definition count_periods (s : str) : nat := length (filter (N.eqb period) s).

(** No two blank lines in a row; [prev_blank] tells whether the line
    before the first one was blank. *)
Fixpoint no_blank_pair (U : unicode) (prev_blank : bool) (body : list str)
  : bool :=
  match body with
  | [] => true
  | line :: t =>
      if truthy (strip U line) then no_blank_pair U false t
      else negb prev_blank && no_blank_pair U true t
  end.

(** The lines of the notes report: a titled list takes a title line, one
    line per item and an empty line, and is left out when the list is
    empty. *)
Definition section_lines (title : str) (items : list str) : list str :=
  match items with
  | [] => []
  | _ => title :: map (fun x => py "  " ++ [bullet] ++ py " " ++ x) items
               ++ [[]]
  end.

Definition notes_report_lines (a : NotesAnalysisTool.Analysis) : list str :=
  [ py "=== TEACHING NOTES ANALYSIS ===";
    [];
    py "Subject Area: " ++ NotesAnalysisTool.subject a;
    py "Grade Level: " ++ NotesAnalysisTool.grade_level a;
    [] ]
  ++ section_lines (py "Key Concepts:") (NotesAnalysisTool.key_concepts a)
  ++ section_lines (py "Learning Objectives Found:")
                   (NotesAnalysisTool.learning_objectives a)
  ++ match NotesAnalysisTool.vocabulary a with
     | [] => []
     | _ => [ py "Vocabulary Terms: "
              ++ join (py ", ") (NotesAnalysisTool.vocabulary a);
              [] ]
     end
  ++ section_lines (py "Prior Knowledge Required:")
                   (NotesAnalysisTool.prior_knowledge a)
  ++ section_lines (py "Real-World Connections:")
                   (NotesAnalysisTool.real_world_connections a)
  ++ [ py "Content Statistics:";
       py "  " ++ [bullet] ++ py " Total Words: "
       ++ str_of_nat (NotesAnalysisTool.total_words
                        (NotesAnalysisTool.content_stats a));
       py "  " ++ [bullet] ++ py " Has Objectives: "
       ++ str_of_bool (NotesAnalysisTool.has_objectives
                         (NotesAnalysisTool.content_stats a));
       py "  " ++ [bullet] ++ py " Has Vocabulary: "
       ++ str_of_bool (NotesAnalysisTool.has_vocabulary
                         (NotesAnalysisTool.content_stats a)) ].

(** The number of lines a titled list takes in the report. *)
Definition section_height (items : list str) : nat :=
  match items with
  | [] => 0
  | _ => length items + 2
  end.

(* ------------------------------------------------------------------ *)
(** * Strings and loops *)

Lemma lstrip_nil U : lstrip U [] = [].
Proof. reflexivity. Qed.

Lemma strip_nil U : strip U [] = [].
Proof. reflexivity. Qed.

Lemma truthy_strip_cons U line :
  truthy (strip U line) = true -> exists c t, line = c :: t.
Proof.
  destruct line as [|c t]; [discriminate | eauto].
Qed.

Lemma split_chr_cons sep s : exists h t, split_chr sep s = h :: t.
Proof.
  induction s as [|c s IH]; simpl; eauto.
  destruct (N.eqb c sep); eauto.
  destruct IH as (h & t & ->); eauto.
Qed.

Lemma split_chr_length sep s : 1 <= length (split_chr sep s).
Proof.
  destruct (split_chr_cons sep s) as (h & t & ->); simpl; lia.
Qed.

Lemma split_chr1_colon sep s :
  has_char sep s = true -> exists a b, split_chr1 sep s = [a; b].
Proof.
  unfold has_char.
  induction s as [|c s IH]; simpl; [discriminate|].
  rewrite N.eqb_sym.
  destruct (N.eqb c sep); simpl; eauto.
  intros H; destruct (IH H) as (a & b & ->); eauto.
Qed.

Lemma Subseq_refl {A} (l : list A) : Subseq l l.
Proof. induction l; [apply Subseq_nil | apply Subseq_take; auto]. Qed.

Lemma Subseq_nil_l {A} (l : list A) : Subseq [] l.
Proof. induction l; [apply Subseq_nil | apply Subseq_skip; auto]. Qed.

Lemma Subseq_app {A} (a b c d : list A) :
  Subseq a b -> Subseq c d -> Subseq (a ++ c) (b ++ d).
Proof.
  induction 1; simpl; intros; auto.
  - apply Subseq_skip; auto.
  - apply Subseq_take; auto.
Qed.

Lemma Subseq_trans {A} (b : list A) :
  forall a c, Subseq a b -> Subseq b c -> Subseq a c.
Proof.
  intros a c Hab Hbc; revert a Hab.
  induction Hbc; intros a Hab; auto.
  - apply Subseq_skip; auto.
  - inversion Hab; subst; [apply Subseq_skip | apply Subseq_take]; auto.
Qed.

Lemma Subseq_firstn {A} n (l : list A) : Subseq (firstn n l) l.
Proof.
  revert n; induction l; intros [|n]; simpl;
    try apply Subseq_nil; try apply Subseq_nil_l.
  apply Subseq_take; auto.
Qed.

Lemma Subseq_filter {A} (f : A -> bool) (l : list A) : Subseq (filter f l) l.
Proof.
  induction l as [|a l IH]; simpl; [apply Subseq_nil|].
  destruct (f a); [apply Subseq_take | apply Subseq_skip]; auto.
Qed.

Lemma Subseq_map {A B} (f : A -> B) (a b : list A) :
  Subseq a b -> Subseq (map f a) (map f b).
Proof.
  induction 1; simpl;
    [apply Subseq_nil | apply Subseq_skip | apply Subseq_take]; auto.
Qed.

Lemma length_firstn_cap {A} n (l : list A) : length (firstn n l) <= n.
Proof.
  revert l; induction n; intros [|x l]; simpl; try lia.
  specialize (IHn l); lia.
Qed.

Lemma flat_map_singleton {A B} (f : A -> B) (l : list A) :
  flat_map (fun x => [f x]) l = map f l.
Proof. induction l; simpl; congruence. Qed.

(** A loop whose body never raises and, at each element, appends to the
    collected items some of the candidates of that element: the loop does
    not raise, and what it collects is a subsequence of all candidates. *)
Lemma for_each_emits {S A B} (items : S -> list B) (g : A -> list B)
      (body : S -> A -> result S) :
  (forall st x, exists st' e,
      body st x = Ok st' /\ items st' = items st ++ e /\ Subseq e (g x)) ->
  forall xs st, exists st' extra,
      for_each body st xs = Ok st'
      /\ items st' = items st ++ extra
      /\ Subseq extra (flat_map g xs).
Proof.
  intros Hbody; induction xs as [|x xs IH]; intros st; simpl.
  - exists st, []; rewrite app_nil_r; repeat split; apply Subseq_nil.
  - destruct (Hbody st x) as (st1 & e & -> & He & Hsub); simpl.
    destruct (IH st1) as (st2 & extra & -> & Hi & Hs).
    exists st2, (e ++ extra); repeat split.
    + rewrite Hi, He, app_assoc; reflexivity.
    + apply Subseq_app; assumption.
Qed.

(* ------------------------------------------------------------------ *)
(** * What a match of the grade patterns captures *)

Module RegexFacts.

Section Sound.
Variable R : Type.

Lemma many_sound p : forall s pos (k : nat -> str -> option R) x,
    many p pos s k = Some x ->
    exists run rest,
      s = run ++ rest /\ Forall (fun c => p c = true) run
      /\ k (pos + length run) rest = Some x.
Proof.
  induction s as [|c t IH]; intros pos k x H; simpl in H.
  - exists [], []; simpl; rewrite Nat.add_0_r; auto.
  - destruct (p c) eqn:Hc.
    + destruct (many p (S pos) t k) eqn:Hm.
      * injection H as <-.
        destruct (IH _ _ _ Hm) as (run & rest & -> & Hrun & Hk).
        exists (c :: run), rest; simpl; repeat split; auto.
        rewrite <- Hk; f_equal; lia.
      * exists [], (c :: t); simpl; rewrite Nat.add_0_r; auto.
    + exists [], (c :: t); simpl; rewrite Nat.add_0_r; auto.
Qed.

(** The repetition does not lose a match the rest of the pattern has
    after some part of a run of the class. *)
Lemma many_complete p (k : nat -> str -> option R) :
  forall run rest pos,
    Forall (fun c => p c = true) run ->
    (exists x, k (pos + length run) rest = Some x) ->
    exists x, many p pos (run ++ rest) k = Some x.
Proof.
  induction run as [|c run IH]; intros rest pos Hrun [x Hk]; simpl.
  - rewrite Nat.add_0_r in Hk.
    destruct rest as [|c t]; simpl; [eauto|].
    destruct (p c); [|eauto].
    destruct (many p (S pos) t k); eauto.
  - inversion Hrun as [|? ? Hc Hrun']; subst; rewrite Hc.
    destruct (IH rest (S pos) Hrun') as [y ->]; [|eauto].
    exists x; rewrite <- Hk; f_equal; simpl; lia.
Qed.

Lemma lit_complete l : forall rest pos cap (k : nat -> str -> option str -> option R),
    rmatch (Lit l) pos (l ++ rest) cap k = k (pos + length l) rest cap.
Proof.
  induction l as [|c l IH]; intros rest pos cap k; simpl.
  - rewrite Nat.add_0_r; reflexivity.
  - rewrite N.eqb_refl, IH; f_equal; lia.
Qed.

(** A pattern without a group hands the captured text on unchanged. *)
Lemma group_free_cap r :
  group_free r = true ->
  forall pos s cap (k : nat -> str -> option str -> option R) x,
    rmatch r pos s cap k = Some x ->
    exists pos' s', k pos' s' cap = Some x.
Proof.
  induction r as [| | c | p | r1 IH1 r2 IH2 | r1 IH1 r2 IH2 | p | r IH];
    intros Hg pos s cap k x H; simpl in *; try discriminate; eauto.
  - destruct (Nat.eqb pos 0); [eauto | discriminate].
  - destruct s as [|a t]; [discriminate|].
    destruct (N.eqb a c); [eauto | discriminate].
  - destruct s as [|a t]; [discriminate|].
    destruct (p a); [eauto | discriminate].
  - apply andb_true_iff in Hg as [Hg1 Hg2].
    destruct (IH1 Hg1 _ _ _ _ _ H) as (pos1 & s1 & H1).
    apply (IH2 Hg2 _ _ _ _ _ H1).
  - apply andb_true_iff in Hg as [Hg1 Hg2].
    destruct (rmatch r1 pos s cap k) eqn:E.
    + injection H as <-; apply (IH1 Hg1 _ _ _ _ _ E).
    + apply (IH2 Hg2 _ _ _ _ _ H).
  - destruct (many_sound _ _ _ _ H) as (run & rest & _ & _ & Hk); eauto.
Qed.

(** The group of the grade patterns, [(\d+)], captures a non-empty run
    of the class. *)
Lemma group_many1_sound p pos s cap (k : nat -> str -> option str -> option R) x :
  rmatch (Grp (Many1 p)) pos s cap k = Some x ->
  exists g rest,
    g <> [] /\ Forall (fun c => p c = true) g
    /\ s = g ++ rest
    /\ k (pos + length g) rest (Some g) = Some x.
Proof.
  simpl; destruct s as [|c t]; [discriminate|].
  destruct (p c) eqn:Hc; [|discriminate].
  intros H; apply many_sound in H as (run & rest & -> & Hrun & Hk).
  exists (c :: run), rest; repeat split; auto; [discriminate|].
  replace (S pos + length run - pos) with (S (length run)) in Hk by lia.
  rewrite firstn_cons, firstn_app, firstn_all, Nat.sub_diag, firstn_O,
    app_nil_r in Hk.
  replace (pos + length (c :: run)) with (S pos + length run)
    by (simpl; lia).
  exact Hk.
Qed.
End Sound.

Lemma search_from_sound r : forall s pos m,
    search_from r pos s = Some m ->
    exists pos' s', match_at r pos' s' = Some m.
Proof.
  induction s as [|c t IH]; intros pos m H; simpl in H.
  - destruct (match_at r pos []) eqn:E; [|discriminate].
    injection H as <-; eauto.
  - destruct (match_at r pos (c :: t)) eqn:E.
    + injection H as <-; eauto.
    + eauto.
Qed.

(** A match at some offset is not missed by the search (which may stop at
    an earlier one). *)
Lemma search_from_complete r : forall pre s pos,
    (exists m, match_at r (pos + length pre) s = Some m) ->
    exists m, search_from r pos (pre ++ s) = Some m.
Proof.
  induction pre as [|c pre IH]; intros s pos [m Hm]; simpl in *.
  - rewrite Nat.add_0_r in Hm.
    destruct s; simpl; rewrite Hm; eauto.
  - destruct (match_at r pos (c :: pre ++ s)); [eauto|].
    apply IH; exists m; rewrite <- Hm; f_equal; lia.
Qed.

Lemma contains_split needle : forall hay,
    contains needle hay = true ->
    exists pre post, hay = pre ++ needle ++ post.
Proof.
  assert (Hsw : forall p s, startswith p s = true -> exists post, s = p ++ post).
  { induction p as [|a p IHp]; intros s H; simpl in *; [eauto|].
    destruct s as [|b s]; [discriminate|].
    apply andb_true_iff in H as [Hab Hp].
    apply N.eqb_eq in Hab as ->.
    destruct (IHp _ Hp) as (post & ->); eauto. }
  induction hay as [|c hay IH]; intros H; simpl in H.
  - apply orb_true_iff in H as [H | H]; [|discriminate].
    destruct (Hsw _ _ H) as (post & ->); exists [], post; reflexivity.
  - apply orb_true_iff in H as [H | H].
    + destruct (Hsw _ _ H) as (post & ->); exists [], post; reflexivity.
    + destruct (IH H) as (pre & post & ->).
      exists (c :: pre), post; reflexivity.
Qed.

End RegexFacts.

(* ------------------------------------------------------------------ *)
(** * The section scanners never raise and collect in line order *)

Module NotesFacts.
Import NotesAnalysisTool.

Section Bodies.
Variable U : unicode.

Lemma append_if_longer_emits n items item :
  exists e, append_if_longer n items item = items ++ e /\ Subseq e [item].
Proof.
  unfold append_if_longer.
  destruct (truthy item && Nat.ltb n (length item)).
  - exists [item]; split; [reflexivity | apply Subseq_refl].
  - exists []; rewrite app_nil_r; split; [reflexivity | apply Subseq_nil_l].
Qed.

Lemma unindented_cons line :
  unindented U line = true -> exists c t, line = c :: t.
Proof.
  unfold unindented; intros H.
  apply andb_true_iff in H as [H _].
  apply (truthy_strip_cons U); assumption.
Qed.

Ltac same_items st := exists st, []; simpl; rewrite app_nil_r;
                      repeat split; apply Subseq_nil_l.

Lemma concepts_body_emits : emits U (concepts_body U).
Proof.
  intros [inside items] line; unfold concepts_body.
  destruct (any_in concept_markers (strip U (lower U line))).
  { same_items (true, items). }
  destruct (inside && unindented U line) eqn:Hleave.
  - apply andb_true_iff in Hleave as [-> Hun].
    destruct (unindented_cons _ Hun) as (c & t & ->).
    destruct (has_char colon (c :: t)); simpl.
    + same_items (false, items).
    + destruct (isupper U c); simpl.
      * same_items (false, items).
      * destruct (truthy (strip U (c :: t))).
        -- destruct (append_if_longer_emits 5 items (clean U (c :: t)))
             as (e & -> & He).
           exists (true, items ++ e), e; auto.
        -- same_items (true, items).
  - simpl.
    destruct (inside && truthy (strip U line)).
    + destruct (append_if_longer_emits 5 items (clean U line))
        as (e & -> & He).
      exists (inside, items ++ e), e; auto.
    + same_items (inside, items).
Qed.

Lemma objectives_body_emits : emits U (objectives_body U).
Proof.
  intros [inside items] line; unfold objectives_body.
  set (is_marker := any_in objective_markers (strip U (lower U line))).
  destruct (is_marker && has_char colon line).
  { same_items (true, items). }
  set (inside' := if is_marker then true else inside).
  destruct (inside' && unindented U line) eqn:Hleave.
  - apply andb_true_iff in Hleave as [-> Hun].
    destruct (unindented_cons _ Hun) as (c & t & ->).
    destruct (has_char colon (c :: t)); simpl.
    + same_items (false, items).
    + destruct (isupper U c
                && negb (contains (py "objective")
                                  (strip U (lower U (c :: t))))); simpl.
      * same_items (false, items).
      * destruct (truthy (strip U (c :: t))).
        -- destruct (append_if_longer_emits 10 items (clean U (c :: t)))
             as (e & -> & He).
           exists (true, items ++ e), e; auto.
        -- same_items (true, items).
  - simpl.
    destruct (inside' && truthy (strip U line)).
    + destruct (append_if_longer_emits 10 items (clean U line))
        as (e & -> & He).
      exists (inside', items ++ e), e; auto.
    + same_items (inside', items).
Qed.

Lemma section_body_emits is_marker : emits U (section_body U is_marker).
Proof.
  intros [inside items] line; unfold section_body.
  destruct (is_marker (lower U line)).
  { same_items (true, items). }
  destruct inside; [|same_items (false, items)].
  destruct (unindented U line).
  { same_items (if has_char colon line then false else true, items). }
  destruct (truthy (strip U line)); [|same_items (true, items)].
  destruct (append_if_longer_emits 5 items (clean U line)) as (e & -> & He).
  exists (true, items ++ e), e; auto.
Qed.

(** A scanner: its loop over the lines of the notes, then the cap. *)
Lemma scanner_ok body (notes : str) :
  emits U body ->
  exists inside all,
    for_each body (false, []) (split_chr NL notes) = Ok (inside, all)
    /\ Subseq all (map (clean U) (split_chr NL notes)).
Proof.
  intros Hbody.
  destruct (for_each_emits (@snd bool (list str)) (fun l => [clean U l])
                           body Hbody (split_chr NL notes) (false, []))
    as ([inside all] & extra & Hrun & Hitems & Hsub).
  simpl in Hitems; subst all.
  exists inside, extra; split; [assumption|].
  rewrite flat_map_singleton in Hsub; assumption.
Qed.

Lemma vocabulary_body_emits vocab line :
  exists e, vocabulary_body U vocab line = Ok (vocab ++ e)
            /\ Subseq e (vocab_terms U line).
Proof.
  unfold vocabulary_body, vocab_terms.
  assert (Hnone : exists e : list str,
             Ok vocab = Ok (vocab ++ e)
             /\ Subseq e match split_chr1 colon line with
                         | [_; terms_text] =>
                             map (strip U)
                                 (re_split comma_or_semicolon terms_text)
                         | _ => []
                         end).
  { exists []; rewrite app_nil_r; split; [reflexivity | apply Subseq_nil_l]. }
  destruct (contains (py "vocabulary") (lower U line)
            || contains (py "vocab") (lower U line)
            || contains (py "terms") (lower U line)); [|exact Hnone].
  destruct (has_char colon line) eqn:Hc; [|exact Hnone].
  destruct (split_chr1_colon _ _ Hc) as (a & b & ->); simpl.
  eexists; split; [reflexivity|].
  apply Subseq_map, Subseq_filter.
Qed.

Lemma topics_body_emits topics line :
  exists e, topics_body U topics line = Ok (topics ++ e)
            /\ Subseq e [topic_of U line].
Proof.
  unfold topics_body, topic_of.
  assert (Hnone : exists e : list str,
             Ok topics = Ok (topics ++ e)
             /\ Subseq e [re_sub (leading_numbering U) [] (strip U line)]).
  { exists []; rewrite app_nil_r; split; [reflexivity | apply Subseq_nil_l]. }
  destruct (strip U line) as [|c t] eqn:Hs; simpl; [exact Hnone|].
  match goal with
  | |- context [if ?b then Ok _ else _] => destruct b
  end; [|exact Hnone].
  match goal with
  | |- context [if ?b then _ else _] => destruct b
  end; [|exact Hnone].
  eexists; split; [reflexivity | apply Subseq_refl].
Qed.

Lemma vocabulary_ok notes :
  exists all,
    for_each (vocabulary_body U) [] (split_chr NL notes) = Ok all
    /\ Subseq all (flat_map (vocab_terms U) (split_chr NL notes)).
Proof.
  destruct (for_each_emits (fun v : list str => v) (vocab_terms U)
                           (vocabulary_body U)) with
    (xs := split_chr NL notes) (st := @nil str)
    as (all & extra & Hrun & Hitems & Hsub).
  - intros st x; destruct (vocabulary_body_emits st x) as (e & He & Hs).
    exists (st ++ e), e; auto.
  - simpl in Hitems; subst; eauto.
Qed.

Lemma topics_ok notes :
  exists all,
    for_each (topics_body U) [] (split_chr NL notes) = Ok all
    /\ Subseq all (map (topic_of U) (split_chr NL notes)).
Proof.
  destruct (for_each_emits (fun v : list str => v) (fun l => [topic_of U l])
                           (topics_body U)) with
    (xs := split_chr NL notes) (st := @nil str)
    as (all & extra & Hrun & Hitems & Hsub).
  - intros st x; destruct (topics_body_emits st x) as (e & He & Hs).
    exists (st ++ e), e; auto.
  - simpl in Hitems; subst.
    rewrite flat_map_singleton in Hsub; eauto.
Qed.

Lemma identify_subject_ok notes :
  exists subject, _identify_subject U notes = Ok subject.
Proof.
  unfold _identify_subject.
  destruct (fill_scores (lower U notes) subject_keywords [])
    as [|[k v] t]; simpl; eauto.
Qed.

(** [analysis] never raises; its lists are the capped results of the loops
    over the lines of the notes. *)
Lemma analysis_ok notes :
  let lines := split_chr NL notes in
  exists subj i1 kc i2 lo vo tp i3 pk i4 rw,
    _identify_subject U notes = Ok subj
    /\ for_each (concepts_body U) (false, []) lines = Ok (i1, kc)
    /\ for_each (objectives_body U) (false, []) lines = Ok (i2, lo)
    /\ for_each (vocabulary_body U) [] lines = Ok vo
    /\ for_each (topics_body U) [] lines = Ok tp
    /\ for_each (prior_body U) (false, []) lines = Ok (i3, pk)
    /\ for_each (real_world_body U) (false, []) lines = Ok (i4, rw)
    /\ Subseq kc (map (clean U) lines)
    /\ Subseq lo (map (clean U) lines)
    /\ Subseq vo (flat_map (vocab_terms U) lines)
    /\ Subseq tp (map (topic_of U) lines)
    /\ Subseq pk (map (clean U) lines)
    /\ Subseq rw (map (clean U) lines)
    /\ analysis U notes =
       Ok {| subject := subj;
             grade_level := _extract_grade_level U notes;
             key_concepts := firstn 10 kc;
             learning_objectives := firstn 8 lo;
             vocabulary := firstn 15 vo;
             topics := firstn 10 tp;
             prior_knowledge := firstn 8 pk;
             real_world_connections := firstn 8 rw;
             content_stats :=
               {| total_words := length (split_ws U notes);
                  total_lines := length (split_chr NL notes);
                  has_objectives :=
                    contains (py "objective") (lower U notes);
                  has_vocabulary :=
                    contains (py "vocabulary") (lower U notes)
                    || contains (py "vocab") (lower U notes);
                  has_standards :=
                    contains (py "standard") (lower U notes) |} |}.
Proof.
  intros lines.
  destruct (identify_subject_ok notes) as (subj & Hsubj).
  destruct (scanner_ok notes concepts_body_emits) as (i1 & kc & Hkc & Skc).
  destruct (scanner_ok notes objectives_body_emits) as (i2 & lo & Hlo & Slo).
  destruct (vocabulary_ok notes) as (vo & Hvo & Svo).
  destruct (topics_ok notes) as (tp & Htp & Stp).
  destruct (scanner_ok notes (section_body_emits _ : emits U (prior_body U)))
    as (i3 & pk & Hpk & Spk).
  destruct (scanner_ok notes
              (section_body_emits _ : emits U (real_world_body U)))
    as (i4 & rw & Hrw & Srw).
  exists subj, i1, kc, i2, lo, vo, tp, i3, pk, i4, rw.
  repeat (split; [assumption|]).
  unfold analysis, _extract_key_concepts, _extract_objectives,
    _extract_vocabulary, _extract_topics, _extract_prior_knowledge,
    _extract_real_world.
  fold lines in Hkc, Hlo, Hvo, Htp, Hpk, Hrw.
  rewrite Hsubj; simpl.
  fold lines.
  rewrite Hkc; simpl. rewrite Hlo; simpl. rewrite Hvo; simpl.
  rewrite Htp; simpl. rewrite Hpk; simpl. rewrite Hrw; simpl.
  reflexivity.
Qed.
End Bodies.

End NotesFacts.

(* ------------------------------------------------------------------ *)
(** * The subject classifier *)

Module SubjectFacts.
Import NotesAnalysisTool.

Lemma fold_add_ones {A} (l : list A) n :
  fold_left Nat.add (map (fun _ => 1) l) n = n + length l.
Proof.
  revert n; induction l as [|x l IH]; intros n; simpl; [lia|].
  rewrite IH; lia.
Qed.

(** A category scores the number of its keywords that are present. *)
Lemma score_present text keywords :
  score text keywords
  = length (filter (fun keyword => contains keyword text) keywords).
Proof. unfold score, sum; rewrite fold_add_ones; reflexivity. Qed.

Lemma str_eqb_eq a b : str_eqb a b = true <-> a = b.
Proof.
  unfold str_eqb; destruct (list_eq_dec N.eq_dec a b); split;
    congruence.
Qed.

Lemma dict_set_fresh {V} (d : dict V) k v :
  ~ In k (map fst d) -> dict_set d k v = d ++ [(k, v)].
Proof.
  induction d as [|[k' v'] d IH]; simpl; intros Hk; [reflexivity|].
  destruct (str_eqb k' k) eqn:E.
  - apply str_eqb_eq in E; tauto.
  - rewrite IH; tauto.
Qed.

Lemma positives_keys text items k :
  In k (map fst (positives text items)) -> In k (map fst items).
Proof.
  unfold positives; induction items as [|[s kws] items IH]; simpl; auto.
  destruct (Nat.ltb 0 (score text kws)); simpl; tauto.
Qed.

Lemma fill_scores_positives text items :
  forall d,
    NoDup (map fst items) ->
    (forall k, In k (map fst d) -> ~ In k (map fst items)) ->
    fill_scores text items d = d ++ positives text items.
Proof.
  induction items as [|[s kws] items IH]; intros d Hnd Hfresh; simpl.
  - rewrite app_nil_r; reflexivity.
  - inversion Hnd as [|? ? Hs Hnd']; subst.
    unfold positives; simpl; fold (positives text items).
    destruct (Nat.ltb 0 (score text kws)).
    + rewrite dict_set_fresh.
      * rewrite IH; auto.
        -- rewrite <- app_assoc; reflexivity.
        -- intros k Hk; rewrite map_app, in_app_iff in Hk; simpl in Hk.
           destruct Hk as [Hk | [<- | []]]; auto.
           intros Hin; apply (Hfresh k Hk); simpl; auto.
      * intros Hin; apply (Hfresh s Hin); simpl; auto.
    + apply IH; auto.
      intros k Hk Hin; apply (Hfresh k Hk); simpl; auto.
Qed.

Lemma max_from_first best bv l1 k v l2 :
  bv < v ->
  Forall (fun e => snd e < v) l1 ->
  Forall (fun e => snd e <= v) l2 ->
  max_from best bv (l1 ++ (k, v) :: l2) = k.
Proof.
  revert best bv; induction l1 as [|[k1 v1] l1 IH]; intros best bv Hbv H1 H2;
    simpl.
  - apply Nat.ltb_lt in Hbv; rewrite Hbv.
    clear -H2; revert k; induction H2 as [|[k2 v2] l2 Hle _ IH2]; intros k;
      simpl; auto.
    simpl in Hle; destruct (Nat.ltb v v2) eqn:E; auto.
    apply Nat.ltb_lt in E; lia.
  - inversion H1 as [|? ? Hv1 H1']; subst; simpl in Hv1.
    destruct (Nat.ltb bv v1); apply IH; auto.
Qed.

Lemma max_from_keeps best bv l :
  Forall (fun e => snd e <= bv) l -> max_from best bv l = best.
Proof.
  intros H; revert best.
  induction H as [|[k v] l Hle _ IH]; intros best; simpl; auto.
  simpl in Hle; destruct (Nat.ltb bv v) eqn:E; auto.
  apply Nat.ltb_lt in E; lia.
Qed.

(** [max] returns the first key whose value no other key exceeds. *)
Lemma max_by_value_first l1 k v l2 :
  Forall (fun e => snd e < v) l1 ->
  Forall (fun e => snd e <= v) l2 ->
  max_by_value (l1 ++ (k, v) :: l2) = Ok k.
Proof.
  intros H1 H2; destruct l1 as [|[k1 v1] l1]; simpl.
  - rewrite max_from_keeps; auto.
  - inversion H1; subst; simpl in *.
    rewrite max_from_first; auto.
Qed.

Lemma positives_app text a b :
  positives text (a ++ b) = positives text a ++ positives text b.
Proof. unfold positives; rewrite map_app, filter_app; reflexivity. Qed.

Lemma positives_Forall (P : nat -> Prop) text items :
  Forall (fun e => P (score text (snd e))) items ->
  Forall (fun e => P (snd e)) (positives text items).
Proof.
  unfold positives; induction 1 as [|[s kws] items Hx _ IH]; simpl; auto.
  destruct (Nat.ltb 0 (score text kws)); auto.
Qed.

Lemma positives_zero text items :
  Forall (fun e => score text (snd e) = 0) items -> positives text items = [].
Proof.
  unfold positives; induction 1 as [|[s kws] items Hx _ IH]; simpl; auto.
  simpl in Hx; rewrite Hx; simpl; assumption.
Qed.

Lemma subject_keywords_NoDup : NoDup (map fst subject_keywords).
Proof.
  repeat (constructor; [simpl; intuition discriminate|]); constructor.
Qed.

Lemma fill_scores_table text :
  fill_scores text subject_keywords [] = positives text subject_keywords.
Proof.
  apply (fill_scores_positives text subject_keywords []).
  - apply subject_keywords_NoDup.
  - intros k [].
Qed.

Section WithUnicode.
Variable U : unicode.

(** The category that wins: positive score, strictly above every
    category declared before it and not below any declared after it. *)
Lemma identify_subject_winner notes pre name kws post :
  let text := lower U notes in
  subject_keywords = pre ++ (name, kws) :: post ->
  0 < score text kws ->
  Forall (fun e => score text (snd e) < score text kws) pre ->
  Forall (fun e => score text (snd e) <= score text kws) post ->
  _identify_subject U notes = Ok name.
Proof.
  intros text Htab Hpos Hpre Hpost.
  unfold _identify_subject; fold text.
  rewrite fill_scores_table, Htab, positives_app.
  assert (Hmid : positives text ((name, kws) :: post)
                 = (name, score text kws) :: positives text post).
  { unfold positives; simpl.
    apply Nat.ltb_lt in Hpos; rewrite Hpos; reflexivity. }
  rewrite Hmid.
  assert (Hmax : max_by_value (positives text pre
                               ++ (name, score text kws)
                               :: positives text post) = Ok name).
  { apply max_by_value_first.
    - apply (positives_Forall (fun n => n < score text kws)); assumption.
    - apply (positives_Forall (fun n => n <= score text kws)); assumption. }
  destruct (positives text pre ++ (name, score text kws)
            :: positives text post) eqn:E; [|assumption].
  destruct (positives text pre); discriminate.
Qed.

Lemma identify_subject_none notes :
  Forall (fun e => score (lower U notes) (snd e) = 0) subject_keywords ->
  _identify_subject U notes = Ok (py "General/Multi-Subject").
Proof.
  intros H; unfold _identify_subject.
  rewrite fill_scores_table, positives_zero; auto.
Qed.
End WithUnicode.

(** Every non-empty list has a first element of maximal measure. *)
Lemma first_max_split {A} (f : A -> nat) (l : list A) :
  l <> [] ->
  exists pre x post,
    l = pre ++ x :: post
    /\ Forall (fun e => f e < f x) pre
    /\ Forall (fun e => f e <= f x) post.
Proof.
  induction l as [|a l IH]; [congruence|]; intros _.
  destruct l as [|b l'].
  - exists [], a, []; auto.
  - destruct IH as (pre & x & post & Hl & Hpre & Hpost); [discriminate|].
    destruct (Nat.ltb (f a) (f x)) eqn:E.
    + apply Nat.ltb_lt in E.
      exists (a :: pre), x, post; rewrite Hl; repeat split; auto.
    + apply Nat.ltb_ge in E.
      exists [], a, (b :: l'); repeat split; auto.
      rewrite Hl; apply Forall_app; split.
      * eapply Forall_impl; [|exact Hpre]; simpl; intros; lia.
      * constructor; [lia|].
        eapply Forall_impl; [|exact Hpost]; simpl; intros; lia.
Qed.

End SubjectFacts.

(* ------------------------------------------------------------------ *)
(** * Subject classification (C1, C5) *)

Import NotesAnalysisTool.

(** C1, as the code has it.  For every input the classifier does not raise;
    a category scores the number of its keywords that are present in the
    lowercased text, each keyword counting once however often it occurs;
    the result is the general label when every category scores zero, and
    otherwise the category with the highest score, the first declared among
    equals.  On ["equation equation cell atom"] Mathematics scores 1, not 2,
    and Science, with 2, wins. *)
Theorem C1_score_counts_present_keywords :
  forall U notes,
    let text := lower U notes in
    (forall keywords,
        score text keywords
        = length (filter (fun keyword => contains keyword text) keywords))
    /\ ((Forall (fun e => score text (snd e) = 0) subject_keywords
         /\ _identify_subject U notes = Ok (py "General/Multi-Subject"))
        \/ (exists pre name keywords post,
               subject_keywords = pre ++ (name, keywords) :: post
               /\ 0 < score text keywords
               /\ Forall (fun e => score text (snd e) < score text keywords) pre
               /\ Forall (fun e => score text (snd e) <= score text keywords)
                         post
               /\ _identify_subject U notes = Ok name))
    /\ (let notes := py "equation equation cell atom" in
        map (fun e => score (lower basic_latin notes) (snd e)) subject_keywords
        = [1; 2; 0; 0; 0; 0; 0; 0]
        /\ _identify_subject basic_latin notes = Ok (py "Science")).
Proof.
  intros U notes text; split; [|split].
  - intros keywords; apply SubjectFacts.score_present.
  - destruct (@SubjectFacts.first_max_split _
                (fun e : str * list str => score text (snd e))
                subject_keywords)
      as (pre & [name keywords] & post & Htab & Hpre & Hpost);
      [discriminate|].
    simpl in Hpre, Hpost.
    destruct (score text keywords) as [|n] eqn:Hs.
    + left.
      assert (Hall : Forall (fun e => score text (snd e) = 0)
                            subject_keywords).
      { rewrite Htab; apply Forall_app; split.
        - eapply Forall_impl; [|exact Hpre]; simpl; intros; lia.
        - constructor; [assumption|].
          eapply Forall_impl; [|exact Hpost]; simpl; intros; lia. }
      split; [assumption|].
      apply SubjectFacts.identify_subject_none; assumption.
    + right; exists pre, name, keywords, post.
      rewrite Hs; repeat split; try assumption; try lia.
      apply (@SubjectFacts.identify_subject_winner U notes pre name keywords
                                                   post Htab);
        fold text; rewrite Hs; try assumption; lia.
  - vm_compute; split; reflexivity.
Qed.

(** C1 as it is worded fails: with every occurrence counted, Mathematics
    (["equation"] twice) would tie Science (["cell"], ["atom"]) at 2 and win
    as the first declared; the code scores Mathematics 1 and answers
    Science. *)
Lemma C1_occurrences_counterexample :
  let notes := py "equation equation cell atom" in
  let text := lower basic_latin notes in
  occurrences (py "equation") text = 2
  /\ map (fun e => occurrence_score text (snd e)) subject_keywords
     = [2; 2; 0; 0; 0; 0; 0; 0]
  /\ subject_by_occurrences basic_latin notes = py "Mathematics"
  /\ map (fun e => score text (snd e)) subject_keywords
     = [1; 2; 0; 0; 0; 0; 0; 0]
  /\ _identify_subject basic_latin notes = Ok (py "Science")
  /\ _identify_subject basic_latin notes
     <> Ok (subject_by_occurrences basic_latin notes).
Proof.
  vm_compute; repeat split; discriminate.
Qed.

(** C5.  The categories are declared in the order Mathematics, Science,
    English/Language Arts, Social Studies/History, Music, Art, Physical
    Education, Computer Science; when two categories share the highest,
    non-zero score, the one declared first is the answer. *)
Theorem C5_tie_goes_to_first_declared :
  forall U notes pre a ka mid b kb post,
    let text := lower U notes in
    subject_keywords = pre ++ (a, ka) :: mid ++ (b, kb) :: post ->
    score text ka = score text kb ->
    0 < score text ka ->
    Forall (fun e => score text (snd e) < score text ka) (pre ++ mid ++ post) ->
    _identify_subject U notes = Ok a
    /\ map fst subject_keywords
       = [py "Mathematics"; py "Science"; py "English/Language Arts";
          py "Social Studies/History"; py "Music"; py "Art";
          py "Physical Education"; py "Computer Science"].
Proof.
  intros U notes pre a ka mid b kb post text Htab Htie Hpos Hothers.
  split; [|reflexivity].
  apply Forall_app in Hothers as [Hpre Hrest].
  apply Forall_app in Hrest as [Hmid Hpost].
  apply (@SubjectFacts.identify_subject_winner U notes pre a ka
           (mid ++ (b, kb) :: post) Htab); fold text; try assumption.
  apply Forall_app; split.
  - eapply Forall_impl; [|exact Hmid]; simpl; intros; lia.
  - constructor; [simpl; lia|].
    eapply Forall_impl; [|exact Hpost]; simpl; intros; lia.
Qed.

(** ["equation cell"]: Mathematics and Science tie at 1. *)
Lemma C5_tie_witness :
  _identify_subject basic_latin (py "equation cell") = Ok (py "Mathematics")
  /\ map fst subject_keywords
     = [py "Mathematics"; py "Science"; py "English/Language Arts";
        py "Social Studies/History"; py "Music"; py "Art";
        py "Physical Education"; py "Computer Science"].
Proof.
  apply (@C5_tie_goes_to_first_declared basic_latin (py "equation cell")
           [] (py "Mathematics") (snd (nth 0 subject_keywords ([], [])))
           [] (py "Science") (snd (nth 1 subject_keywords ([], [])))
           (skipn 2 subject_keywords)).
  - reflexivity.
  - vm_compute; reflexivity.
  - vm_compute; lia.
  - vm_compute; repeat constructor.
Defined.

(* ------------------------------------------------------------------ *)
(** * Section markers and section ends (C2, C3) *)

(** C2, as the code has it.  In the scanners of key concepts, prior
    knowledge and real-world connections a line with a section marker puts
    the scanner inside and is consumed: nothing is collected from it.  In
    the objectives scanner this holds for a marker line that contains a
    colon; a marker line without a colon is handled as a line of the
    section it opens, whatever the state was before. *)
Theorem C2_marker_line_consumed :
  forall U inside items line,
    (any_in concept_markers (strip U (lower U line)) = true ->
     concepts_body U (inside, items) line = Ok (true, items))
    /\ (contains (py "prior knowledge") (lower U line)
        || contains (py "prerequisite") (lower U line) = true ->
        prior_body U (inside, items) line = Ok (true, items))
    /\ (any_in real_world_markers (lower U line) = true ->
        real_world_body U (inside, items) line = Ok (true, items))
    /\ (any_in objective_markers (strip U (lower U line)) = true ->
        has_char colon line = true ->
        objectives_body U (inside, items) line = Ok (true, items))
    /\ (any_in objective_markers (strip U (lower U line)) = true ->
        has_char colon line = false ->
        objectives_body U (inside, items) line
        = objectives_body U (true, items) line).
Proof.
  intros U inside items line; repeat split.
  - intros H; unfold concepts_body; rewrite H; reflexivity.
  - intros H; unfold prior_body, section_body; rewrite H; reflexivity.
  - intros H; unfold real_world_body, section_body; rewrite H; reflexivity.
  - intros H Hc; unfold objectives_body; rewrite H, Hc; reflexivity.
  - intros H Hc; unfold objectives_body; rewrite H, Hc; reflexivity.
Qed.

(** The header lines ["Key Concepts:"], ["Prior Knowledge"],
    ["Real-World Connections"], ["Learning Objectives:"] and the colon-free
    marker line ["our goal"]. *)
Lemma C2_marker_line_witness :
  concepts_body basic_latin (false, []) (py "Key Concepts:") = Ok (true, [])
  /\ prior_body basic_latin (false, []) (py "Prior Knowledge") = Ok (true, [])
  /\ real_world_body basic_latin (false, []) (py "Real-World Connections")
     = Ok (true, [])
  /\ objectives_body basic_latin (false, []) (py "Learning Objectives:")
     = Ok (true, [])
  /\ objectives_body basic_latin (false, []) (py "our goal")
     = objectives_body basic_latin (true, []) (py "our goal").
Proof.
  split; [|split; [|split; [|split]]].
  - apply (proj1 (C2_marker_line_consumed basic_latin false []
                                          (py "Key Concepts:"))).
    reflexivity.
  - apply (proj1 (proj2 (C2_marker_line_consumed basic_latin false []
                                                 (py "Prior Knowledge")))).
    reflexivity.
  - apply (proj1 (proj2 (proj2 (C2_marker_line_consumed
                                  basic_latin false []
                                  (py "Real-World Connections"))))).
    reflexivity.
  - apply (proj1 (proj2 (proj2 (proj2 (C2_marker_line_consumed
                                         basic_latin false []
                                         (py "Learning Objectives:")))))).
    + reflexivity.
    + reflexivity.
  - apply (proj2 (proj2 (proj2 (proj2 (C2_marker_line_consumed
                                         basic_latin false []
                                         (py "our goal")))))).
    + reflexivity.
    + reflexivity.
Defined.

(** C2 as it is worded fails for objectives: the line
    ["students will learn fractions"] holds the marker ["students will"] and
    no colon; it opens the section and is collected as its first item. *)
Lemma C2_objectives_counterexample :
  let line := py "students will learn fractions" in
  any_in objective_markers (strip basic_latin (lower basic_latin line)) = true
  /\ has_char colon line = false
  /\ objectives_body basic_latin (false, []) line = Ok (true, [line])
  /\ objectives_body basic_latin (false, []) line <> Ok (true, [])
  /\ _extract_objectives basic_latin line = Ok [line].
Proof.
  vm_compute; repeat split; discriminate.
Qed.

(** C3, as the code has it.  Inside a section, take a line that is not
    blank, does not start with a blank or a bullet and holds no marker of
    the section type.  In the scanners of key concepts and objectives, if
    it contains a colon or starts with an uppercase letter it puts the
    scanner outside and nothing is collected; otherwise the scanner stays
    inside and the line is handled as content of the section: cleaned, and
    collected when longer than 5 characters (10 for objectives).  In the
    scanners of prior knowledge and real-world connections nothing is
    collected from it, and the scanner goes outside exactly when the line
    contains a colon: an uppercase first letter alone leaves it inside. *)
Theorem C3_section_end :
  forall U items line,
    unindented U line = true ->
    (any_in concept_markers (strip U (lower U line)) = false ->
     concepts_body U (true, items) line
     = Ok (if has_char colon line || starts_upper U line
           then (false, items)
           else (true, append_if_longer 5 items (clean U line))))
    /\ (any_in objective_markers (strip U (lower U line)) = false ->
        objectives_body U (true, items) line
        = Ok (if has_char colon line || starts_upper U line
              then (false, items)
              else (true, append_if_longer 10 items (clean U line))))
    /\ (contains (py "prior knowledge") (lower U line)
        || contains (py "prerequisite") (lower U line) = false ->
        prior_body U (true, items) line
        = Ok (negb (has_char colon line), items))
    /\ (any_in real_world_markers (lower U line) = false ->
        real_world_body U (true, items) line
        = Ok (negb (has_char colon line), items)).
Proof.
  intros U items line Hun.
  assert (Hne : truthy (strip U line) = true).
  { unfold unindented in Hun; apply andb_true_iff in Hun as [H _]; exact H. }
  destruct (NotesFacts.unindented_cons U line Hun) as (c & t & ->).
  repeat split.
  - intros Hm; unfold concepts_body; rewrite Hm, Hun; simpl andb.
    cbv iota.
    destruct (has_char colon (c :: t)) eqn:Hc; [reflexivity|].
    cbn [orb starts_upper index nth_error bind].
    destruct (isupper U c); cbn [andb]; [reflexivity|].
    rewrite Hne; reflexivity.
  - intros Hm; unfold objectives_body; rewrite Hm, Hun; simpl andb.
    cbv iota.
    destruct (has_char colon (c :: t)) eqn:Hc; [reflexivity|].
    assert (Hobj : contains (py "objective") (strip U (lower U (c :: t)))
                   = false).
    { unfold any_in, objective_markers in Hm; simpl in Hm.
      repeat (apply orb_false_iff in Hm as [? Hm]); assumption. }
    cbn [orb starts_upper index nth_error bind].
    rewrite Hobj.
    destruct (isupper U c); cbn [andb negb]; [reflexivity|].
    rewrite Hne; reflexivity.
  - intros Hm; unfold prior_body, section_body; rewrite Hm, Hun.
    destruct (has_char colon (c :: t)); reflexivity.
  - intros Hm; unfold real_world_body, section_body; rewrite Hm, Hun.
    destruct (has_char colon (c :: t)); reflexivity.
Qed.

(** ["Homework"] starts with an uppercase letter and has no colon,
    ["Materials: paper"] has a colon, and ["plants make sugar"] has neither:
    inside a key-concepts or objectives section it is collected. *)
Lemma C3_section_end_witness :
  concepts_body basic_latin (true, []) (py "Homework") = Ok (false, [])
  /\ concepts_body basic_latin (true, []) (py "plants make sugar")
     = Ok (true, [py "plants make sugar"])
  /\ objectives_body basic_latin (true, []) (py "Materials: paper")
     = Ok (false, [])
  /\ objectives_body basic_latin (true, []) (py "plants make sugar")
     = Ok (true, [py "plants make sugar"])
  /\ prior_body basic_latin (true, []) (py "Materials: paper")
     = Ok (false, [])
  /\ prior_body basic_latin (true, []) (py "plants make sugar")
     = Ok (true, [])
  /\ real_world_body basic_latin (true, []) (py "Homework") = Ok (true, []).
Proof.
  split; [|split; [|split; [|split; [|split; [|split]]]]].
  - apply (proj1 (C3_section_end basic_latin [] (py "Homework")
                                 eq_refl)).
    reflexivity.
  - apply (proj1 (C3_section_end basic_latin [] (py "plants make sugar")
                                 eq_refl)).
    reflexivity.
  - apply (proj1 (proj2 (C3_section_end basic_latin [] (py "Materials: paper")
                                        eq_refl))).
    reflexivity.
  - apply (proj1 (proj2 (C3_section_end basic_latin []
                                        (py "plants make sugar") eq_refl))).
    reflexivity.
  - apply (proj1 (proj2 (proj2 (C3_section_end basic_latin []
                                               (py "Materials: paper")
                                               eq_refl)))).
    reflexivity.
  - apply (proj1 (proj2 (proj2 (C3_section_end basic_latin []
                                               (py "plants make sugar")
                                               eq_refl)))).
    reflexivity.
  - apply (proj2 (proj2 (proj2 (C3_section_end basic_latin [] (py "Homework")
                                               eq_refl)))).
    reflexivity.
Defined.

(** C3 as it is worded fails for prior knowledge (and real-world
    connections): inside the section the line ["Fractions"], uppercase first
    letter and no colon, is skipped but the scanner stays inside, so the
    bullet after it is still collected. *)
Lemma C3_prior_knowledge_counterexample :
  let line := py "Fractions" in
  let notes := py "Prior Knowledge" ++ [NL] ++ line ++ [NL]
               ++ py "- fractions and decimals" in
  unindented basic_latin line = true
  /\ starts_upper basic_latin line = true
  /\ has_char colon line = false
  /\ prior_body basic_latin (true, []) line = Ok (true, [])
  /\ prior_body basic_latin (true, []) line <> Ok (false, [])
  /\ real_world_body basic_latin (true, []) line = Ok (true, [])
  /\ _extract_prior_knowledge basic_latin notes
     = Ok [py "fractions and decimals"].
Proof.
  vm_compute; repeat split; discriminate.
Qed.

(* ------------------------------------------------------------------ *)
(** * The complexity analyzer computes its averages without raising *)

Module ComplexityFacts.
Import GradeLevelAnalyzer.

Lemma truediv_ok a b :
  0 < b ->
  truediv a b
  = Ok (PyFloat (SFdiv prec emax (float_of_nat a) (float_of_nat b))).
Proof. destruct b; [lia | reflexivity]. Qed.

(** The averages and the report of [analyze]. *)
Lemma analyze_ok U notes :
  let words := split_ws U notes in
  let sentences := split_chr period notes in
  exists w s,
    match words with
    | [] => w = PyInt 0
    | _ => truediv (sum (map (@length N) words)) (length words) = Ok w
    end
    /\ truediv (length words) (length sentences) = Ok s
    /\ analyze U notes
       = Ok {| grade_range := fst (classify w s);
               complexity := snd (classify w s);
               avg_word_length := w;
               avg_sentence_length := s |}.
Proof.
  intros words sentences; unfold analyze; fold words; fold sentences.
  destruct (split_chr_cons period notes) as (h & t & Hs).
  fold sentences in Hs; rewrite Hs.
  destruct words as [|x xs].
  - eexists; eexists; split; [reflexivity|]; split; [reflexivity|].
    simpl.
    destruct (classify (PyInt 0) _); reflexivity.
  - eexists; eexists; split; [reflexivity|]; split; [reflexivity|].
    simpl.
    match goal with
    | |- context [classify ?w ?s] => destruct (classify w s)
    end; reflexivity.
Qed.

End ComplexityFacts.

(* ------------------------------------------------------------------ *)
(** * Totality, caps and statistics (C4, C7, C10) *)

(** C4.  For every input the analysis is produced and each list field is
    the capped result of its loop over the lines: at most 10 key concepts,
    8 objectives, 15 vocabulary terms, 10 topics, 8 prior-knowledge items
    and 8 real-world connections; each field holds the first items its
    loop collected, and these follow the order of the lines they come
    from. *)
Theorem C4_caps_and_order :
  forall U notes,
    let lines := split_chr NL notes in
    exists a,
      analysis U notes = Ok a
      /\ (length (key_concepts a) <= 10
          /\ length (learning_objectives a) <= 8
          /\ length (vocabulary a) <= 15
          /\ length (topics a) <= 10
          /\ length (prior_knowledge a) <= 8
          /\ length (real_world_connections a) <= 8)
      /\ (capped_scan (for_each (concepts_body U) (false, []) lines)
                      snd 10 (key_concepts a)
          /\ capped_scan (for_each (objectives_body U) (false, []) lines)
                         snd 8 (learning_objectives a)
          /\ capped_scan (for_each (vocabulary_body U) [] lines)
                         (fun v => v) 15 (vocabulary a)
          /\ capped_scan (for_each (topics_body U) [] lines)
                         (fun t => t) 10 (topics a)
          /\ capped_scan (for_each (prior_body U) (false, []) lines)
                         snd 8 (prior_knowledge a)
          /\ capped_scan (for_each (real_world_body U) (false, []) lines)
                         snd 8 (real_world_connections a))
      /\ (Subseq (key_concepts a) (map (clean U) lines)
          /\ Subseq (learning_objectives a) (map (clean U) lines)
          /\ Subseq (vocabulary a) (flat_map (vocab_terms U) lines)
          /\ Subseq (topics a) (map (topic_of U) lines)
          /\ Subseq (prior_knowledge a) (map (clean U) lines)
          /\ Subseq (real_world_connections a) (map (clean U) lines)).
Proof.
  intros U notes lines.
  destruct (NotesFacts.analysis_ok U notes)
    as (subj & i1 & kc & i2 & lo & vo & tp & i3 & pk & i4 & rw
        & Hsubj & Hkc & Hlo & Hvo & Htp & Hpk & Hrw
        & Skc & Slo & Svo & Stp & Spk & Srw & Ha).
  fold lines in Hkc, Hlo, Hvo, Htp, Hpk, Hrw, Skc, Slo, Svo, Stp, Spk, Srw.
  eexists; split; [exact Ha|].
  cbn [key_concepts learning_objectives vocabulary topics prior_knowledge
       real_world_connections].
  split; [repeat split; apply length_firstn_cap|].
  split.
  - repeat split; eexists; (split; [eassumption | reflexivity]).
  - repeat split;
      (eapply Subseq_trans; [apply Subseq_firstn | assumption]).
Qed.

(** C7.  Neither tool raises, on any input.  In the complexity analyzer a
    text without words gets the average word length 0 and the split on
    ["."] always has at least one segment, so no division is by zero; on
    the empty text the two averages are 0, and the notes analysis of the
    empty text has the default labels and empty lists. *)
Theorem C7_analyzers_total :
  forall U notes,
    (exists text, GradeLevelAnalyzer.run U notes = Ok text)
    /\ (exists text, NotesAnalysisTool.run U notes = Ok text)
    /\ (exists r, GradeLevelAnalyzer.analyze U notes = Ok r
                  /\ (split_ws U notes = [] ->
                      GradeLevelAnalyzer.avg_word_length r = PyInt 0))
    /\ 1 <= length (split_chr period notes)
    /\ (exists r, GradeLevelAnalyzer.analyze U [] = Ok r
                  /\ GradeLevelAnalyzer.avg_word_length r = PyInt 0
                  /\ GradeLevelAnalyzer.avg_sentence_length r
                     = PyFloat (S754_zero false))
    /\ analysis basic_latin []
       = Ok {| subject := py "General/Multi-Subject";
               grade_level := py "Not Specified (Grades 6-12 adaptable)";
               key_concepts := [];
               learning_objectives := [];
               vocabulary := [];
               topics := [];
               prior_knowledge := [];
               real_world_connections := [];
               content_stats :=
                 {| total_words := 0;
                    total_lines := 1;
                    has_objectives := false;
                    has_vocabulary := false;
                    has_standards := false |} |}.
Proof.
  intros U notes.
  destruct (ComplexityFacts.analyze_ok U notes) as (w & s & Hw & Hs & Hr).
  destruct (NotesFacts.analysis_ok U notes)
    as (subj & i1 & kc & i2 & lo & vo & tp & i3 & pk & i4 & rw & H).
  repeat match type of H with _ /\ _ => destruct H as [_ H] end.
  split; [|split; [|split; [|split; [|split]]]].
  - unfold GradeLevelAnalyzer.run; rewrite Hr; simpl; eauto.
  - unfold NotesAnalysisTool.run; rewrite H; simpl; eauto.
  - eexists; split; [exact Hr|]; simpl.
    intros Hnil; rewrite Hnil in Hw; assumption.
  - apply split_chr_length.
  - eexists; split; [reflexivity|]; split; reflexivity.
  - vm_compute; reflexivity.
Qed.

(** C10.  The line count of the statistics is the length of the split on
    newlines and is never 0; the empty text has 0 words and 1 line. *)
Theorem C10_total_lines_positive :
  forall U notes,
    (exists a, analysis U notes = Ok a
               /\ total_lines (content_stats a)
                  = length (split_chr NL notes)
               /\ 1 <= total_lines (content_stats a))
    /\ (exists a, analysis U [] = Ok a
                  /\ total_words (content_stats a) = 0
                  /\ total_lines (content_stats a) = 1).
Proof.
  intros U notes; split.
  - destruct (NotesFacts.analysis_ok U notes)
      as (subj & i1 & kc & i2 & lo & vo & tp & i3 & pk & i4 & rw & H).
    repeat match type of H with _ /\ _ => destruct H as [_ H] end.
    eexists; split; [exact H|]; simpl; split; [reflexivity|].
    apply split_chr_length.
  - destruct (NotesFacts.analysis_ok U [])
      as (subj & i1 & kc & i2 & lo & vo & tp & i3 & pk & i4 & rw & H).
    repeat match type of H with _ /\ _ => destruct H as [_ H] end.
    eexists; split; [exact H|]; simpl; split; reflexivity.
Qed.

(* ------------------------------------------------------------------ *)
(** * Grade level: what an explicit mention yields *)

Module GradeFacts.

Lemma rmatch_cat R r1 r2 pos s cap (k : nat -> str -> option str -> option R) :
  rmatch (Cat r1 r2) pos s cap k
  = rmatch r1 pos s cap (fun pos' s' cap' => rmatch r2 pos' s' cap' k).
Proof. reflexivity. Qed.

Lemma rmatch_many R p pos s cap (k : nat -> str -> option str -> option R) :
  rmatch (Many p) pos s cap k = many p pos s (fun pos' s' => k pos' s' cap).
Proof. reflexivity. Qed.

Section WithUnicode.
Variable U : unicode.

(** Each of the three patterns captures a non-empty run of decimal
    digits. *)
Lemma grade_pattern_captures p pos s m :
  In p (grade_patterns U) ->
  match_at p pos s = Some m ->
  exists g, group1 m = Some g /\ digits U g.
Proof.
  unfold grade_patterns, match_at.
  intros [<- | [<- | [<- | []]]] H.
  - rewrite rmatch_cat in H.
    apply RegexFacts.group_free_cap in H as (pos1 & s1 & H); [|reflexivity].
    rewrite rmatch_cat in H.
    apply RegexFacts.group_free_cap in H as (pos2 & s2 & H); [|reflexivity].
    apply RegexFacts.group_many1_sound in H
      as (g & rest & Hne & Hg & _ & Hk).
    injection Hk as <-; exists g; simpl; repeat split; assumption.
  - rewrite rmatch_cat in H.
    apply RegexFacts.group_many1_sound in H
      as (g & rest & Hne & Hg & _ & Hk).
    apply RegexFacts.group_free_cap in Hk as (pos2 & s2 & Hk);
      [|reflexivity].
    injection Hk as <-; exists g; simpl; repeat split; assumption.
  - rewrite rmatch_cat in H.
    apply RegexFacts.group_free_cap in H as (pos1 & s1 & H); [|reflexivity].
    rewrite rmatch_cat in H.
    apply RegexFacts.group_free_cap in H as (pos2 & s2 & H); [|reflexivity].
    apply RegexFacts.group_many1_sound in H
      as (g & rest & Hne & Hg & _ & Hk).
    injection Hk as <-; exists g; simpl; repeat split; assumption.
Qed.

Lemma explicit_grade_sound text : forall patterns r,
    (forall p, In p patterns -> In p (grade_patterns U)) ->
    explicit_grade patterns text = Some r ->
    exists g, digits U g /\ r = py "Grade " ++ g.
Proof.
  induction patterns as [|p rest IH]; intros r Hin H; simpl in H;
    [discriminate|].
  destruct (re_search p text) as [m|] eqn:E.
  - injection H as <-.
    apply RegexFacts.search_from_sound in E as (pos & s & E).
    destruct (@grade_pattern_captures p pos s m (Hin p (or_introl eq_refl)) E)
      as (g & Hg & Hd).
    exists g; rewrite Hg; auto.
  - apply IH; auto.
    intros q Hq; apply Hin; right; assumption.
Qed.

Lemma explicit_grade_some text : forall patterns p m,
    In p patterns -> re_search p text = Some m ->
    exists r, explicit_grade patterns text = Some r.
Proof.
  induction patterns as [|q rest IH]; intros p m Hin H; simpl;
    [contradiction|].
  destruct Hin as [-> | Hin].
  - rewrite H; eauto.
  - destruct (re_search q text); eauto.
Qed.

Lemma explicit_grade_none text : forall patterns,
    (forall p, In p patterns -> re_search p text = None) ->
    explicit_grade patterns text = None.
Proof.
  induction patterns as [|q rest IH]; intros H; simpl; auto.
  rewrite (H q (or_introl eq_refl)); apply IH.
  intros p Hp; apply H; right; assumption.
Qed.

(** The text [grade], blanks, a digit is found by the first pattern. *)
Lemma grade_mention_found pre blanks d post :
  Forall (fun c => isspace U c = true) blanks ->
  isdecimal U d = true ->
  exists m,
    re_search (nth 0 (grade_patterns U) Eps)
              (pre ++ py "grade" ++ blanks ++ d :: post) = Some m.
Proof.
  intros Hb Hd; unfold re_search.
  apply RegexFacts.search_from_complete.
  change (nth 0 (grade_patterns U) Eps)
    with (Cat (Lit (py "grade"))
              (Cat (Many (ws U)) (Grp (Many1 (digit U))))).
  unfold match_at.
  rewrite rmatch_cat, RegexFacts.lit_complete, rmatch_cat.
  rewrite rmatch_many.
  apply RegexFacts.many_complete; [exact Hb|].
  simpl; unfold digit; rewrite Hd.
  apply (@RegexFacts.many_complete _ (isdecimal U) _ [] post);
    [constructor|].
  eauto.
Qed.
(** The loop stops at the first pattern that is found. *)
Lemma explicit_grade_first text : forall pre p post m,
    (forall q, In q pre -> re_search q text = None) ->
    re_search p text = Some m ->
    explicit_grade (pre ++ p :: post) text
    = Some (py "Grade " ++ show_group (group1 m)).
Proof.
  induction pre as [|q pre IH]; intros p post m Hpre Hm; simpl.
  - rewrite Hm; reflexivity.
  - rewrite (Hpre q (or_introl eq_refl)).
    apply IH; [|assumption].
    intros q' Hq'; apply Hpre; right; assumption.
Qed.

(** Whatever a pattern answers was answered by what follows it. *)
Lemma rmatch_answer R r :
  forall pos s cap (k : nat -> str -> option str -> option R) x,
    rmatch r pos s cap k = Some x ->
    exists pos' s' cap', k pos' s' cap' = Some x.
Proof.
  induction r as [| | c | p | r1 IH1 r2 IH2 | r1 IH1 r2 IH2 | p | r IH];
    intros pos s cap k x H; simpl in H; eauto.
  - destruct (Nat.eqb pos 0); [eauto | discriminate].
  - destruct s as [|a t]; [discriminate|].
    destruct (N.eqb a c); [eauto | discriminate].
  - destruct s as [|a t]; [discriminate|].
    destruct (p a); [eauto | discriminate].
  - apply IH1 in H as (pos1 & s1 & cap1 & H); eauto.
  - destruct (rmatch r1 pos s cap k) eqn:E; [|eauto].
    injection H as <-; eauto.
  - apply RegexFacts.many_sound in H as (taken & rest & _ & _ & H); eauto.
  - apply IH in H as (pos1 & s1 & cap1 & H); eauto.
Qed.

Lemma match_at_start r pos s m : match_at r pos s = Some m -> m_start m = pos.
Proof.
  unfold match_at; intros H.
  apply rmatch_answer in H as (pos' & s' & cap' & H).
  injection H as <-; reflexivity.
Qed.

(** [re.search] answers with the match at the leftmost offset that has
    one. *)
Lemma search_from_leftmost r : forall s pos m,
    search_from r pos s = Some m ->
    exists k,
      m_start m = pos + k
      /\ match_at r (pos + k) (skipn k s) = Some m
      /\ forall j, j < k -> match_at r (pos + j) (skipn j s) = None.
Proof.
  assert (Hhere : forall s pos m,
             match_at r pos s = Some m ->
             exists k,
               m_start m = pos + k
               /\ match_at r (pos + k) (skipn k s) = Some m
               /\ forall j, j < k -> match_at r (pos + j) (skipn j s) = None).
  { intros s pos m E; exists 0; rewrite Nat.add_0_r; simpl.
    split; [apply (match_at_start _ _ _ E)|].
    split; [exact E | intros j Hj; lia]. }
  induction s as [|c t IH]; intros pos m H; simpl in H.
  - destruct (match_at r pos []) eqn:E; [|discriminate].
    injection H as <-; apply Hhere; exact E.
  - destruct (match_at r pos (c :: t)) eqn:E.
    + injection H as <-; apply Hhere; exact E.
    + destruct (IH _ _ H) as (k & Hs & Hk & Hbefore).
      exists (S k); simpl.
      replace (pos + S k) with (S pos + k) by lia.
      split; [exact Hs|].
      split; [exact Hk|].
      intros [|j] Hj; simpl.
      * rewrite Nat.add_0_r; exact E.
      * replace (pos + S j) with (S pos + j) by lia.
        apply Hbefore; lia.
Qed.

Lemma alt_complete R r1 r2 pos s cap
      (k : nat -> str -> option str -> option R) :
  (exists x, rmatch r1 pos s cap k = Some x)
  \/ (exists x, rmatch r2 pos s cap k = Some x) ->
  exists x, rmatch (Alt r1 r2) pos s cap k = Some x.
Proof.
  simpl; intros [[x H] | [x H]].
  - rewrite H; eauto.
  - destruct (rmatch r1 pos s cap k); eauto.
Qed.

(** Completeness of the pieces the patterns are made of. *)
Lemma many1_complete R p b blanks rest pos cap
      (k : nat -> str -> option str -> option R) :
  Forall (fun c => p c = true) (b :: blanks) ->
  (forall pos', exists x, k pos' rest cap = Some x) ->
  exists x, rmatch (Many1 p) pos (b :: blanks ++ rest) cap k = Some x.
Proof.
  intros Hb Hk; inversion Hb as [|? ? Hb1 Hblanks]; subst.
  cbn [rmatch Many1]; rewrite Hb1.
  apply RegexFacts.many_complete; [exact Hblanks | apply Hk].
Qed.

Lemma group_many1_complete R p d ds rest pos cap
      (k : nat -> str -> option str -> option R) :
  Forall (fun c => p c = true) (d :: ds) ->
  (forall pos' c, exists x, k pos' rest c = Some x) ->
  exists x, rmatch (Grp (Many1 p)) pos (d :: ds ++ rest) cap k = Some x.
Proof.
  intros Hd Hk; inversion Hd as [|? ? Hd1 Hds]; subst.
  cbn [rmatch Many1]; rewrite Hd1.
  apply RegexFacts.many_complete; [exact Hds | apply Hk].
Qed.

Lemma lit_then R l r rest pos cap
      (k : nat -> str -> option str -> option R) :
  (forall pos', exists x, rmatch r pos' rest cap k = Some x) ->
  exists x, rmatch (Cat (Lit l) r) pos (l ++ rest) cap k = Some x.
Proof.
  intros H; rewrite rmatch_cat, RegexFacts.lit_complete; apply H.
Qed.

(** A run of digits, [st], [nd], [rd] or [th], blanks and [grade] are
    found by the second pattern. *)
Lemma ordinal_mention_found pre ds suffix b blanks post :
  digits U ds ->
  In suffix [py "st"; py "nd"; py "rd"; py "th"] ->
  Forall (fun c => isspace U c = true) (b :: blanks) ->
  exists m,
    re_search (nth 1 (grade_patterns U) Eps)
              (pre ++ ds ++ suffix ++ b :: blanks ++ py "grade" ++ post)
    = Some m.
Proof.
  intros [Hne Hds] Hsuffix Hb; unfold re_search.
  apply RegexFacts.search_from_complete.
  destruct ds as [|d ds]; [contradiction|].
  change (nth 1 (grade_patterns U) Eps)
    with (Cat (Grp (Many1 (digit U)))
              (Cat (Alt (Lit (py "st"))
                        (Alt (Lit (py "nd"))
                             (Alt (Lit (py "rd")) (Lit (py "th")))))
                   (Cat (Many1 (ws U)) (Lit (py "grade"))))).
  unfold match_at.
  rewrite rmatch_cat.
  rewrite <- app_comm_cons.
  apply group_many1_complete; [exact Hds|].
  intros pos' c.
  rewrite rmatch_cat.
  assert (Hlit : forall l,
             exists x : match_obj,
               rmatch (Lit l) pos'
                      (l ++ b :: blanks ++ py "grade" ++ post) c
                      (fun pos1 s1 cap1 =>
                         rmatch (Cat (Many1 (ws U)) (Lit (py "grade")))
                                pos1 s1 cap1
                                (fun e _ cap =>
                                   Some {| m_start := 0 + length pre;
                                           m_end := e; group1 := cap |}))
               = Some x).
  { intros l; rewrite RegexFacts.lit_complete, rmatch_cat.
    apply many1_complete; [exact Hb|].
    intros pos1.
    change (py "grade" ++ post) with (py "grade" ++ post).
    rewrite RegexFacts.lit_complete; eauto. }
  destruct Hsuffix as [<- | [<- | [<- | [<- | []]]]].
  - apply alt_complete; left; apply Hlit.
  - apply alt_complete; right; apply alt_complete; left; apply Hlit.
  - apply alt_complete; right; apply alt_complete; right;
      apply alt_complete; left; apply Hlit.
  - apply alt_complete; right; apply alt_complete; right;
      apply alt_complete; right; apply Hlit.
Qed.

(** [level], colons or blanks and a digit are found by the third
    pattern. *)
Lemma level_mention_found pre sep seps d post :
  Forall (fun c => c = colon \/ isspace U c = true) (sep :: seps) ->
  isdecimal U d = true ->
  exists m,
    re_search (nth 2 (grade_patterns U) Eps)
              (pre ++ py "level" ++ sep :: seps ++ d :: post) = Some m.
Proof.
  intros Hseps Hd; unfold re_search.
  apply RegexFacts.search_from_complete.
  assert (Hcls : Forall (fun c => N.eqb c colon || ws U c = true)
                        (sep :: seps)).
  { eapply Forall_impl; [|exact Hseps].
    intros c [-> | Hc]; [reflexivity|].
    unfold ws; rewrite Hc; apply orb_true_r. }
  change (nth 2 (grade_patterns U) Eps)
    with (Cat (Lit (py "level"))
              (Cat (Many1 (fun c => N.eqb c colon || ws U c))
                   (Grp (Many1 (digit U))))).
  unfold match_at.
  apply lit_then; intros pos'.
  rewrite rmatch_cat.
  apply many1_complete; [exact Hcls|].
  intros pos1.
  apply (@group_many1_complete _ (digit U) d [] post);
    [repeat constructor; exact Hd|].
  eauto.
Qed.
End WithUnicode.

End GradeFacts.

(* ------------------------------------------------------------------ *)
(** * Grade-level extraction (C6) *)

(** C6, as the code has it.  The three patterns [grade N], [Nth grade]
    and [level: N] are tried in this order on the lowercased text, each
    with [re.search], which answers with its leftmost match.  The first
    pattern that is found decides: the result is ["Grade "] followed by
    the digits its match captured, whatever the later patterns and the
    keyword lists would give.  A [grade N] mention anywhere is found by
    the first pattern; an [Nth grade] mention is found by the second and
    decides when the first finds nothing; a [level: N] mention is found by
    the third and decides when the first two find nothing.  Without an
    explicit mention, the first level-name bucket with a word in the text
    gives the label; without that, the first complexity bucket; otherwise
    the fallback label.  A text whose lowercased form contains ["grade 7"]
    gets a ["Grade N"] label whatever else it contains; it is ["Grade 7"]
    for ["Grade 7 and high school"]. *)
Theorem C6_grade_priority :
  forall U notes,
    let text := lower U notes in
    let grade := _extract_grade_level U notes in
    let pattern i := nth i (grade_patterns U) Eps in
    let decides (m : match_obj) :=
      exists g, group1 m = Some g /\ digits U g
                /\ grade = py "Grade " ++ g in
    (forall pre p post m,
        grade_patterns U = pre ++ p :: post ->
        (forall q, In q pre -> re_search q text = None) ->
        re_search p text = Some m ->
        decides m)
    /\ (forall p m,
           re_search p text = Some m ->
           match_at p (m_start m) (skipn (m_start m) text) = Some m
           /\ forall j, j < m_start m ->
                        match_at p j (skipn j text) = None)
    /\ (forall pre blanks d post,
           text = pre ++ py "grade" ++ blanks ++ d :: post ->
           Forall (fun c => isspace U c = true) blanks ->
           isdecimal U d = true ->
           exists m, re_search (pattern 0) text = Some m /\ decides m)
    /\ (forall pre ds suffix b blanks post,
           text = pre ++ ds ++ suffix ++ b :: blanks ++ py "grade" ++ post ->
           digits U ds ->
           In suffix [py "st"; py "nd"; py "rd"; py "th"] ->
           Forall (fun c => isspace U c = true) (b :: blanks) ->
           re_search (pattern 0) text = None ->
           exists m, re_search (pattern 1) text = Some m /\ decides m)
    /\ (forall pre sep seps d post,
           text = pre ++ py "level" ++ sep :: seps ++ d :: post ->
           Forall (fun c => c = colon \/ isspace U c = true) (sep :: seps) ->
           isdecimal U d = true ->
           re_search (pattern 0) text = None ->
           re_search (pattern 1) text = None ->
           exists m, re_search (pattern 2) text = Some m /\ decides m)
    /\ (forall p m,
           In p (grade_patterns U) -> re_search p text = Some m ->
           exists g, digits U g /\ grade = py "Grade " ++ g)
    /\ (forall m,
           re_search (pattern 0) text = Some m ->
           grade = py "Grade " ++ show_group (group1 m))
    /\ ((forall p, In p (grade_patterns U) -> re_search p text = None) ->
        (forall pre words label post,
            level_buckets = pre ++ (words, label) :: post ->
            none_in pre text -> any_in words text = true ->
            grade = label)
        /\ (forall pre words label post,
               complexity_buckets = pre ++ (words, label) :: post ->
               none_in level_buckets text ->
               none_in pre text -> any_in words text = true ->
               grade = label)
        /\ (none_in level_buckets text ->
            none_in complexity_buckets text ->
            grade = py "Not Specified (Grades 6-12 adaptable)"))
    /\ (isspace U 32 = true -> isdecimal U 55 = true ->
        contains (py "grade 7") text = true ->
        exists g, digits U g /\ grade = py "Grade " ++ g)
    /\ (_extract_grade_level basic_latin (py "Grade 7 and high school")
        = py "Grade 7"
        /\ _extract_grade_level basic_latin (py "for my 7th grade class")
           = py "Grade 7"
        /\ _extract_grade_level basic_latin (py "Level: 3") = py "Grade 3"
        /\ _extract_grade_level basic_latin (py "3rd grade, later grade 5")
           = py "Grade 5"
        /\ _extract_grade_level basic_latin (py "level: 2 of grade 4")
           = py "Grade 4"
        /\ _extract_grade_level basic_latin
             (py "level: 3 for my 7th grade class")
           = py "Grade 7"
        /\ _extract_grade_level basic_latin
             (py "an advanced level 3 college course")
           = py "Grade 3"
        /\ _extract_grade_level basic_latin (py "a basic high school unit")
           = py "9-12 (High School)").
Proof.
  intros U notes text grade pattern decides.
  assert (Hexplicit : forall r,
             explicit_grade (grade_patterns U) text = Some r -> grade = r).
  { intros r Hr; unfold grade, _extract_grade_level; fold text.
    rewrite Hr; reflexivity. }
  assert (Hordered : forall pre p post m,
             grade_patterns U = pre ++ p :: post ->
             (forall q, In q pre -> re_search q text = None) ->
             re_search p text = Some m ->
             decides m).
  { intros pre p post m Hdec Hpre Hm.
    assert (Hin : In p (grade_patterns U))
      by (rewrite Hdec; apply in_elt).
    destruct (RegexFacts.search_from_sound _ _ _ Hm) as (pos' & s' & Hat).
    destruct (@GradeFacts.grade_pattern_captures U p pos' s' m Hin Hat)
      as (g & Hg & Hdigits).
    exists g; split; [exact Hg|]; split; [exact Hdigits|].
    apply Hexplicit; rewrite Hdec.
    rewrite (@GradeFacts.explicit_grade_first text pre p post m Hpre Hm).
    rewrite Hg; reflexivity. }
  assert (Hfound : forall p m,
             In p (grade_patterns U) -> re_search p text = Some m ->
             exists g, digits U g /\ grade = py "Grade " ++ g).
  { intros p m Hp Hm.
    destruct (@GradeFacts.explicit_grade_some text _ p m Hp Hm) as (r & Hr).
    destruct (@GradeFacts.explicit_grade_sound U text _ r (fun q Hq => Hq) Hr)
      as (g & Hg & ->).
    exists g; split; [assumption | apply Hexplicit; assumption]. }
  split; [exact Hordered|].
  split.
  { intros p m Hm.
    destruct (@GradeFacts.search_from_leftmost p text 0 m Hm)
      as (k & Hs & Hk & Hbefore).
    simpl in Hs, Hk; rewrite Hs.
    split; [exact Hk|].
    intros j Hj; apply (Hbefore j Hj). }
  split.
  { intros pre blanks d post Htext Hb Hd.
    destruct (@GradeFacts.grade_mention_found U pre blanks d post Hb Hd)
      as (m & Hm).
    rewrite <- Htext in Hm.
    exists m; split; [exact Hm|].
    apply (Hordered [] (pattern 0) (skipn 1 (grade_patterns U)) m);
      [reflexivity | intros q [] | exact Hm]. }
  split.
  { intros pre ds suffix b blanks post Htext Hds Hsuffix Hb Hnone.
    destruct (@GradeFacts.ordinal_mention_found U pre ds suffix b blanks post
                Hds Hsuffix Hb) as (m & Hm).
    rewrite <- Htext in Hm.
    exists m; split; [exact Hm|].
    apply (Hordered [pattern 0] (pattern 1) (skipn 2 (grade_patterns U)) m);
      [reflexivity | | exact Hm].
    intros q [<- | []]; exact Hnone. }
  split.
  { intros pre sep seps d post Htext Hseps Hd Hnone0 Hnone1.
    destruct (@GradeFacts.level_mention_found U pre sep seps d post
                Hseps Hd) as (m & Hm).
    rewrite <- Htext in Hm.
    exists m; split; [exact Hm|].
    apply (Hordered [pattern 0; pattern 1] (pattern 2) [] m);
      [reflexivity | | exact Hm].
    intros q [<- | [<- | []]]; assumption. }
  split; [exact Hfound|].
  split.
  { intros m Hm; apply Hexplicit.
    unfold pattern, grade_patterns in *; simpl nth in Hm;
      simpl explicit_grade.
    rewrite Hm; reflexivity. }
  split.
  { intros Hnone.
    apply GradeFacts.explicit_grade_none in Hnone.
    assert (Hg : grade = _extract_grade_level U notes) by reflexivity.
    unfold _extract_grade_level in Hg; fold text in Hg; rewrite Hnone in Hg.
    unfold none_in.
    split; [|split].
    - intros pre words label post Htab Hpre Hw.
      destruct pre as [|b1 [|b2 [|b3 [|b4 [|b5 pre]]]]];
        cbn in Htab; injection Htab; intros; subst;
        try discriminate; try (destruct pre; discriminate);
        repeat match goal with
               | H : Forall _ (_ :: _) |- _ => inversion H; subst; clear H
               end;
        cbn [fst] in *; rewrite Hg;
        repeat match goal with
               | H : any_in _ text = _ |- _ => rewrite H; clear H
               end;
        reflexivity.
    - intros pre words label post Htab Hlevels Hpre Hw.
      unfold level_buckets in Hlevels.
      destruct pre as [|b1 [|b2 [|b3 pre]]];
        cbn in Htab; injection Htab; intros; subst;
        try discriminate; try (destruct pre; discriminate);
        repeat match goal with
               | H : Forall _ (_ :: _) |- _ => inversion H; subst; clear H
               end;
        cbn [fst] in *; rewrite Hg;
        repeat match goal with
               | H : any_in _ text = _ |- _ => rewrite H; clear H
               end;
        reflexivity.
    - intros Hlevels Hwords.
      unfold level_buckets in Hlevels; unfold complexity_buckets in Hwords.
      repeat match goal with
             | H : Forall _ (_ :: _) |- _ => inversion H; subst; clear H
             end;
        cbn [fst] in *; rewrite Hg;
        repeat match goal with
               | H : any_in _ text = _ |- _ => rewrite H; clear H
               end;
        reflexivity. }
  split.
  { intros Hsp Hd Hc.
    apply RegexFacts.contains_split in Hc as (pre & post & Htext).
    destruct (@GradeFacts.grade_mention_found U pre [32%N] 55%N post)
      as (m & Hm); [repeat constructor; assumption | assumption |].
    apply (Hfound (nth 0 (grade_patterns U) Eps) m).
    - left; reflexivity.
    - rewrite Htext; exact Hm. }
  vm_compute; repeat split; reflexivity.
Qed.

(** An ordinal mention after a [level: N] mention, an explicit mention
    next to a level name, and a level name next to a complexity word. *)
Lemma C6_grade_priority_witness :
  (exists m g,
      re_search (nth 1 (grade_patterns basic_latin) Eps)
                (py "level: 3 for my 7th grade class") = Some m
      /\ group1 m = Some g
      /\ _extract_grade_level basic_latin
           (py "level: 3 for my 7th grade class") = py "Grade " ++ g)
  /\ (exists g, digits basic_latin g
                /\ _extract_grade_level basic_latin
                     (py "Grade 7 and high school") = py "Grade " ++ g)
  /\ _extract_grade_level basic_latin (py "a basic high school unit")
     = py "9-12 (High School)".
Proof.
  split; [|split].
  - destruct (proj1 (proj2 (proj2 (proj2
               (C6_grade_priority basic_latin
                  (py "level: 3 for my 7th grade class")))))
               (py "level: 3 for my ") (py "7") (py "th") 32%N []
               (py " class"))
      as (m & Hm & g & Hg & _ & Hgrade).
    + reflexivity.
    + split; [discriminate | repeat constructor].
    + right; right; right; left; reflexivity.
    + repeat constructor.
    + vm_compute; reflexivity.
    + exists m, g; repeat split; assumption.
  - apply (proj1 (proj2 (proj2 (proj2 (proj2 (proj2 (proj2 (proj2 (proj2
             (C6_grade_priority basic_latin (py "Grade 7 and high school")
             )))))))))); reflexivity.
  - assert (Hnone : forall p,
               In p (grade_patterns basic_latin) ->
               re_search p (lower basic_latin (py "a basic high school unit"))
               = None).
    { intros p [<- | [<- | [<- | []]]]; vm_compute; reflexivity. }
    apply (proj1 (proj1 (proj2 (proj2 (proj2 (proj2 (proj2 (proj2 (proj2
             (C6_grade_priority basic_latin (py "a basic high school unit")
             ))))))))
             Hnone)
             (firstn 2 level_buckets)
             [py "high school"; py "secondary"] (py "9-12 (High School)")
             (skipn 3 level_buckets)).
    + reflexivity.
    + repeat constructor.
    + vm_compute; reflexivity.
Defined.

(** C6 as it is worded fails: ["Grade 10, Grade 7, high school"] contains
    both ["Grade 7"] and ["high school"], and the leftmost match of the
    first pattern is ["grade 10"]. *)
Lemma C6_grade7_counterexample :
  let notes := py "Grade 10, Grade 7, high school" in
  contains (py "Grade 7") notes = true
  /\ contains (py "high school") notes = true
  /\ _extract_grade_level basic_latin notes = py "Grade 10"
  /\ _extract_grade_level basic_latin notes <> py "Grade 7".
Proof.
  vm_compute; repeat split; discriminate.
Qed.

(* ------------------------------------------------------------------ *)
(** * The rendered complexity report *)

Module ReportFacts.
Import GradeLevelAnalyzer.

Lemma one_line_app a b : one_line (a ++ b) = one_line a && one_line b.
Proof. apply forallb_app. Qed.

Lemma one_line_uint d : one_line (py (NilEmpty.string_of_uint d)) = true.
Proof. induction d; simpl; auto. Qed.

Lemma one_line_str_of_N n : one_line (str_of_N n) = true.
Proof.
  unfold str_of_N, NilZero.string_of_uint.
  destruct (N.to_uint n); try apply one_line_uint; reflexivity.
Qed.

Lemma one_line_format_1f x : one_line (format_1f x) = true.
Proof.
  destruct x as [z | [s | s | | s m e]]; unfold format_1f; cbv zeta;
    rewrite ?one_line_app, ?one_line_str_of_N;
    try destruct s; try destruct (Z.ltb z 0); reflexivity.
Qed.

Lemma report_lines_one_line r :
  Forall (fun l => one_line l = true) (report_lines r).
Proof.
  unfold report_lines; repeat constructor;
    repeat rewrite one_line_app; repeat rewrite one_line_format_1f;
    try destruct (grade_range r); try destruct (complexity r); reflexivity.
Qed.

Lemma split_chr_line a b :
  one_line a = true -> split_chr NL (a ++ NL :: b) = a :: split_chr NL b.
Proof.
  induction a as [|c a IH]; cbn [app split_chr one_line forallb]; intros H.
  - rewrite N.eqb_refl; reflexivity.
  - apply andb_true_iff in H as [Hc Ha].
    destruct (N.eqb c NL); [discriminate|].
    rewrite (IH Ha); reflexivity.
Qed.

Lemma split_unlines ls :
  Forall (fun l => one_line l = true) ls ->
  split_chr NL (unlines ls) = ls ++ [[]].
Proof.
  induction 1 as [|l ls Hl _ IH]; simpl; [reflexivity|].
  unfold unlines in *; simpl.
  rewrite <- app_assoc; simpl.
  rewrite split_chr_line, IH; auto.
Qed.

Lemma count_lines_app a b : count_lines (a ++ b) = count_lines a + count_lines b.
Proof. unfold count_lines; rewrite filter_app, length_app; reflexivity. Qed.

Lemma count_lines_one_line a : one_line a = true -> count_lines a = 0.
Proof.
  unfold count_lines, one_line; induction a as [|c a IH];
    cbn [filter forallb]; auto.
  intros H; apply andb_true_iff in H as [Hc Ha].
  rewrite N.eqb_sym; destruct (N.eqb c NL); [discriminate | auto].
Qed.

Lemma count_unlines ls :
  Forall (fun l => one_line l = true) ls ->
  count_lines (unlines ls) = length ls.
Proof.
  induction 1 as [|l ls Hl _ IH]; simpl; [reflexivity|].
  unfold unlines in *; simpl.
  rewrite !count_lines_app, IH, count_lines_one_line by assumption.
  reflexivity.
Qed.

Lemma render_unlines r : render r = unlines (report_lines r).
Proof.
  unfold render, unlines, report_lines; simpl concat.
  repeat rewrite <- app_assoc; reflexivity.
Qed.

(** Integers and finite floats are written as digits, a point and one
    digit. *)
Lemma format_1f_one_decimal x : finite_num x -> one_decimal (format_1f x).
Proof.
  destruct x as [z | [s | s | | s m e]]; simpl; intros H; try contradiction.
  - exists (Z.ltb z 0), (Z.abs_N z), 0%N; split; [reflexivity|].
    reflexivity.
  - exists s, 0%N, 0%N; split; reflexivity.
  - exists s, (tenths m e / 10)%N, (tenths m e mod 10)%N; split;
      [apply N.mod_lt; discriminate | reflexivity].
Qed.

End ReportFacts.

(* ------------------------------------------------------------------ *)
(** * The averages are finite floats *)

Module FloatFacts.
Local Open Scope Z_scope.

(** The number of binary digits of a mantissa. *)
Lemma digits2_pos_bounds p :
  2 ^ (Zpos (digits2_pos p) - 1) <= Zpos p < 2 ^ Zpos (digits2_pos p).
Proof.
  induction p as [p IH | p IH |]; cbn [digits2_pos].
  - rewrite Pos2Z.inj_succ, Pos2Z.inj_xI.
    replace (Z.succ (Zpos (digits2_pos p)) - 1)
      with (Z.succ (Zpos (digits2_pos p) - 1)) by lia.
    rewrite !Z.pow_succ_r; lia.
  - rewrite Pos2Z.inj_succ; change (Zpos p~0) with (2 * Zpos p).
    replace (Z.succ (Zpos (digits2_pos p)) - 1)
      with (Z.succ (Zpos (digits2_pos p) - 1)) by lia.
    rewrite !Z.pow_succ_r; lia.
  - simpl; lia.
Qed.

Lemma Zdigits2_nonneg m : 0 <= m -> 0 <= Zdigits2 m.
Proof. destruct m; simpl; lia. Qed.

Lemma Zdigits2_upper m : 0 <= m -> m < 2 ^ Zdigits2 m.
Proof.
  destruct m as [|p|p]; simpl Zdigits2; intros H; [simpl; lia | | lia].
  apply digits2_pos_bounds.
Qed.

Lemma Zdigits2_le m k : 0 <= m -> 0 <= k -> m < 2 ^ k -> Zdigits2 m <= k.
Proof.
  destruct m as [|p|p]; simpl Zdigits2; intros Hm Hk H; [lia | | lia].
  pose proof (@digits2_pos_bounds p) as [Hlow _].
  assert (Hlt : 2 ^ (Zpos (digits2_pos p) - 1) < 2 ^ k) by lia.
  apply Z.pow_lt_mono_r_iff in Hlt; lia.
Qed.

Lemma Zdigits2_mono a b : 0 <= a <= b -> Zdigits2 a <= Zdigits2 b.
Proof.
  intros [Ha Hab].
  apply Zdigits2_le; [lia | apply Zdigits2_nonneg; lia |].
  pose proof (@Zdigits2_upper b); lia.
Qed.

Lemma Zdigits2_succ m : 0 <= m -> Zdigits2 (m + 1) <= Zdigits2 m + 1.
Proof.
  intros Hm.
  pose proof (@Zdigits2_nonneg m Hm) as Hd.
  pose proof (@Zdigits2_upper m Hm) as Hu.
  apply Zdigits2_le; [lia | lia |].
  rewrite Z.pow_add_r by lia; simpl (2 ^ 1); lia.
Qed.

Lemma shr_1_digits mrs :
  0 <= shr_m mrs ->
  0 <= shr_m (shr_1 mrs)
  /\ Zdigits2 (shr_m (shr_1 mrs)) = Z.max 0 (Zdigits2 (shr_m mrs) - 1).
Proof.
  destruct mrs as [[|[p|p|]|p] r s]; cbn [shr_m shr_1 Zdigits2 digits2_pos];
    intros H; try rewrite Pos2Z.inj_succ; lia.
Qed.

Lemma iter_shr_digits p : forall mrs,
    0 <= shr_m mrs ->
    0 <= shr_m (iter_pos shr_1 p mrs)
    /\ Zdigits2 (shr_m (iter_pos shr_1 p mrs))
       = Z.max 0 (Zdigits2 (shr_m mrs) - Zpos p).
Proof.
  induction p as [p IH | p IH |]; intros mrs H; cbn [iter_pos].
  - destruct (@shr_1_digits mrs H) as [H1 E1].
    destruct (IH _ H1) as [H2 E2].
    destruct (IH _ H2) as [H3 E3].
    split; [assumption|].
    rewrite E3, E2, E1, Pos2Z.inj_xI; lia.
  - destruct (IH _ H) as [H2 E2].
    destruct (IH _ H2) as [H3 E3].
    split; [assumption|].
    rewrite E3, E2; change (Zpos p~0) with (2 * Zpos p); lia.
  - apply shr_1_digits; assumption.
Qed.

Lemma shr_record_of_loc_m m l : shr_m (shr_record_of_loc m l) = m.
Proof. destruct l as [|[]]; reflexivity. Qed.

(** The shift to the exponent [fexp] asks for. *)
Lemma shr_fexp_bounds m e l :
  0 <= m ->
  let r := shr_fexp prec emax m e l in
  0 <= shr_m (fst r)
  /\ snd r = Z.max e (fexp prec emax (Zdigits2 m + e))
  /\ Zdigits2 (shr_m (fst r)) + snd r = Z.max (Zdigits2 m + e) (snd r).
Proof.
  intros Hm; unfold shr_fexp, shr.
  pose proof (@Zdigits2_nonneg m Hm) as Hd.
  destruct (fexp prec emax (Zdigits2 m + e) - e) as [|p|p] eqn:E;
    cbn [fst snd]; rewrite ?shr_record_of_loc_m.
  - repeat split; lia.
  - destruct (@iter_shr_digits p (shr_record_of_loc m l)) as [H1 E1];
      [rewrite shr_record_of_loc_m; assumption|].
    rewrite shr_record_of_loc_m in E1.
    repeat split; [assumption | lia | rewrite E1; lia].
  - repeat split; lia.
Qed.

Lemma round_nearest_even_bounds m l :
  m <= round_nearest_even m l <= m + 1.
Proof.
  destruct l as [|[]]; simpl; try lia.
  destruct (Z.even m); lia.
Qed.

(** The rounding step neither overflows nor yields a NaN when the value
    is well below [2^emax]; it yields a zero only on underflow. *)
Lemma binary_round_aux_bounds sx mx ex lx :
  0 <= mx ->
  Z.max ex (Zdigits2 mx + ex - 52) <= 971 ->
  match binary_round_aux prec emax sx mx ex lx with
  | S754_zero _ => mx = 0 \/ Zdigits2 mx + ex <= -1074
  | S754_finite _ m e =>
      ex <= e <= Z.max ex (Z.max (Zdigits2 mx + ex - 52) (-1074))
      /\ Zdigits2 mx + ex <= Zpos (digits2_pos m) + e
         <= Z.max (Zdigits2 mx + ex) (-1074) + 1
  | _ => False
  end.
Proof.
  intros Hm Hbound; unfold binary_round_aux.
  pose proof (@Zdigits2_nonneg mx Hm) as Hd.
  pose proof (@shr_fexp_bounds mx ex lx Hm) as H1; cbv zeta in H1.
  destruct (shr_fexp prec emax mx ex lx) as [mrs1 e1].
  cbn [fst snd] in H1; destruct H1 as (Hm1 & He1 & Hd1).
  set (m2 := round_nearest_even (shr_m mrs1) (loc_of_shr_record mrs1)).
  pose proof (@round_nearest_even_bounds (shr_m mrs1)
                (loc_of_shr_record mrs1)) as Hm2; fold m2 in Hm2.
  assert (Hd2 : Zdigits2 (shr_m mrs1) <= Zdigits2 m2
                <= Zdigits2 (shr_m mrs1) + 1).
  { split; [apply Zdigits2_mono; lia|].
    transitivity (Zdigits2 (shr_m mrs1 + 1));
      [apply Zdigits2_mono; lia | apply Zdigits2_succ; lia]. }
  pose proof (@shr_fexp_bounds m2 e1 loc_Exact) as H3; cbv zeta in H3.
  destruct (shr_fexp prec emax m2 e1 loc_Exact) as [mrs3 e3].
  cbn [fst snd] in H3; destruct H3 as (Hm3 & He3 & Hd3); [lia|].
  unfold fexp, SpecFloat.emin, prec, emax in *.
  pose proof (@Zdigits2_nonneg (shr_m mrs1) Hm1) as Hd1'.
  destruct (shr_m mrs3) as [|m|m] eqn:Em3; [| |lia].
  - simpl Zdigits2 in Hd3.
    destruct mx as [|p|p]; [left; reflexivity | right | lia].
    assert (0 < Zdigits2 (Zpos p)) by (simpl; lia).
    destruct (Z.eq_dec (Zdigits2 m2) 0) as [E | E]; [|lia].
    assert (Zdigits2 (shr_m mrs1) = 0) by lia.
    lia.
  - simpl Zdigits2 in Hd3.
    replace (Z.leb e3 (1024 - 53)) with true
      by (symmetry; apply Z.leb_le; lia).
    lia.
Qed.

Lemma digits2_pos_iter p k :
  Zpos (digits2_pos (Pos.iter xO p k)) = Zpos (digits2_pos p) + Zpos k.
Proof.
  induction k as [|k IH] using Pos.peano_ind.
  - simpl; rewrite Pos2Z.inj_succ; lia.
  - rewrite Pos.iter_succ; cbn [digits2_pos].
    rewrite !Pos2Z.inj_succ, IH; lia.
Qed.

(** The float of a positive integer below [2^54]. *)
Lemma float_of_pos p :
  Zpos p < 2 ^ 54 ->
  exists s m e,
    float_lit (Zpos p) 0 = S754_finite s m e
    /\ -52 <= e <= 2
    /\ 1 <= Zpos (digits2_pos m) + e <= 55.
Proof.
  intros Hp.
  assert (Hd : Zdigits2 (Zpos p) <= 54) by (apply Zdigits2_le; lia).
  simpl Zdigits2 in Hd.
  unfold float_lit, binary_normalize, binary_round, shl_align.
  assert (Hf : fexp prec emax (Zpos (digits2_pos p) + 0)
               = Z.max (Zpos (digits2_pos p) - 53) (-1074))
    by (unfold fexp, SpecFloat.emin, prec, emax; lia).
  rewrite Hf; clear Hf.
  assert (Hgo : forall mz ez,
             Zpos (digits2_pos mz) + ez = Zpos (digits2_pos p) ->
             -52 <= ez <= 0 ->
             exists s m e,
               binary_round_aux prec emax false (Zpos mz) ez loc_Exact
               = S754_finite s m e
               /\ -52 <= e <= 2
               /\ 1 <= Zpos (digits2_pos m) + e <= 55).
  { intros mz ez Hmz Hez.
    pose proof (@binary_round_aux_bounds false (Zpos mz) ez loc_Exact) as H1.
    simpl Zdigits2 in H1.
    destruct (binary_round_aux prec emax false (Zpos mz) ez loc_Exact)
      as [s|s| |s m e].
    - destruct H1 as [H1 | H1]; lia.
    - exfalso; apply H1; lia.
    - exfalso; apply H1; lia.
    - exists s, m, e; split; [reflexivity|].
      destruct H1 as (H1 & H2); lia. }
  destruct (Z.max (Zpos (digits2_pos p) - 53) (-1074) - 0) as [|k|k] eqn:E.
  - apply Hgo; lia.
  - apply Hgo; lia.
  - apply Hgo; [rewrite digits2_pos_iter |]; lia.
Qed.

Lemma div_eucl_bounds a b :
  0 <= a -> 0 < b -> 0 <= fst (Z.div_eucl a b) <= a.
Proof.
  intros Ha Hb.
  pose proof (Z_div_mod a b ltac:(lia)) as H.
  destruct (Z.div_eucl a b) as [q r]; cbn [fst].
  destruct H as [H Hr]; nia.
Qed.

Lemma Zdigits2_shiftl m s :
  0 <= m -> 0 <= s -> Zdigits2 (Z.shiftl m s) <= Zdigits2 m + s.
Proof.
  intros Hm Hs.
  pose proof (@Zdigits2_nonneg m Hm) as Hd.
  pose proof (@Zdigits2_upper m Hm) as Hu.
  rewrite Z.shiftl_mul_pow2 by assumption.
  assert (0 < 2 ^ s) by (apply Z.pow_pos_nonneg; lia).
  apply Zdigits2_le; [nia | lia |].
  rewrite Z.pow_add_r by lia; nia.
Qed.

(** The quotient of two floats of bounded exponents is a zero or a
    finite float. *)
Lemma SFdiv_finite s1 m1 e1 s2 m2 e2 :
  -52 <= e1 <= 2 -> 1 <= Zpos (digits2_pos m1) + e1 <= 55 ->
  -52 <= e2 <= 2 -> 1 <= Zpos (digits2_pos m2) + e2 <= 55 ->
  match SFdiv prec emax (S754_finite s1 m1 e1) (S754_finite s2 m2 e2) with
  | S754_zero _ | S754_finite _ _ _ => True
  | _ => False
  end.
Proof.
  intros He1 Hd1 He2 Hd2.
  unfold SFdiv, SFdiv_core_binary.
  cbn [Zdigits2].
  set (d1 := Zpos (digits2_pos m1)) in *.
  set (d2 := Zpos (digits2_pos m2)) in *.
  set (e' := Z.min (fexp prec emax (d1 + e1 - (d2 + e2))) (e1 - e2)).
  assert (He' : e' <= e1 - e2) by (unfold e'; lia).
  set (s := e1 - e2 - e').
  assert (Hs : 0 <= s) by (unfold s; lia).
  set (m' := match s with
             | 0 => Zpos m1
             | Zpos _ => Z.shiftl (Zpos m1) s
             | Zneg _ => 0
             end).
  assert (Hm' : 0 <= m' /\ Zdigits2 m' <= d1 + s).
  { unfold m'; destruct s as [|k|k] eqn:Es; [simpl; lia | | lia].
    split; [apply Z.shiftl_nonneg; lia|].
    apply (@Zdigits2_shiftl (Zpos m1) (Zpos k)); lia. }
  pose proof (@div_eucl_bounds m' (Zpos m2) (proj1 Hm') ltac:(lia)) as Hq.
  destruct (Z.div_eucl m' (Zpos m2)) as [q r]; cbn [fst] in Hq.
  pose proof (@binary_round_aux_bounds (xorb s1 s2) q e'
                (new_location (Zpos m2) r)) as H.
  assert (Hdq : Zdigits2 q <= Zdigits2 m') by (apply Zdigits2_mono; lia).
  pose proof (@Zdigits2_nonneg q (proj1 Hq)).
  destruct (binary_round_aux prec emax (xorb s1 s2) q e'
              (new_location (Zpos m2) r)); try exact I; apply H; unfold s in *; lia.
Qed.

Lemma float_of_nat_bounds n :
  Z.of_nat n < 2 ^ 54 ->
  float_of_nat n = S754_zero false
  \/ exists s m e,
      float_of_nat n = S754_finite s m e
      /\ -52 <= e <= 2
      /\ 1 <= Zpos (digits2_pos m) + e <= 55.
Proof.
  unfold float_of_nat; destruct (Z.of_nat n) as [|p|p] eqn:E; intros H.
  - left; reflexivity.
  - right; apply float_of_pos; assumption.
  - lia.
Qed.

(** [a / b] for integers below [2^54] is a zero or a finite float. *)
Lemma SFdiv_of_nat a b :
  Z.of_nat a < 2 ^ 54 -> Z.of_nat b < 2 ^ 54 -> (0 < b)%nat ->
  match SFdiv prec emax (float_of_nat a) (float_of_nat b) with
  | S754_zero _ | S754_finite _ _ _ => True
  | _ => False
  end.
Proof.
  intros Ha Hb Hpos.
  destruct (@float_of_nat_bounds b Hb) as [Eb | (s2 & m2 & e2 & Eb & He2 & Hd2)].
  { unfold float_of_nat in Eb.
    destruct (Z.of_nat b) as [|p|p] eqn:E; [lia | | lia].
    destruct (@float_of_pos p Hb) as (s & m & e & Ep & _).
    rewrite Ep in Eb; discriminate. }
  destruct (@float_of_nat_bounds a Ha) as [Ea | (s1 & m1 & e1 & Ea & He1 & Hd1)].
  - rewrite Ea, Eb; exact I.
  - rewrite Ea, Eb; apply SFdiv_finite; assumption.
Qed.

Local Close Scope Z_scope.

Lemma sum_from xs : forall a, fold_left Nat.add xs a = a + sum xs.
Proof.
  unfold sum; induction xs as [|x xs IH]; intros a; simpl; [lia|].
  rewrite (IH (a + x)), (IH x); lia.
Qed.

Lemma sum_cons x xs : sum (x :: xs) = x + sum xs.
Proof. unfold sum at 1; simpl; apply sum_from. Qed.

(** The words of a text have no more characters than the text, and are no
    more than its characters. *)
Lemma split_ws_from_size U s : forall cur,
    sum (map (@length N) (split_ws_from U cur s)) <= length cur + length s
    /\ length (split_ws_from U cur s) <= length cur + length s.
Proof.
  induction s as [|c t IH]; intros cur; cbn [split_ws_from].
  - destruct cur as [|x cur]; [split; cbn; lia|].
    cbn [map]; rewrite sum_cons, length_rev; cbn; lia.
  - destruct (isspace U c).
    + destruct cur as [|x cur].
      * destruct (IH []) as [H1 H2]; cbn [length] in *; lia.
      * destruct (IH []) as [H1 H2].
        cbn [map]; rewrite sum_cons, length_rev; cbn [length] in *; lia.
    + destruct (IH (c :: cur)) as [H1 H2]; cbn [length] in *; lia.
Qed.

Lemma split_chr_size sep s : length (split_chr sep s) <= S (length s).
Proof.
  induction s as [|c s IH]; cbn [split_chr length]; [lia|].
  destruct (N.eqb c sep); cbn [length]; [lia|].
  destruct (split_chr sep s); cbn [length] in *; lia.
Qed.

(** A quotient of two counts below [2^54] is a finite number. *)
Lemma truediv_finite a b w :
  (Z.of_nat a < 2 ^ 54)%Z -> (Z.of_nat b < 2 ^ 54)%Z ->
  truediv a b = Ok w -> finite_num w.
Proof.
  intros Ha Hb; destruct b as [|b]; [discriminate|].
  cbn [truediv]; intros [= <-].
  pose proof (@SFdiv_of_nat a (S b) Ha Hb ltac:(lia)) as H.
  cbn [finite_num].
  destruct (SFdiv prec emax (float_of_nat a) (float_of_nat (S b)));
    exact H.
Qed.

(** The averages of a text of fewer than [2^53] characters are finite. *)
Lemma analyze_finite U notes r :
  (Z.of_nat (length notes) < 2 ^ 53)%Z ->
  GradeLevelAnalyzer.analyze U notes = Ok r ->
  finite_num (GradeLevelAnalyzer.avg_word_length r)
  /\ finite_num (GradeLevelAnalyzer.avg_sentence_length r).
Proof.
  intros Hlen Hr.
  destruct (ComplexityFacts.analyze_ok U notes) as (w & s & Hw & Hs & Hr').
  rewrite Hr in Hr'; injection Hr' as ->.
  cbn [GradeLevelAnalyzer.avg_word_length
         GradeLevelAnalyzer.avg_sentence_length].
  destruct (@split_ws_from_size U notes []) as [Hsum Hwords].
  fold (split_ws U notes) in Hsum, Hwords; cbn [length] in Hsum, Hwords.
  pose proof (split_chr_size period notes) as Hsent.
  assert (H53 : (2 ^ 53 < 2 ^ 54)%Z) by reflexivity.
  split.
  - destruct (split_ws U notes) as [|x xs] eqn:E; [subst w; exact I|].
    apply (@truediv_finite _ _ w) in Hw; [assumption | lia | lia].
  - apply (@truediv_finite _ _ s) in Hs; [assumption | lia | lia].
Qed.

End FloatFacts.

(* ------------------------------------------------------------------ *)
(** * The complexity analyzer (C8, C9) *)

(** C8.  The bracket is decided by both averages together: (Elementary,
    Low) exactly when the average word length is below 4.5 and the average
    sentence length below 10; failing that, (MiddleSchool, Medium) exactly
    when they are below 5.5 and 15; (HighSchoolPlus, High) otherwise.  On
    ["The cat sat."] the words are [The], [cat], [sat.], the segments
    ["The cat sat"] and [""], the averages 10/3 and 3/2 = 1.5, and the
    bracket (Elementary, Low); twelve one-letter words without a period
    have short words but a segment of 12, and get (MiddleSchool, Medium). *)
Theorem C8_brackets_are_conjunctive :
  forall U notes,
    (exists r,
        GradeLevelAnalyzer.analyze U notes = Ok r
        /\ let w := GradeLevelAnalyzer.avg_word_length r in
           let s := GradeLevelAnalyzer.avg_sentence_length r in
           let bracket := (GradeLevelAnalyzer.grade_range r,
                           GradeLevelAnalyzer.complexity r) in
           let low := num_lt w (PyFloat (float_lit 9 (-1)))
                      && num_lt s (PyInt 10) in
           let medium := num_lt w (PyFloat (float_lit 11 (-1)))
                         && num_lt s (PyInt 15) in
           (bracket = (GradeLevelAnalyzer.Elementary, GradeLevelAnalyzer.Low)
            <-> low = true)
           /\ (bracket = (GradeLevelAnalyzer.MiddleSchool,
                          GradeLevelAnalyzer.Medium)
               <-> low = false /\ medium = true)
           /\ (bracket = (GradeLevelAnalyzer.HighSchoolPlus,
                          GradeLevelAnalyzer.High)
               <-> low = false /\ medium = false))
    /\ (let notes := py "The cat sat." in
        split_ws basic_latin notes = [py "The"; py "cat"; py "sat."]
        /\ split_chr period notes = [py "The cat sat"; []]
        /\ exists w s,
            truediv 10 3 = Ok w
            /\ truediv 3 2 = Ok s
            /\ s = PyFloat (float_lit 3 (-1))
            /\ GradeLevelAnalyzer.analyze basic_latin notes
               = Ok {| GradeLevelAnalyzer.grade_range :=
                         GradeLevelAnalyzer.Elementary;
                       GradeLevelAnalyzer.complexity := GradeLevelAnalyzer.Low;
                       GradeLevelAnalyzer.avg_word_length := w;
                       GradeLevelAnalyzer.avg_sentence_length := s |})
    /\ (exists r,
           GradeLevelAnalyzer.analyze basic_latin (py "a a a a a a a a a a a a")
           = Ok r
           /\ num_lt (GradeLevelAnalyzer.avg_word_length r)
                     (PyFloat (float_lit 9 (-1))) = true
           /\ GradeLevelAnalyzer.grade_range r
              = GradeLevelAnalyzer.MiddleSchool
           /\ GradeLevelAnalyzer.complexity r = GradeLevelAnalyzer.Medium).
Proof.
  intros U notes; split; [|split].
  - destruct (ComplexityFacts.analyze_ok U notes) as (w & s & _ & _ & Hr).
    eexists; split; [exact Hr|].
    cbn [GradeLevelAnalyzer.avg_word_length
           GradeLevelAnalyzer.avg_sentence_length
           GradeLevelAnalyzer.grade_range GradeLevelAnalyzer.complexity].
    unfold GradeLevelAnalyzer.classify.
    destruct (num_lt w (PyFloat (float_lit 9 (-1))) && num_lt s (PyInt 10));
      destruct (num_lt w (PyFloat (float_lit 11 (-1)))
                && num_lt s (PyInt 15));
      cbn [fst snd]; repeat split; intros; try discriminate;
      try reflexivity;
      match goal with
      | H : _ /\ _ |- _ => destruct H; discriminate
      end.
  - split; [vm_compute; reflexivity|].
    split; [vm_compute; reflexivity|].
    eexists; eexists.
    split; [reflexivity|]; split; [reflexivity|].
    split; vm_compute; reflexivity.
  - eexists; split; [vm_compute; reflexivity|].
    vm_compute; repeat split; reflexivity.
Qed.

(** C9, as the code has it.  The rendered report has five lines: the title
    ["Content Complexity Analysis:"] and four bullet lines with the
    suggested grade range, the complexity level, the average word length
    and the average sentence length.  The averages are written with format
    [.1f]; for a text of fewer than [2^53] characters, the counts they are
    computed from are exact as floats, both averages are finite numbers and
    both are written with one decimal place.  On ["The cat sat."] the
    averages read [3.3] and [1.5]. *)
Theorem C9_report_layout :
  forall U notes,
    (exists r,
        GradeLevelAnalyzer.analyze U notes = Ok r
        /\ GradeLevelAnalyzer.run U notes = Ok (unlines (report_lines r))
        /\ length (report_lines r) = 5
        /\ split_chr NL (unlines (report_lines r)) = report_lines r ++ [[]]
        /\ count_lines (unlines (report_lines r)) = 5
        /\ ((Z.of_nat (length notes) < 2 ^ 53)%Z ->
            finite_num (GradeLevelAnalyzer.avg_word_length r)
            /\ finite_num (GradeLevelAnalyzer.avg_sentence_length r)
            /\ one_decimal
                 (format_1f (GradeLevelAnalyzer.avg_word_length r))
            /\ one_decimal
                 (format_1f (GradeLevelAnalyzer.avg_sentence_length r))))
    /\ (forall x, finite_num x -> one_decimal (format_1f x))
    /\ GradeLevelAnalyzer.run basic_latin (py "The cat sat.")
       = Ok (unlines
               [ py "Content Complexity Analysis:";
                 py "  " ++ [bullet]
                 ++ py " Suggested Grade Range: Elementary (K-5)";
                 py "  " ++ [bullet] ++ py " Complexity Level: Low";
                 py "  " ++ [bullet]
                 ++ py " Average Word Length: 3.3 characters";
                 py "  " ++ [bullet]
                 ++ py " Average Sentence Length: 1.5 words" ]).
Proof.
  intros U notes; split; [|split].
  - destruct (ComplexityFacts.analyze_ok U notes) as (w & s & _ & _ & Hr).
    eexists; split; [exact Hr|].
    split; [|split; [reflexivity|split; [|split]]].
    + unfold GradeLevelAnalyzer.run; rewrite Hr; simpl bind.
      rewrite ReportFacts.render_unlines; reflexivity.
    + apply ReportFacts.split_unlines, ReportFacts.report_lines_one_line.
    + rewrite ReportFacts.count_unlines;
        [reflexivity | apply ReportFacts.report_lines_one_line].
    + intros Hlen.
      destruct (@FloatFacts.analyze_finite U notes _ Hlen Hr) as [Hw Hs].
      repeat split; try assumption;
        apply ReportFacts.format_1f_one_decimal; assumption.
  - exact ReportFacts.format_1f_one_decimal.
  - vm_compute; reflexivity.
Qed.

(** The twelve characters of ["The cat sat."]: both averages are finite
    and written with one decimal place. *)
Lemma C9_report_layout_witness :
  exists r,
    GradeLevelAnalyzer.analyze basic_latin (py "The cat sat.") = Ok r
    /\ finite_num (GradeLevelAnalyzer.avg_word_length r)
    /\ finite_num (GradeLevelAnalyzer.avg_sentence_length r)
    /\ one_decimal (format_1f (GradeLevelAnalyzer.avg_word_length r))
    /\ one_decimal (format_1f (GradeLevelAnalyzer.avg_sentence_length r)).
Proof.
  destruct (proj1 (C9_report_layout basic_latin (py "The cat sat.")))
    as (r & Hr & _ & _ & _ & _ & Hfinite).
  exists r; split; [exact Hr|].
  apply Hfinite; reflexivity.
Defined.

(** C9 as it is worded fails: the report of any text, here the empty one,
    has five lines, the first being the title. *)
Lemma C9_four_lines_counterexample :
  exists text,
    GradeLevelAnalyzer.run basic_latin [] = Ok text
    /\ count_lines text = 5
    /\ count_lines text <> 4
    /\ split_chr NL text
       = [ py "Content Complexity Analysis:";
           py "  " ++ [bullet] ++ py " Suggested Grade Range: Elementary (K-5)";
           py "  " ++ [bullet] ++ py " Complexity Level: Low";
           py "  " ++ [bullet] ++ py " Average Word Length: 0.0 characters";
           py "  " ++ [bullet] ++ py " Average Sentence Length: 0.0 words";
           [] ].
Proof.
  eexists; split; [vm_compute; reflexivity|].
  vm_compute; repeat split; discriminate.
Qed.

(* ------------------------------------------------------------------ *)
(** * Stripping and the leading-run patterns *)

Module StripFacts.

Section WithUnicode.
Variable U : unicode.

Lemma lstrip_starts s : starts_outside (isspace U) (lstrip U s).
Proof.
  induction s as [|c t IH]; simpl; auto.
  destruct (isspace U c) eqn:E; simpl; auto.
Qed.

Lemma lstrip_fixed s : starts_outside (isspace U) s -> lstrip U s = s.
Proof. destruct s as [|c t]; simpl; auto; intros ->; reflexivity. Qed.

Lemma lstrip_idem s : lstrip U (lstrip U s) = lstrip U s.
Proof. apply lstrip_fixed, lstrip_starts. Qed.

Lemma lstrip_suffix s : exists pre, s = pre ++ lstrip U s.
Proof.
  induction s as [|c t [pre IH]]; simpl; [exists []; reflexivity|].
  destruct (isspace U c).
  - exists (c :: pre); simpl; congruence.
  - exists []; reflexivity.
Qed.

Lemma lstrip_snoc s c :
  isspace U c = false -> lstrip U (s ++ [c]) = lstrip U s ++ [c].
Proof.
  intros Hc; induction s as [|a t IH]; simpl; [rewrite Hc; reflexivity|].
  destruct (isspace U a); auto.
Qed.

Lemma rstrip_cons c t :
  isspace U c = false -> rstrip U (c :: t) = c :: rstrip U t.
Proof.
  intros Hc; unfold rstrip; simpl.
  rewrite lstrip_snoc, rev_app_distr by assumption; reflexivity.
Qed.

Lemma rstrip_idem s : rstrip U (rstrip U s) = rstrip U s.
Proof. unfold rstrip; rewrite rev_involutive, lstrip_idem; reflexivity. Qed.

(** Stripping a text that starts with a non-blank keeps its first
    character. *)
Lemma strip_cons c t :
  isspace U c = false -> strip U (c :: t) = c :: rstrip U t.
Proof.
  intros Hc; unfold strip; simpl; rewrite Hc; apply rstrip_cons; assumption.
Qed.

Lemma strip_starts s : starts_outside (isspace U) (strip U s).
Proof.
  unfold strip.
  pose proof (lstrip_starts s) as H.
  destruct (lstrip U s) as [|c t]; [reflexivity|].
  simpl in H; rewrite rstrip_cons by assumption; exact H.
Qed.

Lemma strip_idem s : strip U (strip U s) = strip U s.
Proof.
  unfold strip at 1.
  rewrite lstrip_fixed by apply strip_starts.
  unfold strip; apply rstrip_idem.
Qed.

Lemma In_lstrip c s : In c (lstrip U s) -> In c s.
Proof.
  destruct (lstrip_suffix s) as [pre H]; intros Hin.
  rewrite H; apply in_or_app; right; assumption.
Qed.

Lemma In_strip c s : In c (strip U s) -> In c s.
Proof.
  unfold strip, rstrip; intros H.
  apply In_lstrip.
  rewrite <- in_rev in H; apply In_lstrip in H.
  rewrite <- in_rev in H; exact H.
Qed.

(** A text without blanks at its end keeps that on each non-empty
    suffix. *)
Lemma rstrip_fixed_suffix pre t :
  rstrip U (pre ++ t) = pre ++ t -> t <> [] -> rstrip U t = t.
Proof.
  unfold rstrip; intros H Ht.
  apply (f_equal (@rev N)) in H; rewrite rev_involutive, rev_app_distr in H.
  rewrite <- (rev_involutive t) at 2; f_equal.
  apply lstrip_fixed.
  destruct (rev t) as [|c r] eqn:E.
  - apply (f_equal (@rev N)) in E; rewrite rev_involutive in E; contradiction.
  - simpl in H; simpl.
    destruct (isspace U c) eqn:Hc; [|reflexivity].
    exfalso.
    destruct (lstrip_suffix (r ++ rev pre)) as [x Hx].
    rewrite H in Hx.
    apply (f_equal (@length N)) in Hx.
    repeat rewrite length_app in Hx; simpl in Hx;
      repeat rewrite length_app in Hx; lia.
Qed.
End WithUnicode.

Lemma drop_while_starts p s : starts_outside p (drop_while p s).
Proof.
  induction s as [|c t IH]; simpl; auto.
  destruct (p c) eqn:E; simpl; auto.
Qed.

Lemma take_drop_while p s : s = take_while p s ++ drop_while p s.
Proof.
  induction s as [|c t IH]; simpl; auto.
  destruct (p c); simpl; congruence.
Qed.

Lemma In_drop_while p c s : In c (drop_while p s) -> In c s.
Proof.
  intros H; rewrite (take_drop_while p s); apply in_or_app; auto.
Qed.

(** Greedy repetition in front of a continuation that always succeeds
    takes the whole run. *)
Lemma many_greedy R p (k : nat -> str -> option R) :
  (forall pos s, k pos s <> None) ->
  forall s pos,
    many p pos s k = k (pos + length (take_while p s)) (drop_while p s).
Proof.
  intros Hk; induction s as [|c t IH]; intros pos; simpl.
  - rewrite Nat.add_0_r; reflexivity.
  - destruct (p c); simpl.
    + rewrite IH.
      replace (S pos + length (take_while p t))
        with (pos + S (length (take_while p t))) by lia.
      destruct (k (pos + S (length (take_while p t))) (drop_while p t)) eqn:E;
        [reflexivity | destruct (Hk _ _ E)].
    + rewrite Nat.add_0_r; reflexivity.
Qed.

Lemma match_at_bol_later r pos s :
  0 < pos -> match_at (Cat Bol r) pos s = None.
Proof.
  intros Hpos; unfold match_at; simpl.
  destruct pos; [lia | reflexivity].
Qed.

Lemma sub_from_bol_later r : forall s pos n,
    0 < pos -> sub_from (Cat Bol r) [] pos n s = skipn n s.
Proof.
  induction s as [|c t IH]; intros pos n Hpos.
  - simpl; rewrite match_at_bol_later by assumption.
    destruct n; reflexivity.
  - destruct n as [|n]; simpl.
    + rewrite match_at_bol_later by assumption.
      rewrite IH by lia; reflexivity.
    + apply IH; lia.
Qed.

Lemma skipn_take_while p s : skipn (length (take_while p s)) s = drop_while p s.
Proof.
  induction s as [|c t IH]; simpl; auto.
  destruct (p c); simpl; auto.
Qed.

(** [re.sub(r'^[class]+', '', s)] removes the longest leading run of the
    class. *)
Lemma re_sub_leading p s :
  re_sub (Cat Bol (Many1 p)) [] s = drop_while p s.
Proof.
  unfold re_sub; destruct s as [|c t]; [reflexivity|].
  cbn [sub_from].
  unfold match_at; cbn [rmatch Many1 Nat.eqb].
  destruct (p c) eqn:Hc; cbn [drop_while]; rewrite Hc.
  - rewrite many_greedy by discriminate.
    cbn [m_end].
    replace (1 + length (take_while p t) - 0)
      with (S (length (take_while p t))) by lia.
    cbn [app].
    rewrite sub_from_bol_later by lia.
    apply skipn_take_while.
  - rewrite sub_from_bol_later by lia; reflexivity.
Qed.

End StripFacts.

(* ------------------------------------------------------------------ *)
(** * What the extractors collect *)

Module ItemFacts.
Import NotesAnalysisTool.

(** An invariant of the state that each iteration keeps, on elements that
    satisfy [Q], holds when the loop ends. *)
Lemma for_each_inv {S A} (I : S -> Prop) (Q : A -> Prop)
      (body : S -> A -> result S) :
  (forall st x st', Q x -> I st -> body st x = Ok st' -> I st') ->
  forall xs, Forall Q xs ->
  forall st st', I st -> for_each body st xs = Ok st' -> I st'.
Proof.
  intros Hbody xs HQ; induction HQ as [|x xs Hx _ IH]; intros st st' HI H;
    simpl in H.
  - injection H as <-; assumption.
  - destruct (body st x) as [st1|e] eqn:E; simpl in H; [|discriminate].
    apply (IH st1 st'); [eapply Hbody; eassumption | assumption].
Qed.

Lemma Forall_firstn_keeps {A} (P : A -> Prop) n (l : list A) :
  Forall P l -> Forall P (firstn n l).
Proof.
  intros H; revert n; induction H as [|x l Hx _ IH]; intros [|n]; simpl;
    constructor; auto.
Qed.

Lemma one_line_In s : one_line s = true <-> forall c, In c s -> c <> NL.
Proof.
  unfold one_line; rewrite forallb_forall; split; intros H c Hc.
  - intros ->; specialize (H NL Hc); rewrite N.eqb_refl in H; discriminate.
  - destruct (N.eqb c NL) eqn:E; [|reflexivity].
    apply N.eqb_eq in E; destruct (H c Hc E).
Qed.

Lemma has_char_false c s : (forall x, In x s -> x <> c) -> has_char c s = false.
Proof.
  unfold has_char; induction s as [|a t IH]; simpl; intros H; [reflexivity|].
  rewrite IH by auto.
  destruct (N.eqb c a) eqn:E; [|reflexivity].
  apply N.eqb_eq in E; destruct (H a (or_introl eq_refl)); auto.
Qed.

Lemma split_chr_one_line s : Forall (fun l => one_line l = true) (split_chr NL s).
Proof.
  induction s as [|c s IH]; simpl.
  - repeat constructor.
  - destruct (N.eqb c NL) eqn:E; [constructor; [reflexivity | assumption]|].
    destruct (split_chr NL s) as [|h r]; [repeat constructor; simpl; rewrite E; reflexivity|].
    inversion IH; subst; constructor; [|assumption].
    simpl; rewrite E; assumption.
Qed.

Lemma split_chr1_In sep : forall s a b c,
    split_chr1 sep s = [a; b] -> In c b -> In c s.
Proof.
  induction s as [|x s IH]; intros a b c H Hc; simpl in H; [discriminate|].
  destruct (N.eqb x sep).
  - injection H as _ <-; right; assumption.
  - destruct (split_chr1 sep s) as [|h [|h2 [|h3 r]]] eqn:E; try discriminate.
    injection H as _ <-; right; apply (IH h h2 c eq_refl Hc).
Qed.

(** The pieces of a split on a character class hold no character of the
    class and nothing the text did not hold. *)
Lemma split_from_cls_pieces p : forall s pos cur piece c,
    (forall x, In x cur -> p x = false) ->
    In piece (split_from (Cls p) pos 0 cur s) -> In c piece ->
    p c = false /\ (In c cur \/ In c s).
Proof.
  induction s as [|x s IH]; intros pos cur piece c Hcur Hp Hc; simpl in Hp.
  - destruct Hp as [<- | []].
    rewrite <- in_rev in Hc; auto.
  - unfold match_at in Hp; cbn [rmatch] in Hp.
    destruct (p x) eqn:Hx.
    + cbn [m_end] in Hp.
      replace (S pos - pos) with 1 in Hp by lia.
      destruct Hp as [<- | Hp].
      * rewrite <- in_rev in Hc; auto.
      * destruct (IH (S pos) [] piece c) as [H1 [[] | H2]]; simpl; auto.
        intros ? [].
    + destruct (IH (S pos) (x :: cur) piece c) as [H1 [[-> | H2] | H2]];
        simpl; auto.
      intros y [<- | Hy]; auto.
Qed.

Section WithUnicode.
Variable U : unicode.

Lemma clean_drop line :
  clean U line = strip U (drop_while (bullet_or_blank U) line).
Proof.
  unfold clean, leading_bullets.
  rewrite (StripFacts.re_sub_leading (bullet_or_blank U)); reflexivity.
Qed.

Lemma clean_starts line : starts_outside (bullet_or_blank U) (clean U line).
Proof.
  rewrite clean_drop.
  pose proof (StripFacts.drop_while_starts (bullet_or_blank U) line) as H.
  destruct (drop_while (bullet_or_blank U) line) as [|c t]; [exact I|].
  simpl in H.
  assert (Hc : isspace U c = false).
  { unfold bullet_or_blank in H.
    repeat (apply orb_false_iff in H as [H _]); assumption. }
  rewrite StripFacts.strip_cons by assumption; exact H.
Qed.

Lemma clean_one_line line : one_line line = true -> one_line (clean U line) = true.
Proof.
  rewrite clean_drop, !one_line_In; intros H c Hc.
  apply H, (StripFacts.In_drop_while (bullet_or_blank U)).
  apply (StripFacts.In_strip U); assumption.
Qed.

(** What a scanner appends is a well-formed item. *)
Lemma append_if_longer_ok n items line :
  one_line line = true ->
  Forall (item_ok U n) items ->
  Forall (item_ok U n) (append_if_longer n items (clean U line)).
Proof.
  intros Hl Hitems; unfold append_if_longer.
  destruct (truthy (clean U line) && Nat.ltb n (length (clean U line)))
           eqn:E; [|assumption].
  apply andb_true_iff in E as [_ E]; apply Nat.ltb_lt in E.
  apply Forall_app; split; [assumption|].
  constructor; [|constructor].
  repeat split.
  - assumption.
  - unfold clean; apply StripFacts.strip_idem.
  - apply clean_starts.
  - apply clean_one_line; assumption.
Qed.

Ltac split_cases :=
  repeat (match goal with
          | |- context [if ?b then _ else _] => destruct b
          | |- context [index ?l 0] => destruct (index l 0)
          end; simpl);
  try discriminate; intros [= <-]; auto.

Lemma concepts_body_shape : body_shape U 5 (concepts_body U).
Proof.
  intros [inside items] line st'; unfold concepts_body; simpl.
  split_cases.
Qed.

Lemma objectives_body_shape : body_shape U 10 (objectives_body U).
Proof.
  intros [inside items] line st'; unfold objectives_body; simpl.
  split_cases.
Qed.

Lemma section_body_shape is_marker : body_shape U 5 (section_body U is_marker).
Proof.
  intros [inside items] line st'; unfold section_body; simpl.
  split_cases.
Qed.

Lemma scanner_items_ok n body notes :
  body_shape U n body -> emits U body ->
  exists inside all,
    for_each body (false, []) (split_chr NL notes) = Ok (inside, all)
    /\ Forall (item_ok U n) all.
Proof.
  intros Hshape Hemits.
  destruct (NotesFacts.scanner_ok notes Hemits) as (inside & all & Hrun & _).
  exists inside, all; split; [assumption|].
  apply (@for_each_inv _ _ (fun st => Forall (item_ok U n) (snd st))
                       (fun l => one_line l = true) body)
    with (xs := split_chr NL notes) (st := (false, [])) (st' := (inside, all));
    auto using split_chr_one_line.
  intros st x st' Hx HI Hb.
  destruct (Hshape st x st' Hb) as [-> | ->]; [assumption|].
  apply append_if_longer_ok; assumption.
Qed.

(** A loop whose body leaves a state alone on every element ends in that
    state. *)
Lemma for_each_idle {S A} (Q : A -> Prop) (body : S -> A -> result S) st :
  (forall x, Q x -> body st x = Ok st) ->
  forall xs, Forall Q xs -> for_each body st xs = Ok st.
Proof.
  intros Hbody xs HQ; induction HQ as [|x xs Hx _ IH]; simpl; auto.
  rewrite (Hbody x Hx); simpl; assumption.
Qed.

Lemma concepts_body_idle items line :
  any_in concept_markers (strip U (lower U line)) = false ->
  concepts_body U (false, items) line = Ok (false, items).
Proof. intros H; unfold concepts_body; rewrite H; reflexivity. Qed.

Lemma objectives_body_idle items line :
  any_in objective_markers (strip U (lower U line)) = false ->
  objectives_body U (false, items) line = Ok (false, items).
Proof. intros H; unfold objectives_body; rewrite H; reflexivity. Qed.

Lemma section_body_idle is_marker items line :
  is_marker (lower U line) = false ->
  section_body U is_marker (false, items) line = Ok (false, items).
Proof. intros H; unfold section_body; rewrite H; reflexivity. Qed.

Lemma topic_drop line :
  topic_of U line = drop_while (numbering_char U) (strip U line).
Proof.
  unfold topic_of, leading_numbering.
  rewrite (StripFacts.re_sub_leading (numbering_char U)); reflexivity.
Qed.

Lemma topic_of_ok line :
  one_line line = true ->
  5 < length (topic_of U line) < 100 ->
  topic_ok U (topic_of U line).
Proof.
  intros Hl Hlen; split; [assumption|].
  pose proof (StripFacts.drop_while_starts (numbering_char U) (strip U line))
    as Hstart.
  rewrite <- topic_drop in Hstart.
  split; [assumption|].
  split.
  - assert (Hne : topic_of U line <> []).
    { intros E; rewrite E in Hlen; simpl in Hlen; lia. }
    assert (Hr : rstrip U (topic_of U line) = topic_of U line).
    { apply (StripFacts.rstrip_fixed_suffix U
               (take_while (numbering_char U) (strip U line))); [|assumption].
      rewrite topic_drop, <- StripFacts.take_drop_while.
      unfold strip; apply StripFacts.rstrip_idem. }
    unfold strip; rewrite StripFacts.lstrip_fixed; [assumption|].
    destruct (topic_of U line) as [|c t]; [exact I|].
    simpl in *; unfold numbering_char in Hstart.
    apply orb_false_iff in Hstart as [_ Hstart]; assumption.
  - rewrite topic_drop, one_line_In in *; intros c Hc.
    apply Hl, (StripFacts.In_strip U),
      (StripFacts.In_drop_while (numbering_char U)); assumption.
Qed.

Lemma topics_body_ok topics line :
  one_line line = true ->
  Forall (topic_ok U) topics ->
  forall topics', topics_body U topics line = Ok topics' ->
                  Forall (topic_ok U) topics'.
Proof.
  intros Hl Ht topics'; unfold topics_body.
  fold (topic_of U line).
  destruct (truthy (strip U line)); simpl.
  - destruct (index (strip U line) 0); simpl; [|discriminate].
    match goal with
    | |- context [if ?b then _ else Ok topics] => destruct b
    end; [|intros [= <-]; assumption].
    destruct (truthy (topic_of U line) && Nat.ltb 5 (length (topic_of U line))
              && Nat.ltb (length (topic_of U line)) 100) eqn:E;
      intros [= <-]; [|assumption].
    apply andb_true_iff in E as [E E2]; apply andb_true_iff in E as [_ E1].
    apply Nat.ltb_lt in E1, E2.
    apply Forall_app; split; [assumption|].
    constructor; [|constructor].
    apply topic_of_ok; auto.
  - intros [= <-]; assumption.
Qed.

Lemma vocabulary_body_ok vocab line :
  one_line line = true ->
  Forall (term_ok U) vocab ->
  forall vocab', vocabulary_body U vocab line = Ok vocab' ->
                 Forall (term_ok U) vocab'.
Proof.
  intros Hl Hv vocab'; unfold vocabulary_body.
  match goal with
  | |- context [if ?b then _ else Ok vocab] => destruct b
  end; [|intros [= <-]; assumption].
  destruct (has_char colon line) eqn:Hc; [|intros [= <-]; assumption].
  destruct (split_chr1_colon _ _ Hc) as (a & b & Hsplit).
  rewrite Hsplit; simpl; intros [= <-].
  apply Forall_app; split; [assumption|].
  apply Forall_forall; intros term Hterm.
  apply in_map_iff in Hterm as (piece & <- & Hpiece).
  apply filter_In in Hpiece as [Hpiece Htruthy].
  assert (Hchars : forall c, In c (strip U piece) ->
                             (N.eqb c 44 || N.eqb c 59 = false) /\ In c line).
  { intros c Hc'; apply (StripFacts.In_strip U) in Hc'.
    destruct (@split_from_cls_pieces (fun c => N.eqb c 44 || N.eqb c 59)
                                     b 0 [] piece c
                                     (fun _ F => match F with end)
                                     Hpiece Hc')
      as [H1 [[] | H2]].
    split; [assumption|].
    apply (@split_chr1_In colon line a b c Hsplit H2). }
  repeat split.
  - destruct (strip U piece); [discriminate | discriminate].
  - apply StripFacts.strip_idem.
  - apply has_char_false; intros c Hc' ->.
    destruct (Hchars _ Hc') as [H _]; discriminate.
  - apply has_char_false; intros c Hc' ->.
    destruct (Hchars _ Hc') as [H _]; discriminate.
  - apply one_line_In; intros c Hc'.
    rewrite one_line_In in Hl; apply Hl, Hchars; assumption.
Qed.

Lemma vocabulary_body_idle vocab line :
  vocabulary_line U line = false ->
  vocabulary_body U vocab line = Ok vocab.
Proof.
  unfold vocabulary_line, vocabulary_body; intros H.
  match goal with
  | |- context [if ?b then _ else Ok vocab] => destruct b
  end; [|reflexivity].
  simpl in H; rewrite H; reflexivity.
Qed.
End WithUnicode.

End ItemFacts.

(* ------------------------------------------------------------------ *)
(** * The extracted lists: shape of the items, texts without markers *)

(** X1.  Every item the four section scanners return is longer than the
    minimum (5 characters, 10 for objectives), has no blank at either end,
    does not start with a bullet character and holds no newline. *)
Theorem X1_scanner_items_well_formed :
  forall U notes,
    (exists l, _extract_key_concepts U notes = Ok l
               /\ Forall (item_ok U 5) l)
    /\ (exists l, _extract_objectives U notes = Ok l
                  /\ Forall (item_ok U 10) l)
    /\ (exists l, _extract_prior_knowledge U notes = Ok l
                  /\ Forall (item_ok U 5) l)
    /\ (exists l, _extract_real_world U notes = Ok l
                  /\ Forall (item_ok U 5) l).
Proof.
  intros U notes.
  destruct (@ItemFacts.scanner_items_ok U 5 (concepts_body U) notes
              (ItemFacts.concepts_body_shape U)
              (NotesFacts.concepts_body_emits U))
    as (i1 & kc & Hkc & Fkc).
  destruct (@ItemFacts.scanner_items_ok U 10 (objectives_body U) notes
              (ItemFacts.objectives_body_shape U)
              (NotesFacts.objectives_body_emits U))
    as (i2 & lo & Hlo & Flo).
  destruct (@ItemFacts.scanner_items_ok U 5 (prior_body U) notes
              (ItemFacts.section_body_shape U _)
              (NotesFacts.section_body_emits U _))
    as (i3 & pk & Hpk & Fpk).
  destruct (@ItemFacts.scanner_items_ok U 5 (real_world_body U) notes
              (ItemFacts.section_body_shape U _)
              (NotesFacts.section_body_emits U _))
    as (i4 & rw & Hrw & Frw).
  unfold _extract_key_concepts, _extract_objectives, _extract_prior_knowledge,
    _extract_real_world.
  rewrite Hkc, Hlo, Hpk, Hrw; cbn [bind].
  repeat split; eexists; (split; [reflexivity|]);
    apply ItemFacts.Forall_firstn_keeps; assumption.
Qed.

(** X2.  A scanner collects nothing before its section is opened: when no
    line of the notes holds a marker of the section type, the result is the
    empty list, whatever bullets the notes contain. *)
Theorem X2_no_marker_no_items :
  forall U notes,
    let lines := split_chr NL notes in
    (Forall (fun line =>
               any_in concept_markers (strip U (lower U line)) = false) lines ->
     _extract_key_concepts U notes = Ok [])
    /\ (Forall (fun line =>
                  any_in objective_markers (strip U (lower U line)) = false)
               lines ->
        _extract_objectives U notes = Ok [])
    /\ (Forall (fun line =>
                  contains (py "prior knowledge") (lower U line)
                  || contains (py "prerequisite") (lower U line) = false)
               lines ->
        _extract_prior_knowledge U notes = Ok [])
    /\ (Forall (fun line => any_in real_world_markers (lower U line) = false)
               lines ->
        _extract_real_world U notes = Ok []).
Proof.
  intros U notes lines; repeat split; intros H.
  - unfold _extract_key_concepts; fold lines.
    rewrite (@ItemFacts.for_each_idle _ _ _ (concepts_body U) (false, [])
               (fun x => @ItemFacts.concepts_body_idle U [] x) lines H).
    reflexivity.
  - unfold _extract_objectives; fold lines.
    rewrite (@ItemFacts.for_each_idle _ _ _ (objectives_body U) (false, [])
               (fun x => @ItemFacts.objectives_body_idle U [] x) lines H).
    reflexivity.
  - unfold _extract_prior_knowledge; fold lines.
    rewrite (@ItemFacts.for_each_idle _ _ _ (prior_body U) (false, [])
               (fun x => @ItemFacts.section_body_idle U _ [] x) lines H).
    reflexivity.
  - unfold _extract_real_world; fold lines.
    rewrite (@ItemFacts.for_each_idle _ _ _ (real_world_body U) (false, [])
               (fun x => @ItemFacts.section_body_idle U _ [] x) lines H).
    reflexivity.
Qed.

(** Bulleted notes without any section header. *)
Lemma X2_no_marker_witness :
  let notes := py "- alpha beta gamma" ++ [NL] ++ py "- delta epsilon" in
  _extract_key_concepts basic_latin notes = Ok []
  /\ _extract_objectives basic_latin notes = Ok []
  /\ _extract_prior_knowledge basic_latin notes = Ok []
  /\ _extract_real_world basic_latin notes = Ok [].
Proof.
  split; [|split; [|split]].
  - apply (proj1 (X2_no_marker_no_items basic_latin
                    (py "- alpha beta gamma" ++ [NL] ++ py "- delta epsilon"))).
    repeat constructor.
  - apply (proj1 (proj2 (X2_no_marker_no_items basic_latin
                    (py "- alpha beta gamma" ++ [NL] ++ py "- delta epsilon")))).
    repeat constructor.
  - apply (proj1 (proj2 (proj2 (X2_no_marker_no_items basic_latin
                    (py "- alpha beta gamma" ++ [NL] ++ py "- delta epsilon"))))).
    repeat constructor.
  - apply (proj2 (proj2 (proj2 (X2_no_marker_no_items basic_latin
                    (py "- alpha beta gamma" ++ [NL] ++ py "- delta epsilon"))))).
    repeat constructor.
Defined.

(** X3.  Every topic [_extract_topics] returns has 6 to 99 characters,
    does not start with a character the pattern strips (a decimal digit,
    that is a character of the class [\d], a period, a closing
    parenthesis, a bullet character or a blank), has no blank at its end
    and holds no newline.  Lines are selected with [str.isdigit], which
    also holds of digits that are not decimal, and those are not stripped:
    a line that starts with a superscript two is returned as it is. *)
Theorem X3_topics_well_formed :
  (forall U notes,
      exists l, _extract_topics U notes = Ok l /\ Forall (topic_ok U) l)
  /\ (let line := [178%N] ++ py " is a superscript two" in
      isdigit with_superscripts 178 = true
      /\ isdecimal with_superscripts 178 = false
      /\ _extract_topics with_superscripts line = Ok [line]).
Proof.
  split; [|vm_compute; repeat split; reflexivity].
  intros U notes.
  destruct (NotesFacts.topics_ok U notes) as (all & Hrun & _).
  unfold _extract_topics; rewrite Hrun; cbn [bind].
  eexists; split; [reflexivity|].
  apply ItemFacts.Forall_firstn_keeps.
  apply (@ItemFacts.for_each_inv _ _ (Forall (topic_ok U))
                                 (fun l => one_line l = true) (topics_body U))
    with (xs := split_chr NL notes) (st := []) (st' := all);
    auto using ItemFacts.split_chr_one_line.
  intros st x st' Hx HI Hb.
  apply (@ItemFacts.topics_body_ok U st x Hx HI st' Hb).
Qed.

(** X4.  Every vocabulary term [_extract_vocabulary] returns is non-empty,
    has no blank at either end and holds no comma, semicolon or newline. *)
Theorem X4_vocabulary_terms_well_formed :
  forall U notes,
    exists l, _extract_vocabulary U notes = Ok l /\ Forall (term_ok U) l.
Proof.
  intros U notes.
  destruct (NotesFacts.vocabulary_ok U notes) as (all & Hrun & _).
  unfold _extract_vocabulary; rewrite Hrun; cbn [bind].
  eexists; split; [reflexivity|].
  apply ItemFacts.Forall_firstn_keeps.
  apply (@ItemFacts.for_each_inv _ _ (Forall (term_ok U))
                                 (fun l => one_line l = true)
                                 (vocabulary_body U))
    with (xs := split_chr NL notes) (st := []) (st' := all);
    auto using ItemFacts.split_chr_one_line.
  intros st x st' Hx HI Hb.
  apply (@ItemFacts.vocabulary_body_ok U st x Hx HI st' Hb).
Qed.

(** X5.  Vocabulary is only read from a line that holds both a marker word
    ([vocabulary], [vocab] or [terms]) and a colon: when no line of the
    notes is such a line the vocabulary is empty, so a header without a
    colon followed by a list of terms yields nothing. *)
Theorem X5_vocabulary_needs_marker_and_colon :
  forall U notes,
    Forall (fun line => vocabulary_line U line = false) (split_chr NL notes) ->
    _extract_vocabulary U notes = Ok [].
Proof.
  intros U notes H; unfold _extract_vocabulary.
  rewrite (@ItemFacts.for_each_idle _ _ _ (vocabulary_body U) []
             (fun x => @ItemFacts.vocabulary_body_idle U [] x)
             (split_chr NL notes) H).
  reflexivity.
Qed.

(** A header without a colon, then the terms on lines of their own. *)
Lemma X5_vocabulary_witness :
  _extract_vocabulary basic_latin
    (py "Vocabulary" ++ [NL] ++ py "- mitosis, meiosis" ++ [NL]
        ++ py "Note: cells divide")
  = Ok [].
Proof.
  apply (X5_vocabulary_needs_marker_and_colon basic_latin).
  repeat constructor.
Defined.

(* ------------------------------------------------------------------ *)
(** * Keywords inside keywords, digits after [grade], periods *)

Module QuirkFacts.
Import NotesAnalysisTool.

Lemma startswith_app p post : startswith p (p ++ post) = true.
Proof. induction p as [|c p IH]; simpl; auto. rewrite N.eqb_refl; auto. Qed.

Lemma contains_intro needle pre post :
  contains needle (pre ++ needle ++ post) = true.
Proof.
  induction pre as [|c pre IH]; simpl.
  - destruct (needle ++ post) eqn:E; simpl;
      rewrite <- E, startswith_app; reflexivity.
  - rewrite IH; apply orb_true_r.
Qed.

(** What is found in a part of a text is found in the text. *)
Lemma contains_trans a b text :
  contains a b = true -> contains b text = true -> contains a text = true.
Proof.
  intros Hab Hb.
  apply RegexFacts.contains_split in Hab as (p1 & q1 & ->).
  apply RegexFacts.contains_split in Hb as (p2 & q2 & ->).
  replace (p2 ++ (p1 ++ a ++ q1) ++ q2) with ((p2 ++ p1) ++ a ++ (q1 ++ q2))
    by (repeat rewrite <- app_assoc; reflexivity).
  apply contains_intro.
Qed.

Lemma score_positive text keywords keyword :
  In keyword keywords -> contains keyword text = true ->
  0 < score text keywords.
Proof.
  intros Hin Hc; rewrite SubjectFacts.score_present.
  assert (H : In keyword (filter (fun k => contains k text) keywords))
    by (apply filter_In; auto).
  destruct (filter (fun k => contains k text) keywords); [destruct H|].
  simpl; lia.
Qed.

Lemma split_unique {V} (l : list (str * V)) :
  NoDup (map fst l) ->
  forall p1 k v1 q1 p2 v2 q2,
    l = p1 ++ (k, v1) :: q1 -> l = p2 ++ (k, v2) :: q2 ->
    p1 = p2 /\ v1 = v2 /\ q1 = q2.
Proof.
  induction l as [|[k0 v0] l IH]; intros Hnd p1 k v1 q1 p2 v2 q2 H1 H2.
  - destruct p1; discriminate.
  - inversion Hnd as [|? ? Hk0 Hnd']; subst.
    destruct p1 as [|x p1], p2 as [|y p2]; simpl in *.
    + assert (E := eq_trans (eq_sym H1) H2).
      injection E as -> ->; auto.
    + injection H1 as E1 _ _; injection H2 as _ E2; subst.
      exfalso; apply Hk0; rewrite map_app; apply in_or_app; right; simpl; auto.
    + injection H2 as E1 _ _; injection H1 as _ E2; subst.
      exfalso; apply Hk0; rewrite map_app; apply in_or_app; right; simpl; auto.
    + injection H1 as Ex E1; injection H2 as Ey E2.
      destruct (IH Hnd' p1 k v1 q1 p2 v2 q2 E1 E2) as (-> & -> & ->).
      subst; auto.
Qed.

Section WithUnicode.
Variable U : unicode.

(** The category that is returned has a positive score, above every
    category declared before it. *)
Lemma identify_subject_inv notes name :
  _identify_subject U notes = Ok name ->
  name <> py "General/Multi-Subject" ->
  exists pre keywords post,
    subject_keywords = pre ++ (name, keywords) :: post
    /\ 0 < score (lower U notes) keywords
    /\ Forall (fun e => score (lower U notes) (snd e)
                        < score (lower U notes) keywords) pre.
Proof.
  intros Hres Hname.
  destruct (@SubjectFacts.first_max_split _
              (fun e : str * list str => score (lower U notes) (snd e))
              subject_keywords)
    as (pre & [n kws] & post & Htab & Hpre & Hpost); [discriminate|].
  simpl in Hpre, Hpost.
  destruct (score (lower U notes) kws) as [|m] eqn:Hs.
  - exfalso; apply Hname.
    assert (Hall : Forall (fun e => score (lower U notes) (snd e) = 0)
                          subject_keywords).
    { rewrite Htab; apply Forall_app; split.
      - eapply Forall_impl; [|exact Hpre]; simpl; intros; lia.
      - constructor; [assumption|].
        eapply Forall_impl; [|exact Hpost]; simpl; intros; lia. }
    rewrite (SubjectFacts.identify_subject_none U notes Hall) in Hres.
    injection Hres as <-; reflexivity.
  - assert (Hwin : _identify_subject U notes = Ok n).
    { apply (@SubjectFacts.identify_subject_winner U notes pre n kws post Htab);
        rewrite Hs; try assumption; lia. }
    rewrite Hwin in Hres; injection Hres as ->.
    exists pre, kws, post; rewrite Hs; repeat split; try assumption; lia.
Qed.

(** A category is never returned when a category declared before it
    scores at least as much. *)
Lemma earlier_category_blocks notes pre a ka mid b kb post :
  subject_keywords = pre ++ (a, ka) :: mid ++ (b, kb) :: post ->
  b <> py "General/Multi-Subject" ->
  score (lower U notes) kb <= score (lower U notes) ka ->
  _identify_subject U notes <> Ok b.
Proof.
  intros Htab Hb Hle Hres.
  destruct (identify_subject_inv notes Hres Hb)
    as (pre' & kb' & post' & Htab' & _ & Hpre').
  assert (Htab2 : subject_keywords = (pre ++ (a, ka) :: mid) ++ (b, kb) :: post)
    by (rewrite Htab, <- app_assoc; reflexivity).
  destruct (@split_unique _ subject_keywords SubjectFacts.subject_keywords_NoDup
              pre' b kb' post' (pre ++ (a, ka) :: mid) kb post Htab' Htab2)
    as (-> & -> & _).
  apply Forall_app in Hpre' as [_ Hpre'].
  inversion Hpre' as [|? ? Ha _]; subst; simpl in Ha; lia.
Qed.

Lemma many_run R p (k : nat -> str -> option R) x :
  forall taken post pos,
    Forall (fun c => p c = true) taken ->
    starts_outside p post ->
    k (pos + length taken) post = Some x ->
    many p pos (taken ++ post) k = Some x.
Proof.
  induction taken as [|c taken IH]; intros post pos Htaken Hpost Hk; simpl.
  - rewrite Nat.add_0_r in Hk.
    destruct post as [|c t]; simpl; [assumption|].
    simpl in Hpost; rewrite Hpost; assumption.
  - inversion Htaken as [|? ? Hc Htaken']; subst; rewrite Hc.
    rewrite (IH post (S pos) Htaken' Hpost); [reflexivity|].
    rewrite <- Hk; f_equal; simpl; lia.
Qed.

(** The first grade pattern at the start of a text that begins with
    [grade], blanks and a run of digits captures the whole run. *)
Lemma grade_prefix_match blanks ds post :
  Forall (fun c => isspace U c = true) blanks ->
  ds <> [] ->
  Forall (fun c => isdecimal U c = true) ds ->
  starts_outside (isspace U) ds ->
  starts_outside (isdecimal U) post ->
  exists m,
    match_at (nth 0 (grade_patterns U) Eps) 0
             (py "grade" ++ blanks ++ ds ++ post) = Some m
    /\ group1 m = Some ds.
Proof.
  intros Hb Hne Hds Hfirst Hpost.
  destruct ds as [|d ds]; [contradiction|].
  inversion Hds as [|? ? Hd Hds']; subst.
  change (nth 0 (grade_patterns U) Eps)
    with (Cat (Lit (py "grade"))
              (Cat (Many (ws U)) (Grp (Many1 (digit U))))).
  unfold match_at.
  rewrite GradeFacts.rmatch_cat, RegexFacts.lit_complete,
    GradeFacts.rmatch_cat, GradeFacts.rmatch_many.
  eexists; split.
  - apply many_run; [exact Hb | destruct blanks; exact Hfirst |].
    cbn [rmatch Many1 app]; unfold digit; rewrite Hd.
    apply many_run; [exact Hds' | exact Hpost | reflexivity].
  - cbn [group1]; f_equal.
    match goal with
    | |- firstn ?n _ = _ => replace n with (S (length ds)) by lia
    end.
    cbn [app firstn]; f_equal.
    rewrite firstn_app, firstn_all, Nat.sub_diag, firstn_O, app_nil_r.
    reflexivity.
Qed.
End WithUnicode.

Lemma search_from_here r pos s m :
  match_at r pos s = Some m -> search_from r pos s = Some m.
Proof. destruct s; simpl; intros ->; reflexivity. Qed.

Lemma split_chr_count sep s :
  length (split_chr sep s) = S (length (filter (N.eqb sep) s)).
Proof.
  induction s as [|c s IH]; simpl; [reflexivity|].
  rewrite (N.eqb_sym sep c).
  destruct (N.eqb c sep); simpl; [rewrite IH; reflexivity|].
  destruct (split_chr sep s); simpl in *; lia.
Qed.

End QuirkFacts.

(* ------------------------------------------------------------------ *)
(** * Consequences of substring matching and of the leftmost match *)

(** X7.  Keywords are looked for as substrings, so a keyword that contains
    a keyword of a category declared earlier scores for both.  [software]
    contains [war], [paragraph] and [geography] contain [graph]: a text in
    which [software] is the only Computer Science keyword is never
    classified Computer Science, one in which [paragraph] is the only
    English keyword never English/Language Arts, one in which [geography]
    is the only Social Studies keyword never Social Studies/History. *)
Theorem X7_keyword_inside_keyword :
  forall U notes,
    let text := lower U notes in
    (contains (py "software") text = true ->
     score text (keywords_of (py "Computer Science")) = 1 ->
     _identify_subject U notes <> Ok (py "Computer Science"))
    /\ (contains (py "paragraph") text = true ->
        score text (keywords_of (py "English/Language Arts")) = 1 ->
        _identify_subject U notes <> Ok (py "English/Language Arts"))
    /\ (contains (py "geography") text = true ->
        score text (keywords_of (py "Social Studies/History")) = 1 ->
        _identify_subject U notes <> Ok (py "Social Studies/History")).
Proof.
  intros U notes text; repeat split; intros Hc Hs.
  - apply (@QuirkFacts.earlier_category_blocks U notes
             (firstn 3 subject_keywords)
             (py "Social Studies/History")
             (keywords_of (py "Social Studies/History"))
             (firstn 3 (skipn 4 subject_keywords))
             (py "Computer Science") (keywords_of (py "Computer Science")) []);
      [reflexivity | discriminate |].
    fold text; rewrite Hs.
    apply (@QuirkFacts.score_positive text _ (py "war"));
      [simpl; auto|].
    apply (QuirkFacts.contains_trans (py "war") (py "software"));
      [reflexivity | assumption].
  - apply (@QuirkFacts.earlier_category_blocks U notes
             [] (py "Mathematics") (keywords_of (py "Mathematics"))
             (firstn 1 (skipn 1 subject_keywords))
             (py "English/Language Arts")
             (keywords_of (py "English/Language Arts"))
             (skipn 3 subject_keywords));
      [reflexivity | discriminate |].
    fold text; rewrite Hs.
    apply (@QuirkFacts.score_positive text _ (py "graph"));
      [simpl; auto 10|].
    apply (QuirkFacts.contains_trans (py "graph") (py "paragraph"));
      [reflexivity | assumption].
  - apply (@QuirkFacts.earlier_category_blocks U notes
             [] (py "Mathematics") (keywords_of (py "Mathematics"))
             (firstn 2 (skipn 1 subject_keywords))
             (py "Social Studies/History")
             (keywords_of (py "Social Studies/History"))
             (skipn 4 subject_keywords));
      [reflexivity | discriminate |].
    fold text; rewrite Hs.
    apply (@QuirkFacts.score_positive text _ (py "graph"));
      [simpl; auto 10|].
    apply (QuirkFacts.contains_trans (py "graph") (py "geography"));
      [reflexivity | assumption].
Qed.

(** Three one-keyword texts. *)
Lemma X7_keyword_witness :
  _identify_subject basic_latin (py "Install the software")
  <> Ok (py "Computer Science")
  /\ _identify_subject basic_latin (py "Write one paragraph")
     <> Ok (py "English/Language Arts")
  /\ _identify_subject basic_latin (py "World geography")
     <> Ok (py "Social Studies/History").
Proof.
  split; [|split].
  - apply (proj1 (X7_keyword_inside_keyword
                    basic_latin (py "Install the software")));
      reflexivity.
  - apply (proj1 (proj2 (X7_keyword_inside_keyword
                           basic_latin (py "Write one paragraph"))));
      reflexivity.
  - apply (proj2 (proj2 (X7_keyword_inside_keyword
                           basic_latin (py "World geography"))));
      reflexivity.
Defined.

(** X8.  The number of an explicit grade mention is not checked: when the
    lowercased text begins with [grade], optional blanks and a run of
    decimal digits, the label is ["Grade "] followed by exactly that run,
    leading zeros and any number of digits included. *)
Theorem X8_grade_digits_echoed :
  forall U notes blanks ds post,
    lower U notes = py "grade" ++ blanks ++ ds ++ post ->
    Forall (fun c => isspace U c = true) blanks ->
    ds <> [] ->
    Forall (fun c => isdecimal U c = true) ds ->
    starts_outside (isspace U) ds ->
    starts_outside (isdecimal U) post ->
    _extract_grade_level U notes = py "Grade " ++ ds.
Proof.
  intros U notes blanks ds post Htext Hb Hne Hds Hfirst Hpost.
  destruct (@QuirkFacts.grade_prefix_match U blanks ds post
              Hb Hne Hds Hfirst Hpost) as (m & Hm & Hg).
  unfold _extract_grade_level; rewrite Htext.
  unfold grade_patterns in *; cbn [nth] in Hm; cbn [explicit_grade].
  assert (Hs : re_search
                 (Cat (Lit (py "grade"))
                      (Cat (Many (ws U)) (Grp (Many1 (digit U)))))
                 (py "grade" ++ blanks ++ ds ++ post) = Some m).
  { unfold re_search; apply QuirkFacts.search_from_here; exact Hm. }
  rewrite Hs, Hg; reflexivity.
Qed.

(** ["Grade 007"] and a twelfth-digit number. *)
Lemma X8_grade_digits_witness :
  _extract_grade_level basic_latin (py "Grade 007") = py "Grade 007"
  /\ _extract_grade_level basic_latin (py "GRADE123456789012 math")
     = py "Grade 123456789012".
Proof.
  split.
  - apply (@X8_grade_digits_echoed basic_latin (py "Grade 007")
             (py " ") (py "007") []);
      try reflexivity; try discriminate; repeat constructor.
  - apply (@X8_grade_digits_echoed basic_latin (py "GRADE123456789012 math")
             [] (py "123456789012") (py " math"));
      try reflexivity; try discriminate; repeat constructor.
Defined.

(** X9.  The complexity analyzer counts one sentence per period plus one:
    its average sentence length is the number of words divided by the
    number of ["."] characters plus one, whatever the periods stand for
    and however sentences end otherwise. *)
Theorem X9_sentences_are_periods_plus_one :
  forall U notes,
    exists r,
      GradeLevelAnalyzer.analyze U notes = Ok r
      /\ length (split_chr period notes) = S (count_periods notes)
      /\ truediv (length (split_ws U notes)) (S (count_periods notes))
         = Ok (GradeLevelAnalyzer.avg_sentence_length r).
Proof.
  intros U notes.
  destruct (ComplexityFacts.analyze_ok U notes) as (w & s & _ & Hs & Hr).
  eexists; split; [exact Hr|].
  split; [apply QuirkFacts.split_chr_count|].
  rewrite QuirkFacts.split_chr_count in Hs; exact Hs.
Qed.

(* ------------------------------------------------------------------ *)
(** * main.py: the notes that are read, the arguments that are used *)

Module MainFacts.
Import Main.

Section WithUnicode.
Variable U : unicode.

(** Reading stops at the second blank line in a row and leaves what
    follows it. *)
Lemma read_lines_stops b1 b2 rest :
  strip U b2 = [] ->
  forall body lines count,
    count <= 1 ->
    no_blank_pair U (Nat.eqb count 1) (body ++ [b1]) = true ->
    strip U b1 = [] ->
    read_lines U (map Line (body ++ [b1; b2]) ++ rest) lines count
    = (lines ++ body ++ [b1], rest, None).
Proof.
  intros Hb2; induction body as [|l t IH]; intros lines count Hc Hn Hb1;
    simpl in *.
  - rewrite Hb1 in *; simpl in *.
    apply andb_true_iff in Hn as [Hn _].
    destruct count as [|[|c]]; try discriminate; try lia.
    simpl; rewrite Hb2; reflexivity.
  - destruct (truthy (strip U l)).
    + rewrite (IH (lines ++ [l]) 0); auto.
      rewrite <- app_assoc; reflexivity.
    + apply andb_true_iff in Hn as [Hp Hn].
      destruct count as [|[|c]]; try discriminate; try lia.
      simpl.
      rewrite (IH (lines ++ [l]) 1); auto.
      rewrite <- app_assoc; reflexivity.
Qed.

(** Without two blank lines in a row the whole input is read. *)
Lemma read_lines_all :
  forall body lines count,
    count <= 1 ->
    no_blank_pair U (Nat.eqb count 1) body = true ->
    read_lines U (map Line body) lines count = (lines ++ body, [], None).
Proof.
  induction body as [|l t IH]; intros lines count Hc Hn; simpl in *.
  - rewrite app_nil_r; reflexivity.
  - destruct (truthy (strip U l)).
    + rewrite (IH (lines ++ [l]) 0); auto.
      rewrite <- app_assoc; reflexivity.
    + apply andb_true_iff in Hn as [Hp Hn].
      destruct count as [|[|c]]; try discriminate; try lia.
      simpl.
      rewrite (IH (lines ++ [l]) 1); auto.
      rewrite <- app_assoc; reflexivity.
Qed.

Lemma get_user_input_ended stdin lines rest :
  read_lines U stdin [] 0 = (lines, rest, None) ->
  stdin_left (get_user_input U stdin) = rest
  /\ (ended (get_user_input U stdin) = Return (strip U (join [NL] lines))
      /\ strip U (join [NL] lines) <> []
      \/ ended (get_user_input U stdin) = SystemExit 1
         /\ strip U (join [NL] lines) = []).
Proof.
  intros H; unfold get_user_input; rewrite H.
  destruct (strip U (join [NL] lines)) eqn:E; simpl; split; auto.
  left; split; [reflexivity | discriminate].
Qed.

(** An exception leaves the loop only if [input()] raised it, and then
    nothing after it is read. *)
Lemma read_lines_escape : forall stdin lines count kept rest exception,
    read_lines U stdin lines count = (kept, rest, Some exception) ->
    exists before, stdin = map Line before ++ Fails exception :: rest.
Proof.
  induction stdin as [|[l | e] t IH]; intros lines count kept rest exception H;
    cbn [read_lines] in H.
  - discriminate.
  - destruct (truthy (strip U l)).
    + destruct (IH _ _ _ _ _ H) as (before & ->).
      exists (l :: before); reflexivity.
    + destruct (Nat.leb 2 (count + 1)); [discriminate|].
      destruct (IH _ _ _ _ _ H) as (before & ->).
      exists (l :: before); reflexivity.
  - injection H as H1 H2 H3; subst; exists []; reflexivity.
Qed.
End WithUnicode.

End MainFacts.

(** X10.  Whenever one of the two ways of reading the notes returns, the
    notes have at least one non-blank character: the interactive input
    returns the text trimmed at both ends, the file reader the content of
    the file unchanged.  Whenever one of them ends the program, the exit
    status is 1.  An exception that [input()] raises, other than
    [EOFError], is not caught: it passes through [get_user_input], and
    what follows it in the input is left unread. *)
Theorem X10_notes_are_never_blank :
  forall U,
    (forall stdin,
        match Main.ended (Main.get_user_input U stdin) with
        | Main.Return notes => notes <> [] /\ strip U notes = notes
        | Main.SystemExit code => code = 1%Z
        | Main.Uncaught _ => True
        | Main.Escaped exception =>
            exists before,
              stdin = map Main.Line before
                      ++ Main.Fails exception
                      :: Main.stdin_left (Main.get_user_input U stdin)
        end)
    /\ (forall before exception rest,
           no_blank_pair U false before = true ->
           Main.ended
             (Main.get_user_input U (map Main.Line before
                                     ++ Main.Fails exception :: rest))
           = Main.Escaped exception)
    /\ (forall opened file_path,
           match snd (Main.read_notes_from_file U opened file_path) with
           | Main.Return notes =>
               opened = Main.FileContent notes /\ strip U notes <> []
           | Main.SystemExit code => code = 1%Z
           | Main.Uncaught _ => True
           | Main.Escaped exception =>
               opened = Main.ReadInterrupted exception
           end).
Proof.
  intros U; split; [|split].
  - intros stdin.
    destruct (Main.read_lines U stdin [] 0) as [[lines rest] [e|]] eqn:E.
    + unfold Main.get_user_input; rewrite E; cbn.
      apply (@MainFacts.read_lines_escape U stdin [] 0 lines rest e E).
    + destruct (@MainFacts.get_user_input_ended U stdin lines rest E)
        as [_ [[-> Hne] | [-> _]]]; [|reflexivity].
      split; [assumption | apply StripFacts.strip_idem].
  - intros before exception rest Hn.
    assert (H : forall body lines count,
               count <= 1 ->
               no_blank_pair U (Nat.eqb count 1) body = true ->
               Main.read_lines U (map Main.Line body
                                  ++ Main.Fails exception :: rest)
                               lines count
               = (lines ++ body, rest, Some exception)).
    { induction body as [|l t IH]; intros lines count Hc Hb; simpl in *.
      - rewrite app_nil_r; reflexivity.
      - destruct (truthy (strip U l)).
        + rewrite (IH (lines ++ [l]) 0); auto.
          rewrite <- app_assoc; reflexivity.
        + apply andb_true_iff in Hb as [Hp Hb].
          destruct count as [|[|c]]; try discriminate; try lia.
          simpl.
          rewrite (IH (lines ++ [l]) 1); auto.
          rewrite <- app_assoc; reflexivity. }
    unfold Main.get_user_input; rewrite (H before [] 0); auto.
  - intros [content | | message | exception] file_path; simpl;
      try reflexivity.
    destruct (strip U content) eqn:E; simpl; [reflexivity|].
    split; [reflexivity | rewrite E; discriminate].
Qed.

(** A [KeyboardInterrupt] after one line of notes. *)
Lemma X10_notes_witness :
  Main.ended
    (Main.get_user_input basic_latin
       [Main.Line (py "Topic: cells"); Main.Fails (py "KeyboardInterrupt");
        Main.Line (py "unread")])
  = Main.Escaped (py "KeyboardInterrupt").
Proof.
  apply (proj1 (proj2 (X10_notes_are_never_blank basic_latin))
               [py "Topic: cells"] (py "KeyboardInterrupt")
               [Main.Line (py "unread")]).
  reflexivity.
Defined.

(** X11.  The interactive input ends at the second blank line in a row:
    the lines before it are joined (the first blank line included, the
    second dropped) and what follows is left unread.  Without two blank
    lines in a row the whole input is read up to its end. *)
Theorem X11_input_ends_at_second_blank_line :
  forall U body b1 b2 rest,
    no_blank_pair U false (body ++ [b1]) = true ->
    strip U b1 = [] ->
    strip U b2 = [] ->
    let notes := strip U (join [NL] (body ++ [b1])) in
    let stopped :=
      Main.get_user_input U (map Main.Line (body ++ [b1; b2]) ++ rest) in
    let at_end := Main.get_user_input U (map Main.Line (body ++ [b1])) in
    Main.stdin_left stopped = rest
    /\ Main.stdin_left at_end = []
    /\ Main.ended stopped = Main.ended at_end
    /\ (Main.ended stopped = Main.Return notes /\ notes <> []
        \/ Main.ended stopped = Main.SystemExit 1 /\ notes = []).
Proof.
  intros U body b1 b2 rest Hn Hb1 Hb2 notes stopped at_end.
  assert (Hstop : Main.read_lines U (map Main.Line (body ++ [b1; b2]) ++ rest)
                                  [] 0
                  = (body ++ [b1], rest, None))
    by (apply (@MainFacts.read_lines_stops U b1 b2 rest Hb2 body [] 0); auto).
  assert (Hall : Main.read_lines U (map Main.Line (body ++ [b1])) [] 0
                 = (body ++ [b1], [], None))
    by (apply (@MainFacts.read_lines_all U (body ++ [b1]) [] 0); auto).
  destruct (@MainFacts.get_user_input_ended U _ _ _ Hstop) as [H1 H2].
  destruct (@MainFacts.get_user_input_ended U _ _ _ Hall) as [H3 H4].
  fold stopped in H1, H2; fold at_end in H3, H4; fold notes in H2, H4.
  repeat split; try assumption.
  destruct H2 as [[-> Hne] | [-> He]], H4 as [[-> Hne'] | [-> He']];
    try reflexivity; congruence.
Qed.

(** Two paragraphs, a single blank line between them, then two blank lines
    and more text. *)
Lemma X11_input_witness :
  let body := [py "Topic: cells"; []; py "Grade 7"] in
  let stopped :=
    Main.get_user_input basic_latin
      (map Main.Line (body ++ [[]; py " "]) ++ [Main.Line (py "unread")]) in
  Main.stdin_left stopped = [Main.Line (py "unread")]
  /\ Main.ended stopped
     = Main.Return (py "Topic: cells" ++ [NL; NL] ++ py "Grade 7").
Proof.
  destruct (@X11_input_ends_at_second_blank_line basic_latin
              [py "Topic: cells"; []; py "Grade 7"] [] (py " ")
              [Main.Line (py "unread")] eq_refl eq_refl eq_refl)
    as (H1 & _ & _ & H2).
  split; [exact H1|].
  destruct H2 as [[H2 _] | [_ H2]]; [exact H2 | discriminate H2].
Defined.

(** X12.  [train] checks for three arguments but reads a fourth: with
    exactly three arguments and an iteration count that [int] accepts, an
    [IndexError] escapes from [sys.argv[3]]; with fewer than three it
    prints the usage and exits with status 1.  [test], which checks for
    four, and [replay], which reads only the third, never let an
    [IndexError] escape, whatever the crew does. *)
Theorem X12_train_reads_a_fourth_argument :
  forall int_of_str crew_train crew_replay crew_test argv,
    (snd (Main.train int_of_str crew_train argv) = Main.Uncaught IndexError
     <-> length argv = 3
         /\ exists n, int_of_str (nth 2 argv []) = Some n)
    /\ (length argv < 3 <->
        snd (Main.train int_of_str crew_train argv) = Main.SystemExit 1
        /\ length (fst (Main.train int_of_str crew_train argv)) = 3)
    /\ snd (Main.test int_of_str crew_test argv) <> Main.Uncaught IndexError
    /\ snd (Main.replay crew_replay argv) <> Main.Uncaught IndexError.
Proof.
  intros int_of_str crew_train crew_replay crew_test argv.
  destruct argv as [|a0 [|a1 [|a2 [|a3 more]]]];
    unfold Main.train, Main.test, Main.replay, Main.with_int, Main.with_arg,
      index; simpl;
    try destruct (int_of_str a2) as [n|] eqn:En;
    try destruct (crew_train n a3 Main.train_notes);
    try destruct (crew_test n a3 Main.test_notes);
    try destruct (crew_replay a2);
    simpl; repeat split; intros;
    repeat match goal with
           | H : _ /\ _ |- _ => destruct H
           | H : exists _, _ |- _ => destruct H
           end;
    try discriminate; try lia; try congruence; eauto.
Qed.

(* ------------------------------------------------------------------ *)
(** * The rendered notes report *)

Module NotesReportFacts.
Import NotesAnalysisTool.

Lemma unlines_app a b : unlines (a ++ b) = unlines a ++ unlines b.
Proof. unfold unlines; rewrite map_app, concat_app; reflexivity. Qed.

Lemma bullet_lines_unlines items :
  bullet_lines items
  = unlines (map (fun x => py "  " ++ [bullet] ++ py " " ++ x) items).
Proof.
  unfold bullet_lines, unlines; induction items as [|x items IH];
    [reflexivity|].
  cbn [map concat]; rewrite IH.
  repeat rewrite <- app_assoc; reflexivity.
Qed.

Lemma bullet_section_unlines title items :
  bullet_section title items = unlines (section_lines title items).
Proof.
  destruct items as [|x items]; [reflexivity|].
  unfold bullet_section, section_lines.
  rewrite bullet_lines_unlines.
  change (unlines (title :: ?l)) with ((title ++ [NL]) ++ unlines l).
  rewrite unlines_app; repeat rewrite <- app_assoc; reflexivity.
Qed.

Lemma notes_render_unlines a : render a = unlines (notes_report_lines a).
Proof.
  unfold render, notes_report_lines.
  rewrite !unlines_app, <- !bullet_section_unlines.
  destruct (vocabulary a) as [|v vs]; cbn [unlines map concat];
    repeat rewrite <- app_assoc; reflexivity.
Qed.

Lemma one_line_join sep xs :
  one_line sep = true -> Forall (fun x => one_line x = true) xs ->
  one_line (join sep xs) = true.
Proof.
  intros Hs H; induction H as [|x xs Hx Hxs IH]; [reflexivity|].
  destruct xs as [|y ys]; [exact Hx|].
  change (join sep (x :: y :: ys)) with (x ++ sep ++ join sep (y :: ys)).
  rewrite !ReportFacts.one_line_app, Hx, Hs, IH; reflexivity.
Qed.

Lemma one_line_str_of_nat n : one_line (str_of_nat n) = true.
Proof.
  unfold str_of_nat, NilZero.string_of_uint.
  destruct (Nat.to_uint n); try apply ReportFacts.one_line_uint; reflexivity.
Qed.

Lemma section_lines_one_line title items :
  one_line title = true -> Forall (fun x => one_line x = true) items ->
  Forall (fun x => one_line x = true) (section_lines title items).
Proof.
  intros Ht H; destruct items as [|x items]; [constructor|].
  unfold section_lines; constructor; [assumption|].
  apply Forall_app; split; [|repeat constructor].
  apply Forall_forall; intros l Hl.
  apply in_map_iff in Hl as (y & <- & Hy).
  rewrite Forall_forall in H.
  rewrite !ReportFacts.one_line_app, (H y Hy); reflexivity.
Qed.

Lemma section_lines_length title items :
  length (section_lines title items) = section_height items.
Proof.
  destruct items as [|x items]; [reflexivity|].
  unfold section_lines, section_height.
  simpl; rewrite length_app, length_map; simpl; unfold str; lia.
Qed.

(** The report of an analysis whose texts hold no newline has one line per
    entry of [notes_report_lines]. *)
Lemma notes_report_one_line a :
  one_line (subject a) = true ->
  one_line (grade_level a) = true ->
  Forall (fun x => one_line x = true) (key_concepts a) ->
  Forall (fun x => one_line x = true) (learning_objectives a) ->
  Forall (fun x => one_line x = true) (vocabulary a) ->
  Forall (fun x => one_line x = true) (prior_knowledge a) ->
  Forall (fun x => one_line x = true) (real_world_connections a) ->
  Forall (fun x => one_line x = true) (notes_report_lines a).
Proof.
  intros Hs Hg Hkc Hlo Hvo Hpk Hrw; unfold notes_report_lines.
  repeat (apply Forall_app; split);
    try (apply section_lines_one_line; [reflexivity | assumption]).
  - repeat constructor; rewrite ReportFacts.one_line_app;
      rewrite ?Hs, ?Hg; reflexivity.
  - destruct (vocabulary a) as [|v vs] eqn:E; [constructor|].
    rewrite <- E in *; repeat constructor.
    rewrite ReportFacts.one_line_app, one_line_join; auto.
  - repeat constructor;
      rewrite !ReportFacts.one_line_app, ?one_line_str_of_nat;
      try reflexivity;
      match goal with
      | |- context [str_of_bool ?b] => destruct b; reflexivity
      end.
Qed.

Lemma report_lines_length a :
  length (notes_report_lines a)
  = 9 + section_height (key_concepts a)
    + section_height (learning_objectives a)
    + match vocabulary a with [] => 0 | _ => 2 end
    + section_height (prior_knowledge a)
    + section_height (real_world_connections a).
Proof.
  unfold notes_report_lines.
  rewrite !length_app, !section_lines_length.
  destruct (vocabulary a); simpl; lia.
Qed.

Lemma Forall_item_one_line U n l :
  Forall (item_ok U n) l -> Forall (fun x => one_line x = true) l.
Proof.
  intros H; eapply Forall_impl; [|exact H].
  intros x (_ & _ & _ & Hx); exact Hx.
Qed.

Lemma Forall_term_one_line U l :
  Forall (term_ok U) l -> Forall (fun x => one_line x = true) l.
Proof.
  intros H; eapply Forall_impl; [|exact H].
  intros x (_ & _ & _ & _ & Hx); exact Hx.
Qed.

Section WithUnicode.
Variable U : unicode.

Lemma subject_one_line notes s :
  _identify_subject U notes = Ok s -> one_line s = true.
Proof.
  intros H.
  destruct (list_eq_dec N.eq_dec s (py "General/Multi-Subject")) as [-> | Hs];
    [reflexivity|].
  destruct (QuirkFacts.identify_subject_inv U notes H Hs)
    as (pre & kws & post & Htab & _).
  assert (Hall : Forall (fun x => one_line x = true) (map fst subject_keywords))
    by (repeat constructor).
  rewrite Forall_forall in Hall; apply Hall.
  rewrite Htab, map_app; apply in_or_app; right; left; reflexivity.
Qed.

Lemma grade_one_line notes :
  isdecimal U NL = false -> one_line (_extract_grade_level U notes) = true.
Proof.
  intros Hnl; unfold _extract_grade_level.
  destruct (explicit_grade (grade_patterns U) (lower U notes)) as [r|] eqn:E.
  - destruct (@GradeFacts.explicit_grade_sound U (lower U notes) _ r
                (fun q Hq => Hq) E) as (g & [_ Hg] & ->).
    rewrite ReportFacts.one_line_app; simpl.
    apply ItemFacts.one_line_In; intros c Hc ->.
    rewrite Forall_forall in Hg; rewrite (Hg NL Hc) in Hnl; discriminate.
  - repeat match goal with
           | |- context [if ?b then _ else _] => destruct b
           end; reflexivity.
Qed.

(** The lists of an analysis hold texts without newline. *)
Lemma analysis_one_line notes :
  exists a,
    analysis U notes = Ok a
    /\ one_line (subject a) = true
    /\ grade_level a = _extract_grade_level U notes
    /\ Forall (fun x => one_line x = true) (key_concepts a)
    /\ Forall (fun x => one_line x = true) (learning_objectives a)
    /\ Forall (fun x => one_line x = true) (vocabulary a)
    /\ Forall (fun x => one_line x = true) (prior_knowledge a)
    /\ Forall (fun x => one_line x = true) (real_world_connections a).
Proof.
  destruct (NotesFacts.analysis_ok U notes)
    as (subj & i1 & kc & i2 & lo & vo & tp & i3 & pk & i4 & rw
        & Hsubj & Hkc & Hlo & Hvo & Htp & Hpk & Hrw & _ & _ & _ & _ & _ & _
        & Ha).
  destruct (@ItemFacts.scanner_items_ok U 5 (concepts_body U) notes
              (ItemFacts.concepts_body_shape U)
              (NotesFacts.concepts_body_emits U)) as (j1 & kc' & Hkc' & Fkc).
  destruct (@ItemFacts.scanner_items_ok U 10 (objectives_body U) notes
              (ItemFacts.objectives_body_shape U)
              (NotesFacts.objectives_body_emits U)) as (j2 & lo' & Hlo' & Flo).
  destruct (@ItemFacts.scanner_items_ok U 5 (prior_body U) notes
              (ItemFacts.section_body_shape U _)
              (NotesFacts.section_body_emits U _)) as (j3 & pk' & Hpk' & Fpk).
  destruct (@ItemFacts.scanner_items_ok U 5 (real_world_body U) notes
              (ItemFacts.section_body_shape U _)
              (NotesFacts.section_body_emits U _)) as (j4 & rw' & Hrw' & Frw).
  rewrite Hkc in Hkc'; injection Hkc' as <- <-.
  rewrite Hlo in Hlo'; injection Hlo' as <- <-.
  rewrite Hpk in Hpk'; injection Hpk' as <- <-.
  rewrite Hrw in Hrw'; injection Hrw' as <- <-.
  assert (Fvo : Forall (term_ok U) vo).
  { apply (@ItemFacts.for_each_inv _ _ (Forall (term_ok U))
                                   (fun l => one_line l = true)
                                   (vocabulary_body U))
      with (xs := split_chr NL notes) (st := []) (st' := vo);
      auto using ItemFacts.split_chr_one_line.
    intros st x st' Hx HI Hb.
    apply (@ItemFacts.vocabulary_body_ok U st x Hx HI st' Hb). }
  eexists; split; [exact Ha|].
  cbn [subject grade_level key_concepts learning_objectives vocabulary
       prior_knowledge real_world_connections].
  split; [apply (subject_one_line notes Hsubj)|].
  split; [reflexivity|].
  repeat split; apply ItemFacts.Forall_firstn_keeps;
    eauto using Forall_item_one_line, Forall_term_one_line.
Qed.
End WithUnicode.

End NotesReportFacts.

(** X6.  The notes report is laid out line by line: the heading, the
    subject and grade lines, a titled list for each non-empty list of key
    concepts, objectives, prior knowledge and real-world connections, one
    line for the vocabulary, and the three statistics lines.  No extracted
    text can break a line, so the report has exactly 9 lines plus, for each
    non-empty list, its length plus 2 (2 for the vocabulary); the topics,
    the line count and the standards flag are not printed. *)
Theorem X6_notes_report_layout :
  forall U notes,
    isdecimal U NL = false ->
    exists a,
      analysis U notes = Ok a
      /\ NotesAnalysisTool.run U notes = Ok (unlines (notes_report_lines a))
      /\ split_chr NL (unlines (notes_report_lines a))
         = notes_report_lines a ++ [[]]
      /\ length (notes_report_lines a)
         = 9 + section_height (key_concepts a)
           + section_height (learning_objectives a)
           + match vocabulary a with [] => 0 | _ => 2 end
           + section_height (prior_knowledge a)
           + section_height (real_world_connections a).
Proof.
  intros U notes Hnl.
  destruct (NotesReportFacts.analysis_one_line U notes)
    as (a & Ha & Hs & Hg & Hkc & Hlo & Hvo & Hpk & Hrw).
  exists a; split; [exact Ha|].
  split; [|split].
  - unfold NotesAnalysisTool.run; rewrite Ha; cbn [bind].
    rewrite NotesReportFacts.notes_render_unlines; reflexivity.
  - apply ReportFacts.split_unlines, NotesReportFacts.notes_report_one_line;
      try assumption.
    rewrite Hg; apply NotesReportFacts.grade_one_line; assumption.
  - apply NotesReportFacts.report_lines_length.
Qed.

(** Notes with two key concepts and a vocabulary line. *)
Lemma X6_notes_report_witness :
  exists a,
    analysis basic_latin
             (py "Key Concepts:" ++ [NL] ++ py "- Photosynthesis uses light"
                 ++ [NL] ++ py "- Produces oxygen" ++ [NL]
                 ++ py "Vocabulary: stoma, chlorophyll") = Ok a
    /\ length (notes_report_lines a) = 15.
Proof.
  destruct (@X6_notes_report_layout basic_latin
              (py "Key Concepts:" ++ [NL] ++ py "- Photosynthesis uses light"
                  ++ [NL] ++ py "- Produces oxygen" ++ [NL]
                  ++ py "Vocabulary: stoma, chlorophyll") eq_refl)
    as (a & Ha & _ & _ & Hlen).
  exists a; split; [exact Ha|].
  rewrite Hlen.
  assert (E : Ok a = analysis basic_latin
                (py "Key Concepts:" ++ [NL] ++ py "- Photosynthesis uses light"
                    ++ [NL] ++ py "- Produces oxygen" ++ [NL]
                    ++ py "Vocabulary: stoma, chlorophyll"))
    by (symmetry; exact Ha).
  vm_compute in E; injection E as ->; reflexivity.
Defined.
